(** * The netdev LED trigger (drivers/leds/trigger/ledtrig-netdev.c)

    A shallow embedding of the trigger's per-LED state, of its sysfs store
    handlers, of the netdevice notifier and of the delayed work that samples
    the packet counters, followed by the properties of the controller that
    the specification states about them.

    The driver mutates one [struct led_netdev_data] and calls into the LED
    core, the workqueue and the netdevice layer.  The embedding threads the
    struct through a small state monad that also records, in order, every
    call by which the driver acts on them: setting the LED, blinking it,
    queueing and cancelling the work, taking and dropping a reference to a
    device.  What the driver only reads (the registry, the parsed text) is
    passed in. *)

From Stdlib Require Import ZArith List String Ascii Bool Lia DecimalString.
Import ListNotations.

Local Open Scope string_scope.
Local Open Scope list_scope.
Local Open Scope Z_scope.

(** ** Machine integers *)

(** [unsigned int]: 32 bits. *)
Definition to_uint (x : Z) : Z := x mod 2 ^ 32.

(** [__u64], and [unsigned long] on an LP64 kernel. *)
Definition to_u64 (x : Z) : Z := x mod 2 ^ 64.
Definition to_ulong (x : Z) : Z := to_u64 x.

(** [int], two's complement (the kernel is built with wrapping overflow). *)
Definition to_int (x : Z) : Z := (x + 2 ^ 31) mod 2 ^ 32 - 2 ^ 31.

(** ** C strings and character arrays

    A [char] array is a [string] that may hold NUL characters; a pointer to a
    NUL-terminated C string is a [string] whose end stands for the
    terminator (a NUL inside it ends the C string earlier). *)

Definition NUL : ascii := "000"%char.
Definition LF : ascii := "010"%char.

(** The C string held in an array: the characters before the first NUL. *)
Fixpoint cstr (a : string) : string :=
  match a with
  | EmptyString => EmptyString
  | String c r => if Ascii.eqb c NUL then EmptyString else String c (cstr r)
  end.

Definition Z_of_char (c : ascii) : Z := Z.of_nat (nat_of_ascii c).

(** [strcmp]: the difference of the first pair of bytes that differ. *)
Fixpoint strcmp (s1 s2 : string) : Z :=
  match s1, s2 with
  | EmptyString, EmptyString => 0
  | EmptyString, String c2 _ => 0 - Z_of_char c2
  | String c1 _, EmptyString => Z_of_char c1 - 0
  | String c1 r1, String c2 r2 =>
      if Ascii.eqb c1 c2
      then (if Ascii.eqb c1 NUL then 0 else strcmp r1 r2)
      else Z_of_char c1 - Z_of_char c2
  end.

(** [strncpy dest src n]: writes exactly [n] bytes of [dest]; bytes of [src]
    up to its terminator, then NUL padding.  No terminator is written when
    [src] holds [n] or more characters. *)
Fixpoint strncpy (dest src : string) (n : nat) : string :=
  match n with
  | O => dest
  | S n' =>
      match dest with
      | EmptyString => EmptyString
      | String _ dest' =>
          match src with
          | EmptyString => String NUL (strncpy dest' EmptyString n')
          | String c src' =>
              if Ascii.eqb c NUL
              then String NUL (strncpy dest' EmptyString n')
              else String c (strncpy dest' src' n')
          end
      end
  end.

(** [a[i] = c] *)
Fixpoint array_set (a : string) (i : nat) (c : ascii) : string :=
  match a, i with
  | EmptyString, _ => EmptyString
  | String _ r, O => String c r
  | String x r, S i' => String x (array_set r i' c)
  end.

(** [a[i]] *)
Definition array_get (a : string) (i : nat) : ascii :=
  match String.get i a with
  | Some c => c
  | None => NUL
  end.

(** [strstr haystack needle]: the suffix of [haystack] that starts at the
    first occurrence of the C string [needle] in the C string [haystack],
    [None] for the null pointer.  Both are read up to their terminator: the
    search does not go past the first NUL of [haystack]. *)
Fixpoint strstr (haystack needle : string) : option string :=
  if String.prefix (cstr needle) (cstr haystack) then Some haystack
  else match haystack with
       | EmptyString => None
       | String c h' => if Ascii.eqb c NUL then None else strstr h' needle
       end.

(** ** The kernel interfaces the driver is compiled against *)

(** Helpers declared in headers outside the driver.  [kstrtoul buf] is
    [kstrtoul(buf, 0, &value)]: the return code and the parsed value.
    [msecs_to_jiffies] and [jiffies_to_msecs] depend on the tick rate HZ. *)
Class kernel_api := {
  kstrtoul : string -> Z * Z;
  msecs_to_jiffies : Z -> Z;
  jiffies_to_msecs : Z -> Z
}.

Definition EINVAL : Z := 22.
Definition NOTIFY_DONE : Z := 0.
Definition LED_OFF : Z := 0.

(** Modelled from the spec: the name-size limit of a device name
    ([IFNAMSIZ], declared in a header outside the driver; 16 in Linux). *)
Definition IFNAMSIZ : nat := 16.

(** A [struct net_device *]. *)
Definition net_device := nat.

Record rtnl_link_stats64 := {
  rx_packets : Z;
  tx_packets : Z
}.

(** Modelled from the spec: the Device Registry ([lookupByName],
    [isLinkUp], [currentCounters]) and the name an event's device carries.
    The registry is owned by the network stack and changes between two
    calls into the driver, so every entry point takes the registry of the
    moment it runs. *)
Record netns := {
  dev_get_by_name : string -> option net_device;
  dev_name : net_device -> string;
  netif_carrier_ok : net_device -> bool;
  dev_get_stats : net_device -> rtnl_link_stats64
}.

(** The notifier events ([NETDEV_*]); the driver handles six of them. *)
Inductive netdev_event :=
| NETDEV_UP | NETDEV_DOWN | NETDEV_REBOOT | NETDEV_CHANGE
| NETDEV_REGISTER | NETDEV_UNREGISTER | NETDEV_CHANGEMTU
| NETDEV_CHANGEADDR | NETDEV_GOING_DOWN | NETDEV_CHANGENAME
| NETDEV_FEAT_CHANGE.

(** The calls the driver acts with, as they appear in the source.  The
    reference [dev_get_by_name] takes on the device it returns is taken
    inside that function and is not listed. *)
Inductive call :=
| LedSetBrightness (value : Z)
| LedStopSoftwareBlink
| LedBlinkSetOneshot (delay_on delay_off : Z) (invert : Z)
| ScheduleDelayedWork (delay : Z)
| CancelDelayedWorkSync
| DevHold (dev : net_device)
| DevPut (dev : net_device).

(** ** The data model *)

(** The fields of [struct led_classdev] the driver reads and writes. *)
Record led_classdev := {
  brightness : Z;
  max_brightness : Z;
  blink_brightness : Z
}.

(** [struct led_netdev_data].  [work] is the delayed work item: [Some d]
    while it is queued to run after [d] jiffies, [None] otherwise.  The lock
    and the notifier block carry no data. *)
Record led_netdev_data := {
  work : option Z;
  led_cdev : led_classdev;
  net_dev : option net_device;
  device_name : string;
  interval : Z;
  last_activity : Z;
  mode : Z
}.

Definition NETDEV_LED_LINK : Z := 0.
Definition NETDEV_LED_TX : Z := 1.
Definition NETDEV_LED_RX : Z := 2.
Definition NETDEV_LED_MODE_LINKUP : Z := 3.

Inductive netdev_led_attr := NETDEV_ATTR_LINK | NETDEV_ATTR_TX | NETDEV_ATTR_RX.

(** The enumerators double as bit numbers in [mode_show]. *)
Definition attr_value (a : netdev_led_attr) : Z :=
  match a with
  | NETDEV_ATTR_LINK => 0
  | NETDEV_ATTR_TX => 1
  | NETDEV_ATTR_RX => 2
  end.

Definition test_bit (nr : Z) (addr : Z) : bool := Z.testbit addr nr.
Arguments test_bit : simpl never.

Definition with_work (td : led_netdev_data) (v : option Z) :=
  {| work := v; led_cdev := led_cdev td; net_dev := net_dev td;
     device_name := device_name td; interval := interval td;
     last_activity := last_activity td; mode := mode td |}.

Definition with_led_cdev (td : led_netdev_data) (v : led_classdev) :=
  {| work := work td; led_cdev := v; net_dev := net_dev td;
     device_name := device_name td; interval := interval td;
     last_activity := last_activity td; mode := mode td |}.

Definition with_net_dev (td : led_netdev_data) (v : option net_device) :=
  {| work := work td; led_cdev := led_cdev td; net_dev := v;
     device_name := device_name td; interval := interval td;
     last_activity := last_activity td; mode := mode td |}.

Definition with_device_name (td : led_netdev_data) (v : string) :=
  {| work := work td; led_cdev := led_cdev td; net_dev := net_dev td;
     device_name := v; interval := interval td;
     last_activity := last_activity td; mode := mode td |}.

Definition with_interval (td : led_netdev_data) (v : Z) :=
  {| work := work td; led_cdev := led_cdev td; net_dev := net_dev td;
     device_name := device_name td; interval := v;
     last_activity := last_activity td; mode := mode td |}.

Definition with_last_activity (td : led_netdev_data) (v : Z) :=
  {| work := work td; led_cdev := led_cdev td; net_dev := net_dev td;
     device_name := device_name td; interval := interval td;
     last_activity := v; mode := mode td |}.

Definition with_mode (td : led_netdev_data) (v : Z) :=
  {| work := work td; led_cdev := led_cdev td; net_dev := net_dev td;
     device_name := device_name td; interval := interval td;
     last_activity := last_activity td; mode := v |}.

Definition with_brightness (l : led_classdev) (v : Z) :=
  {| brightness := v; max_brightness := max_brightness l;
     blink_brightness := blink_brightness l |}.

Definition with_blink_brightness (l : led_classdev) (v : Z) :=
  {| brightness := brightness l; max_brightness := max_brightness l;
     blink_brightness := v |}.

(** ** The monad: the struct is threaded, the calls are logged *)

Definition M (A : Type) : Type :=
  led_netdev_data -> A * led_netdev_data * list call.

Definition ret {A} (a : A) : M A := fun td => (a, td, []).

Definition bind {A B} (m : M A) (k : A -> M B) : M B :=
  fun td =>
    let '(a, td1, c1) := m td in
    let '(b, td2, c2) := k a td1 in
    (b, td2, c1 ++ c2).

Definition get : M led_netdev_data := fun td => (td, td, []).
Definition modify (f : led_netdev_data -> led_netdev_data) : M unit :=
  fun td => (tt, f td, []).
Definition emit (c : call) : M unit := fun td => (tt, td, [c]).

Notation "x <- c1 ;; c2" := (bind c1 (fun x => c2))
  (at level 61, c1 at next level, right associativity).
Notation "e1 ;; e2" := (bind e1 (fun _ => e2))
  (at level 61, right associativity).

Definition result {A} (r : A * led_netdev_data * list call) : A := fst (fst r).
Definition state_of {A} (r : A * led_netdev_data * list call) : led_netdev_data :=
  snd (fst r).
Definition calls_of {A} (r : A * led_netdev_data * list call) : list call := snd r.

(** *** Primitives *)

Definition set_bit (nr : Z) : M unit :=
  modify (fun td => with_mode td (Z.setbit (mode td) nr)).

Definition clear_bit (nr : Z) : M unit :=
  modify (fun td => with_mode td (Z.clearbit (mode td) nr)).

(** Modelled from the spec: the Indicator Port's [setLevel]; the LED core
    records the level it was asked for in [brightness]. *)
Definition led_set_brightness (value : Z) : M unit :=
  emit (LedSetBrightness value) ;;
  modify (fun td => with_led_cdev td (with_brightness (led_cdev td) value)).

(** Modelled from the spec: the Indicator Port's [stopBlink]. *)
Definition led_stop_software_blink : M unit := emit LedStopSoftwareBlink.

(** Modelled from the spec: the Indicator Port's [startOneShotBlink]. *)
Definition led_blink_set_oneshot (delay_on delay_off invert : Z) : M unit :=
  emit (LedBlinkSetOneshot delay_on delay_off invert).

(** Modelled from the spec: starting the Activity Poller.  Queueing a work
    item that is already queued leaves its timer as it is. *)
Definition schedule_delayed_work (delay : Z) : M unit :=
  emit (ScheduleDelayedWork delay) ;;
  modify (fun td => match work td with
                    | Some _ => td
                    | None => with_work td (Some delay)
                    end).

(** Modelled from the spec: cancelling the Activity Poller and waiting for
    an in-flight tick; afterwards the work item is not queued. *)
Definition cancel_delayed_work_sync : M unit :=
  emit CancelDelayedWorkSync ;;
  modify (fun td => with_work td None).

Definition dev_put (dev : net_device) : M unit := emit (DevPut dev).
Definition dev_hold (dev : net_device) : M unit := emit (DevHold dev).

Definition set_blink_brightness (v : Z) : M unit :=
  modify (fun td => with_led_cdev td (with_blink_brightness (led_cdev td) v)).

(** ** The driver *)

Definition set_baseline_state : M unit :=
  td <- get ;;
  let current_brightness := brightness (led_cdev td) in
  (if negb (current_brightness =? 0)
   then set_blink_brightness current_brightness
   else ret tt) ;;
  td <- get ;;
  (if blink_brightness (led_cdev td) =? 0
   then set_blink_brightness (max_brightness (led_cdev td))
   else ret tt) ;;
  td <- get ;;
  if negb (test_bit NETDEV_LED_MODE_LINKUP (mode td))
  then led_set_brightness LED_OFF
  else
    (if test_bit NETDEV_LED_LINK (mode td)
     then led_set_brightness (blink_brightness (led_cdev td))
     else led_set_brightness LED_OFF) ;;
    (if test_bit NETDEV_LED_TX (mode td) || test_bit NETDEV_LED_RX (mode td)
     then schedule_delayed_work 0
     else ret tt).
Arguments set_baseline_state : simpl never.

Definition device_name_show : M string :=
  td <- get ;;
  ret (cstr (device_name td) ++ String LF EmptyString)%string.

Section Driver.
Context {K : kernel_api}.

Definition device_name_store (init_net : netns) (buf : string) (size : nat)
  : M Z :=
  if (IFNAMSIZ <=? size)%nat then ret (- EINVAL)
  else
    cancel_delayed_work_sync ;;
    td <- get ;;
    match net_dev td with
    | Some dev => dev_put dev ;; modify (fun td => with_net_dev td None)
    | None => ret tt
    end ;;
    modify (fun td =>
              with_device_name td (strncpy (device_name td) buf size)) ;;
    td <- get ;;
    (if (0 <? size)%nat
        && Ascii.eqb (array_get (device_name td) (size - 1)) LF
     then modify (fun td =>
                    with_device_name td
                      (array_set (device_name td) (size - 1) NUL))
     else ret tt) ;;
    td <- get ;;
    (if negb (Ascii.eqb (array_get (device_name td) 0) NUL)
     then modify (fun td =>
                    with_net_dev td
                      (dev_get_by_name init_net (cstr (device_name td))))
     else ret tt) ;;
    clear_bit NETDEV_LED_MODE_LINKUP ;;
    td <- get ;;
    match net_dev td with
    | Some dev =>
        if netif_carrier_ok init_net dev
        then set_bit NETDEV_LED_MODE_LINKUP
        else ret tt
    | None => ret tt
    end ;;
    modify (fun td => with_last_activity td 0) ;;
    set_baseline_state ;;
    ret (Z.of_nat size).

Definition netdev_led_attr_store (buf : string) (size : nat)
    (attr : netdev_led_attr) : M Z :=
  let '(ret_, state) := kstrtoul buf in
  if negb (ret_ =? 0) then ret ret_
  else
    let bit := match attr with
               | NETDEV_ATTR_LINK => NETDEV_LED_LINK
               | NETDEV_ATTR_TX => NETDEV_LED_TX
               | NETDEV_ATTR_RX => NETDEV_LED_RX
               end in
    cancel_delayed_work_sync ;;
    (if negb (state =? 0) then set_bit bit else clear_bit bit) ;;
    set_baseline_state ;;
    ret (Z.of_nat size).

Definition link_store (buf : string) (size : nat) : M Z :=
  netdev_led_attr_store buf size NETDEV_ATTR_LINK.

Definition tx_store (buf : string) (size : nat) : M Z :=
  netdev_led_attr_store buf size NETDEV_ATTR_TX.

Definition rx_store (buf : string) (size : nat) : M Z :=
  netdev_led_attr_store buf size NETDEV_ATTR_RX.

(** [sprintf(buf, "%s %s %s\n", ...)]: the text left in [buf]. *)
Definition mode_show : M string :=
  td <- get ;;
  ret ((if test_bit (attr_value NETDEV_ATTR_LINK) (mode td)
        then "link" else "")
       ++ " "
       ++ (if test_bit (attr_value NETDEV_ATTR_TX) (mode td)
           then "tx" else "")
       ++ " "
       ++ (if test_bit (attr_value NETDEV_ATTR_RX) (mode td)
           then "rx" else "")
       ++ String LF EmptyString)%string.

Definition mode_store (buf : string) (size : nat) : M Z :=
  match strstr buf "link" with
  | Some _ => netdev_led_attr_store "1" size NETDEV_ATTR_LINK
  | None => netdev_led_attr_store "0" size NETDEV_ATTR_LINK
  end ;;
  match strstr buf "tx" with
  | Some _ => netdev_led_attr_store "1" size NETDEV_ATTR_TX
  | None => netdev_led_attr_store "0" size NETDEV_ATTR_TX
  end ;;
  match strstr buf "rx" with
  | Some _ => netdev_led_attr_store "1" size NETDEV_ATTR_RX
  | None => netdev_led_attr_store "0" size NETDEV_ATTR_RX
  end ;;
  ret (Z.of_nat size).

Definition interval_store (buf : string) (size : nat) : M Z :=
  let '(ret_, value) := kstrtoul buf in
  if negb (ret_ =? 0) then ret ret_
  else
    (if (5 <=? value) && (value <=? 10000)
     then
       cancel_delayed_work_sync ;;
       modify (fun td =>
                 with_interval td (to_int (msecs_to_jiffies (to_uint value)))) ;;
       set_baseline_state
     else ret tt) ;;
    ret (Z.of_nat size).

Definition handled (evt : netdev_event) : bool :=
  match evt with
  | NETDEV_UP | NETDEV_DOWN | NETDEV_CHANGE
  | NETDEV_REGISTER | NETDEV_UNREGISTER | NETDEV_CHANGENAME => true
  | _ => false
  end.

Definition netdev_trig_notify (init_net : netns) (evt : netdev_event)
    (dev : net_device) : M Z :=
  if negb (handled evt) then ret NOTIFY_DONE
  else
    td <- get ;;
    if negb (strcmp (dev_name init_net dev) (device_name td) =? 0)
    then ret NOTIFY_DONE
    else
      cancel_delayed_work_sync ;;
      clear_bit NETDEV_LED_MODE_LINKUP ;;
      td <- get ;;
      match evt with
      | NETDEV_REGISTER =>
          match net_dev td with
          | Some old => dev_put old
          | None => ret tt
          end ;;
          dev_hold dev ;;
          modify (fun td => with_net_dev td (Some dev))
      | NETDEV_CHANGENAME | NETDEV_UNREGISTER =>
          match net_dev td with
          | Some old => dev_put old ;; modify (fun td => with_net_dev td None)
          | None => ret tt
          end
      | NETDEV_UP | NETDEV_CHANGE =>
          if netif_carrier_ok init_net dev
          then set_bit NETDEV_LED_MODE_LINKUP
          else ret tt
      | _ => ret tt
      end ;;
      set_baseline_state ;;
      ret NOTIFY_DONE.

Definition netdev_trig_work (init_net : netns) : M unit :=
  td <- get ;;
  match net_dev td with
  | None => led_set_brightness LED_OFF
  | Some dev =>
      if negb (test_bit NETDEV_LED_TX (mode td))
         && negb (test_bit NETDEV_LED_RX (mode td))
      then ret tt
      else
        let dev_stats := dev_get_stats init_net dev in
        let new_activity :=
          to_uint (to_u64
            ((if test_bit NETDEV_LED_TX (mode td)
              then tx_packets dev_stats else 0)
             + (if test_bit NETDEV_LED_RX (mode td)
                then rx_packets dev_stats else 0))) in
        (if negb (last_activity td =? new_activity)
         then
           led_stop_software_blink ;;
           let invert :=
             if test_bit NETDEV_LED_LINK (mode td) then 1 else 0 in
           let interval_ := jiffies_to_msecs (to_ulong (interval td)) in
           led_blink_set_oneshot interval_ interval_ invert ;;
           modify (fun td => with_last_activity td new_activity)
         else ret tt) ;;
        td <- get ;;
        schedule_delayed_work (to_ulong (to_int (interval td * 2)))
  end.

(** The state [netdev_trig_activate] builds for an LED (the sysfs files
    and the notifier registration carry no state of their own). *)
Definition netdev_trig_activate (led : led_classdev) : led_netdev_data :=
  {| work := None;
     led_cdev := led;
     net_dev := None;
     device_name := String.concat "" (repeat (String NUL "") IFNAMSIZ);
     interval := to_int (msecs_to_jiffies 50);
     last_activity := 0;
     mode := Z.setbit 0 NETDEV_LED_LINK |}.

Definition netdev_trig_deactivate : M unit :=
  cancel_delayed_work_sync ;;
  td <- get ;;
  match net_dev td with
  | Some dev => dev_put dev
  | None => ret tt
  end.

(** Modelled from the spec: the Activity Poller's tick as the workqueue
    delivers it; a queued work item stops being queued when it starts to
    run, an idle one does not run. *)
Definition run_work (init_net : netns) : M unit :=
  td <- get ;;
  match work td with
  | Some _ => modify (fun td => with_work td None) ;; netdev_trig_work init_net
  | None => ret tt
  end.

End Driver.

(** ** The rest of the driver: the show handlers and the life cycle *)

(** [%u]: an [unsigned int] in decimal. *)
Definition fmt_u (x : Z) : string :=
  NilEmpty.string_of_uint (N.to_uint (Z.to_N (to_uint x))).

(** [sprintf(buf, "%u\n", test_bit(bit, &trigger_data->mode))]: the text
    left in [buf]. *)
Definition netdev_led_attr_show (attr : netdev_led_attr) : M string :=
  td <- get ;;
  let bit := match attr with
             | NETDEV_ATTR_LINK => NETDEV_LED_LINK
             | NETDEV_ATTR_TX => NETDEV_LED_TX
             | NETDEV_ATTR_RX => NETDEV_LED_RX
             end in
  ret (fmt_u (if test_bit bit (mode td) then 1 else 0)
       ++ String LF EmptyString)%string.

Definition link_show : M string := netdev_led_attr_show NETDEV_ATTR_LINK.
Definition tx_show : M string := netdev_led_attr_show NETDEV_ATTR_TX.
Definition rx_show : M string := netdev_led_attr_show NETDEV_ATTR_RX.

(** [sprintf(buf, "%u\n", jiffies_to_msecs(atomic_read(&interval)))] *)
Definition interval_show {K : kernel_api} : M string :=
  td <- get ;;
  ret (fmt_u (jiffies_to_msecs (to_ulong (interval td)))
       ++ String LF EmptyString)%string.

Module Lifecycle.

(** The sysfs files of the trigger. *)
Inductive device_attribute :=
| dev_attr_device_name | dev_attr_link | dev_attr_rx | dev_attr_tx
| dev_attr_interval | dev_attr_mode.

(** What activation and deactivation do to the outside, in order.  A
    [device_create_file] and a [register_netdevice_notifier] carry the code
    they returned; [Driver] is a call of the running driver. *)
Inductive setup_call :=
| Kzalloc (ok : bool)
| Kfree
| DeviceCreateFile (attr : device_attribute) (rc : Z)
| DeviceRemoveFile (attr : device_attribute)
| RegisterNetdeviceNotifier (rc : Z)
| UnregisterNetdeviceNotifier
| Driver (c : call).

(** What the kernel answers during one activation. *)
Record environment := {
  kzalloc : bool;
  device_create_file : device_attribute -> Z;
  register_netdevice_notifier : Z
}.

(** The error labels of [netdev_trig_activate], each falling through to the
    next; all of them end by clearing [led_cdev->trigger_data] and freeing
    the state. *)
Definition err_out : list setup_call := [Kfree].
Definition err_out_device_name : list setup_call :=
  DeviceRemoveFile dev_attr_device_name :: err_out.
Definition err_out_link : list setup_call :=
  DeviceRemoveFile dev_attr_link :: err_out_device_name.
Definition err_out_rx : list setup_call :=
  DeviceRemoveFile dev_attr_rx :: err_out_link.
Definition err_out_tx : list setup_call :=
  DeviceRemoveFile dev_attr_tx :: err_out_rx.
Definition err_out_interval : list setup_call :=
  DeviceRemoveFile dev_attr_interval :: err_out_tx.
Definition err_out_mode : list setup_call :=
  DeviceRemoveFile dev_attr_mode :: err_out_interval.

(** [netdev_trig_activate] with its sysfs files and its notifier: the
    value left in [led_cdev->trigger_data] ([old] is what it held before)
    and the calls made.  The state it allocates is the one built by
    [netdev_trig_activate] above. *)
Definition netdev_trig_activate {K : kernel_api} (env : environment)
    (led : led_classdev) (old : option led_netdev_data)
  : option led_netdev_data * list setup_call :=
  if negb (kzalloc env) then (old, [Kzalloc false])
  else
    let trigger_data := netdev_trig_activate led in
    let rc1 := device_create_file env dev_attr_device_name in
    if negb (rc1 =? 0)
    then (None, [Kzalloc true; DeviceCreateFile dev_attr_device_name rc1]
                ++ err_out)
    else
    let rc2 := device_create_file env dev_attr_link in
    if negb (rc2 =? 0)
    then (None, [Kzalloc true; DeviceCreateFile dev_attr_device_name rc1;
                 DeviceCreateFile dev_attr_link rc2]
                ++ err_out_device_name)
    else
    let rc3 := device_create_file env dev_attr_rx in
    if negb (rc3 =? 0)
    then (None, [Kzalloc true; DeviceCreateFile dev_attr_device_name rc1;
                 DeviceCreateFile dev_attr_link rc2;
                 DeviceCreateFile dev_attr_rx rc3]
                ++ err_out_link)
    else
    let rc4 := device_create_file env dev_attr_tx in
    if negb (rc4 =? 0)
    then (None, [Kzalloc true; DeviceCreateFile dev_attr_device_name rc1;
                 DeviceCreateFile dev_attr_link rc2;
                 DeviceCreateFile dev_attr_rx rc3;
                 DeviceCreateFile dev_attr_tx rc4]
                ++ err_out_rx)
    else
    let rc5 := device_create_file env dev_attr_interval in
    if negb (rc5 =? 0)
    then (None, [Kzalloc true; DeviceCreateFile dev_attr_device_name rc1;
                 DeviceCreateFile dev_attr_link rc2;
                 DeviceCreateFile dev_attr_rx rc3;
                 DeviceCreateFile dev_attr_tx rc4;
                 DeviceCreateFile dev_attr_interval rc5]
                ++ err_out_tx)
    else
    let rc6 := device_create_file env dev_attr_mode in
    if negb (rc6 =? 0)
    then (None, [Kzalloc true; DeviceCreateFile dev_attr_device_name rc1;
                 DeviceCreateFile dev_attr_link rc2;
                 DeviceCreateFile dev_attr_rx rc3;
                 DeviceCreateFile dev_attr_tx rc4;
                 DeviceCreateFile dev_attr_interval rc5;
                 DeviceCreateFile dev_attr_mode rc6]
                ++ err_out_interval)
    else
    let rc7 := register_netdevice_notifier env in
    if negb (rc7 =? 0)
    then (None, [Kzalloc true; DeviceCreateFile dev_attr_device_name rc1;
                 DeviceCreateFile dev_attr_link rc2;
                 DeviceCreateFile dev_attr_rx rc3;
                 DeviceCreateFile dev_attr_tx rc4;
                 DeviceCreateFile dev_attr_interval rc5;
                 DeviceCreateFile dev_attr_mode rc6;
                 RegisterNetdeviceNotifier rc7]
                ++ err_out_mode)
    else
      (Some trigger_data,
       [Kzalloc true; DeviceCreateFile dev_attr_device_name rc1;
        DeviceCreateFile dev_attr_link rc2;
        DeviceCreateFile dev_attr_rx rc3;
        DeviceCreateFile dev_attr_tx rc4;
        DeviceCreateFile dev_attr_interval rc5;
        DeviceCreateFile dev_attr_mode rc6;
        RegisterNetdeviceNotifier rc7]).

(** [netdev_trig_deactivate] on what [led_cdev->trigger_data] holds; the
    calls on the running state are those of [netdev_trig_deactivate]
    above. *)
Definition netdev_trig_deactivate (trigger_data : option led_netdev_data)
  : list setup_call :=
  match trigger_data with
  | None => []
  | Some td =>
      [UnregisterNetdeviceNotifier;
       DeviceRemoveFile dev_attr_device_name;
       DeviceRemoveFile dev_attr_link;
       DeviceRemoveFile dev_attr_rx;
       DeviceRemoveFile dev_attr_tx;
       DeviceRemoveFile dev_attr_interval;
       DeviceRemoveFile dev_attr_mode]
      ++ map Driver (calls_of (netdev_trig_deactivate td))
      ++ [Kfree]
  end.

End Lifecycle.


(** ** The controller state in the words of the specification *)

Definition linkIsUp (td : led_netdev_data) : bool :=
  test_bit NETDEV_LED_MODE_LINKUP (mode td).
Definition monitorLink (td : led_netdev_data) : bool :=
  test_bit NETDEV_LED_LINK (mode td).
Definition monitorTx (td : led_netdev_data) : bool :=
  test_bit NETDEV_LED_TX (mode td).
Definition monitorRx (td : led_netdev_data) : bool :=
  test_bit NETDEV_LED_RX (mode td).

(** The controller invariant of the data model: with no handle, linkIsUp
    is false, the LED is off and the poller is not queued. *)
Definition unbound_quiet (td : led_netdev_data) : Prop :=
  net_dev td = None ->
  linkIsUp td = false
  /\ brightness (led_cdev td) = LED_OFF
  /\ work td = None.

(** ** What the Reconciler computes, in closed form *)

(** The pulse brightness [set_baseline_state] settles on: the current
    level when it is non-zero, else the one remembered, else the maximum. *)
Definition pulse_brightness (l : led_classdev) : Z :=
  if negb (brightness l =? 0) then brightness l
  else if negb (blink_brightness l =? 0) then blink_brightness l
  else max_brightness l.

(** The level the Reconciler asks the LED for. *)
Definition baseline_level (td : led_netdev_data) : Z :=
  if linkIsUp td && monitorLink td
  then pulse_brightness (led_cdev td) else LED_OFF.

(** Whether the Reconciler starts the poller. *)
Definition baseline_polls (td : led_netdev_data) : bool :=
  linkIsUp td && (monitorTx td || monitorRx td).

Definition baseline_calls (td : led_netdev_data) : list call :=
  LedSetBrightness (baseline_level td)
  :: (if baseline_polls td then [ScheduleDelayedWork 0] else []).

Definition baseline_state (td : led_netdev_data) : led_netdev_data :=
  {| work := if baseline_polls td
             then match work td with Some d => Some d | None => Some 0 end
             else work td;
     led_cdev := {| brightness := baseline_level td;
                    max_brightness := max_brightness (led_cdev td);
                    blink_brightness := pulse_brightness (led_cdev td) |};
     net_dev := net_dev td;
     device_name := device_name td;
     interval := interval td;
     last_activity := last_activity td;
     mode := mode td |}.

(** ** What the notifier does to the binding, read off the event kind *)

Definition is_up_or_change (evt : netdev_event) : bool :=
  match evt with
  | NETDEV_UP | NETDEV_CHANGE => true
  | _ => false
  end.

(** The handle the controller holds once a matching event is handled. *)
Definition handle_after (evt : netdev_event) (dev : net_device)
    (old : option net_device) : option net_device :=
  match evt with
  | NETDEV_REGISTER => Some dev
  | NETDEV_CHANGENAME | NETDEV_UNREGISTER => None
  | _ => old
  end.

Definition release (old : option net_device) : list call :=
  match old with
  | Some d => [DevPut d]
  | None => []
  end.

(** The reference counting a matching event causes. *)
Definition refcount_calls (evt : netdev_event) (dev : net_device)
    (old : option net_device) : list call :=
  match evt with
  | NETDEV_REGISTER => release old ++ [DevHold dev]
  | NETDEV_CHANGENAME | NETDEV_UNREGISTER => release old
  | _ => []
  end.

(** The state the notifier hands to the Reconciler on a matching event. *)
Definition notified_state (init_net : netns) (evt : netdev_event)
    (dev : net_device) (td : led_netdev_data) : led_netdev_data :=
  {| work := None;
     led_cdev := led_cdev td;
     net_dev := handle_after evt dev (net_dev td);
     device_name := device_name td;
     interval := interval td;
     last_activity := last_activity td;
     mode := if is_up_or_change evt && netif_carrier_ok init_net dev
             then Z.setbit (Z.clearbit (mode td) NETDEV_LED_MODE_LINKUP)
                    NETDEV_LED_MODE_LINKUP
             else Z.clearbit (mode td) NETDEV_LED_MODE_LINKUP |}.

(** ** What a tick of the poller observes *)

(** The sum of the monitored packet counters of [dev], as the registry
    holds them (not truncated). *)
Definition activity_sum (init_net : netns) (dev : net_device)
    (td : led_netdev_data) : Z :=
  (if monitorTx td then tx_packets (dev_get_stats init_net dev) else 0)
  + (if monitorRx td then rx_packets (dev_get_stats init_net dev) else 0).

(** The delay [netdev_trig_work] hands to [schedule_delayed_work]. *)
Definition resched_delay (td : led_netdev_data) : Z :=
  to_ulong (to_int (interval td * 2)).

Definition is_oneshot (c : call) : bool :=
  match c with
  | LedBlinkSetOneshot _ _ _ => true
  | _ => false
  end.

(** ** What a device-name write stores and resolves *)

(** The array [device_name] after the copy and the newline stripping. *)
Definition name_after_store (old buf : string) (size : nat) : string :=
  let copied := strncpy old buf size in
  if (0 <? size)%nat && Ascii.eqb (array_get copied (size - 1)) LF
  then array_set copied (size - 1) NUL
  else copied.

(** The handle [device_name_store] ends with. *)
Definition handle_after_store (init_net : netns) (name : string)
  : option net_device :=
  if negb (Ascii.eqb (array_get name 0) NUL)
  then dev_get_by_name init_net (cstr name)
  else None.

(** The state [device_name_store] hands to the Reconciler. *)
Definition rebound_state (init_net : netns) (buf : string) (size : nat)
    (td : led_netdev_data) : led_netdev_data :=
  let name := name_after_store (device_name td) buf size in
  let dev := handle_after_store init_net name in
  {| work := None;
     led_cdev := led_cdev td;
     net_dev := dev;
     device_name := name;
     interval := interval td;
     last_activity := 0;
     mode := match dev with
             | Some d =>
                 if netif_carrier_ok init_net d
                 then Z.setbit (Z.clearbit (mode td) NETDEV_LED_MODE_LINKUP)
                        NETDEV_LED_MODE_LINKUP
                 else Z.clearbit (mode td) NETDEV_LED_MODE_LINKUP
             | None => Z.clearbit (mode td) NETDEV_LED_MODE_LINKUP
             end |}.

(** A write that carries the empty name in at least one byte: the text
    starts with its terminator, or it is one newline. *)
Definition empty_name_write (buf : string) (size : nat) : bool :=
  match buf with
  | EmptyString => true
  | String c _ => Ascii.eqb c NUL || ((size =? 1)%nat && Ascii.eqb c LF)
  end.

Definition attr_bit (attr : netdev_led_attr) : Z :=
  match attr with
  | NETDEV_ATTR_LINK => NETDEV_LED_LINK
  | NETDEV_ATTR_TX => NETDEV_LED_TX
  | NETDEV_ATTR_RX => NETDEV_LED_RX
  end.

(** The state a flag write hands to the Reconciler. *)
Definition flagged_state (attr : netdev_led_attr) (state : Z)
    (td : led_netdev_data) : led_netdev_data :=
  with_mode (with_work td None)
    (if negb (state =? 0)
     then Z.setbit (mode td) (attr_bit attr)
     else Z.clearbit (mode td) (attr_bit attr)).

(** ** The combined-mode endpoint, in the words of the specification *)

(** [needle] is present in [text] as a substring. *)
Definition occurs (needle text : string) : Prop :=
  exists pre post, text = (pre ++ needle ++ post)%string.

(** One token per flag that is set, in the order link, tx, rx. *)
Definition mode_tokens (td : led_netdev_data) : list string :=
  (if monitorLink td then ["link"] else [])
  ++ (if monitorTx td then ["tx"] else [])
  ++ (if monitorRx td then ["rx"] else []).

(** The read format as the specification words it: the tokens of the set
    flags joined by single spaces. *)
Definition mode_text_spec (td : led_netdev_data) : string :=
  String.concat " " (mode_tokens td).

Definition is_space (c : ascii) : bool :=
  Ascii.eqb c " "%char || Ascii.eqb c LF.

(** The whitespace-separated tokens of a text; [cur] is the token being
    read. *)
Fixpoint words_from (cur s : string) : list string :=
  match s with
  | EmptyString =>
      match cur with
      | EmptyString => []
      | _ => [cur]
      end
  | String c r =>
      if is_space c
      then match cur with
           | EmptyString => words_from EmptyString r
           | _ => cur :: words_from EmptyString r
           end
      else words_from (cur ++ String c EmptyString)%string r
  end.

Definition words (s : string) : list string := words_from EmptyString s.

(** ** Sequences of operations

    What can happen to an activated trigger: a write to one of its sysfs
    files, an event from the registry, or the workqueue running the queued
    work.  Each operation meets the registry as it is at that moment. *)

Inductive operation :=
| WriteDeviceName (buf : string) (size : nat)
| WriteFlag (attr : netdev_led_attr) (buf : string) (size : nat)
| WriteMode (buf : string) (size : nat)
| WriteInterval (buf : string) (size : nat)
| Notify (evt : netdev_event) (dev : net_device)
| Tick.

Definition step {K : kernel_api} (init_net : netns) (op : operation)
    (td : led_netdev_data) : led_netdev_data :=
  match op with
  | WriteDeviceName buf size =>
      state_of (device_name_store init_net buf size td)
  | WriteFlag attr buf size =>
      state_of (netdev_led_attr_store buf size attr td)
  | WriteMode buf size => state_of (mode_store buf size td)
  | WriteInterval buf size => state_of (interval_store buf size td)
  | Notify evt dev => state_of (netdev_trig_notify init_net evt dev td)
  | Tick => state_of (run_work init_net td)
  end.

(** The one operation that sets linkIsUp without a handle: an UP or CHANGE
    event with carrier that arrives while the handle is none. *)
Definition link_up_unbound (init_net : netns) (op : operation)
    (td : led_netdev_data) : bool :=
  match op, net_dev td with
  | Notify evt dev, None =>
      is_up_or_change evt && netif_carrier_ok init_net dev
  | _, _ => false
  end.

(** The states a sequence of operations goes through, the last one first. *)
Fixpoint run {K : kernel_api} (ops : list (netns * operation))
    (td : led_netdev_data) : led_netdev_data :=
  match ops with
  | [] => td
  | (init_net, op) :: rest => run rest (step init_net op td)
  end.

(** No operation of the sequence is of that one kind. *)
Fixpoint bound_when_up {K : kernel_api} (ops : list (netns * operation))
    (td : led_netdev_data) : Prop :=
  match ops with
  | [] => True
  | (init_net, op) :: rest =>
      link_up_unbound init_net op td = false
      /\ bound_when_up rest (step init_net op td)
  end.

(** ** Tactics for running the monad *)

Ltac unfold_monad :=
  unfold set_bit, clear_bit,
    led_set_brightness, led_stop_software_blink, led_blink_set_oneshot,
    schedule_delayed_work, cancel_delayed_work_sync, dev_put, dev_hold,
    set_blink_brightness in *;
  unfold bind, ret, get, modify, emit in *.

Ltac fields :=
  cbn [net_dev work led_cdev device_name interval last_activity mode
       with_work with_net_dev with_device_name with_mode with_last_activity
       with_interval with_led_cdev app fst snd].

(** ** A concrete kernel for examples

    A tick rate of HZ = 100 (a jiffy is 10 ms) and a [kstrtoul] that reads
    unsigned decimal literals with an optional final newline.  At that rate
    [msecs_to_jiffies] rounds up to whole jiffies and [jiffies_to_msecs]
    multiplies by ten. *)

Definition digit_of (c : ascii) : option Z :=
  let n := Z_of_char c in
  if (48 <=? n) && (n <=? 57) then Some (n - 48) else None.

Fixpoint parse_dec (s : string) (acc : Z) : option Z :=
  match s with
  | EmptyString => Some acc
  | String c r =>
      match digit_of c with
      | Some d => parse_dec r (10 * acc + d)
      | None =>
          if Ascii.eqb c LF
          then match r with EmptyString => Some acc | _ => None end
          else None
      end
  end.

Definition kstrtoul_dec (s : string) : Z * Z :=
  match s with
  | EmptyString => (- EINVAL, 0)
  | String c _ =>
      match digit_of c, parse_dec s 0 with
      | Some _, Some v => if v <? 2 ^ 64 then (0, v) else (- 34, 0)
      | _, _ => (- EINVAL, 0)
      end
  end.

Definition kernel_hz100 : kernel_api :=
  {| kstrtoul := kstrtoul_dec;
     msecs_to_jiffies := fun m => (m + 9) / 10;
     jiffies_to_msecs := fun j => 10 * j |}.

(** A registry with one device, number 1, called eth0, carrier up. *)
Definition net_eth0 (tx rx : Z) : netns :=
  {| dev_get_by_name := fun n => if String.eqb n "eth0" then Some 1%nat else None;
     dev_name := fun _ => "eth0";
     netif_carrier_ok := fun _ => true;
     dev_get_stats := fun _ => {| rx_packets := rx; tx_packets := tx |} |}.

(** A registry in which the name eth0 does not resolve: the one device is
    still called eth1. *)
Definition net_absent : netns :=
  {| dev_get_by_name := fun _ => None;
     dev_name := fun _ => "eth1";
     netif_carrier_ok := fun _ => true;
     dev_get_stats := fun _ => {| rx_packets := 0; tx_packets := 0 |} |}.

Definition led_255 : led_classdev :=
  {| brightness := 0; max_brightness := 255; blink_brightness := 0 |}.

(** ** Example states *)

(** HZ = 100: the trigger as activated on an LED. *)
Definition td_default : led_netdev_data :=
  @netdev_trig_activate kernel_hz100 led_255.

(** It is then bound to eth0, the one device, which has carrier. *)
Definition td_bound : led_netdev_data :=
  state_of (device_name_store (net_eth0 0 0)
              ("eth0" ++ String LF EmptyString)%string 5 td_default).

(** Then tx is monitored and the poller has seen five packets. *)
Definition td_polled : led_netdev_data :=
  state_of (@run_work kernel_hz100 (net_eth0 5 0)
              (state_of (@tx_store kernel_hz100 "1" 1 td_bound))).

(** The trigger is pointed at eth0 before a device of that name exists,
    tx is monitored, and then another device is renamed to eth0: the
    notifier sees the rename under the new name and keeps no handle. *)
Definition td_renamed : led_netdev_data :=
  @run kernel_hz100
    [(net_absent,
      WriteDeviceName ("eth0" ++ String LF EmptyString)%string 5);
     (net_absent, WriteFlag NETDEV_ATTR_TX "1" 1);
     (net_eth0 0 0, Notify NETDEV_CHANGENAME 1%nat)]
    td_default.

(** ** Every tick, in closed form *)

(** The state a tick leaves: the LED off when there is no handle, nothing
    changed when neither tx nor rx is monitored, the new activity count and
    the work queued again otherwise. *)
Definition ticked_state (init_net : netns) (td : led_netdev_data)
  : led_netdev_data :=
  match net_dev td with
  | None => with_led_cdev td (with_brightness (led_cdev td) LED_OFF)
  | Some dev =>
      if monitorTx td || monitorRx td
      then {| work := match work td with
                      | Some d => Some d
                      | None => Some (resched_delay td)
                      end;
              led_cdev := led_cdev td;
              net_dev := net_dev td;
              device_name := device_name td;
              interval := interval td;
              last_activity := to_uint (activity_sum init_net dev td);
              mode := mode td |}
      else td
  end.

(** ** Invariants of the running trigger *)

(** The work is queued only while linkIsUp is set and tx or rx is
    monitored. *)
Definition poller_gated (td : led_netdev_data) : Prop :=
  work td <> None ->
  linkIsUp td = true /\ monitorTx td || monitorRx td = true.

(** The LED rests at a non-zero level only while linkIsUp is set and link
    is monitored. *)
Definition lit_gated (td : led_netdev_data) : Prop :=
  brightness (led_cdev td) <> LED_OFF ->
  linkIsUp td = true /\ monitorLink td = true.

(** [device_name] has [IFNAMSIZ] bytes and the last one is NUL. *)
Definition name_terminated (td : led_netdev_data) : Prop :=
  String.length (device_name td) = IFNAMSIZ
  /\ array_get (device_name td) (IFNAMSIZ - 1) = NUL.

(** The stored interval is the conversion of a number of milliseconds
    within the bounds [interval_store] imposes. *)
Definition interval_bounded {K : kernel_api} (td : led_netdev_data) : Prop :=
  exists ms, 5 <= ms <= 10000 /\ interval td = to_int (msecs_to_jiffies ms).

(** The bytes of an array from index [n] on. *)
Fixpoint array_from (n : nat) (a : string) : string :=
  match n, a with
  | O, _ => a
  | S n', String _ r => array_from n' r
  | S _, EmptyString => EmptyString
  end.

(** The first [n] bytes of a text. *)
Fixpoint take (n : nat) (s : string) : string :=
  match n, s with
  | S n', String c r => String c (take n' r)
  | _, _ => EmptyString
  end.

(** No byte of the text is NUL. *)
Fixpoint no_NUL (s : string) : bool :=
  match s with
  | EmptyString => true
  | String c r => negb (Ascii.eqb c NUL) && no_NUL r
  end.

(** ** What activation holds of the kernel's resources *)

(** The sysfs files that exist, whether the notifier is registered and
    whether the state is allocated. *)
Record resources := {
  files : list Lifecycle.device_attribute;
  notifier : bool;
  allocated : bool
}.

Definition no_resources : resources :=
  {| files := []; notifier := false; allocated := false |}.

Definition device_attribute_eqb (a b : Lifecycle.device_attribute) : bool :=
  match a, b with
  | Lifecycle.dev_attr_device_name, Lifecycle.dev_attr_device_name
  | Lifecycle.dev_attr_link, Lifecycle.dev_attr_link
  | Lifecycle.dev_attr_rx, Lifecycle.dev_attr_rx
  | Lifecycle.dev_attr_tx, Lifecycle.dev_attr_tx
  | Lifecycle.dev_attr_interval, Lifecycle.dev_attr_interval
  | Lifecycle.dev_attr_mode, Lifecycle.dev_attr_mode => true
  | _, _ => false
  end.

Definition has_file (a : Lifecycle.device_attribute)
    (l : list Lifecycle.device_attribute) : bool :=
  existsb (device_attribute_eqb a) l.

(** What one call does to the resources; [None] when it frees, removes or
    unregisters what is not there, or creates what is there already. *)
Definition setup_effect (c : Lifecycle.setup_call) (r : resources)
  : option resources :=
  match c with
  | Lifecycle.Kzalloc ok =>
      if allocated r then None
      else Some {| files := files r; notifier := notifier r;
                   allocated := ok |}
  | Lifecycle.Kfree =>
      if allocated r
      then Some {| files := files r; notifier := notifier r;
                   allocated := false |}
      else None
  | Lifecycle.DeviceCreateFile a rc =>
      if negb (rc =? 0) then Some r
      else if has_file a (files r) then None
      else Some {| files := a :: files r; notifier := notifier r;
                   allocated := allocated r |}
  | Lifecycle.DeviceRemoveFile a =>
      if has_file a (files r)
      then Some {| files := filter (fun b => negb (device_attribute_eqb a b))
                              (files r);
                   notifier := notifier r; allocated := allocated r |}
      else None
  | Lifecycle.RegisterNetdeviceNotifier rc =>
      if negb (rc =? 0) then Some r
      else if notifier r then None
      else Some {| files := files r; notifier := true;
                   allocated := allocated r |}
  | Lifecycle.UnregisterNetdeviceNotifier =>
      if notifier r
      then Some {| files := files r; notifier := false;
                   allocated := allocated r |}
      else None
  | Lifecycle.Driver _ => Some r
  end.

Fixpoint setup_effects (calls : list Lifecycle.setup_call) (r : resources)
  : option resources :=
  match calls with
  | [] => Some r
  | c :: rest =>
      match setup_effect c r with
      | Some r' => setup_effects rest r'
      | None => None
      end
  end.

(** The driver calls among the calls of the life cycle. *)
Fixpoint driver_calls (calls : list Lifecycle.setup_call) : list call :=
  match calls with
  | [] => []
  | Lifecycle.Driver c :: rest => c :: driver_calls rest
  | _ :: rest => driver_calls rest
  end.

(** Everything activation acquires. *)
Definition all_resources : resources :=
  {| files := [Lifecycle.dev_attr_mode; Lifecycle.dev_attr_interval;
               Lifecycle.dev_attr_tx; Lifecycle.dev_attr_rx;
               Lifecycle.dev_attr_link; Lifecycle.dev_attr_device_name];
     notifier := true;
     allocated := true |}.

(** A kernel in which every step of activation succeeds. *)
Definition env_ok : Lifecycle.environment :=
  {| Lifecycle.kzalloc := true;
     Lifecycle.device_create_file := fun _ => 0;
     Lifecycle.register_netdevice_notifier := 0 |}.

(** Calls can be told apart. *)
Definition call_eq_dec (a b : call) : {a = b} + {a <> b}.
Proof.
  decide equality; try apply Z.eq_dec; apply Nat.eq_dec.
Defined.

(** Whether [strstr] finds the needle in the text. *)
Definition present (needle buf : string) : bool :=
  match strstr buf needle with
  | Some _ => true
  | None => false
  end.

(** The pulse brightness is [b] and the LED rests at OFF or at [b]. *)
Definition amplitude_kept (b : Z) (td : led_netdev_data) : Prop :=
  blink_brightness (led_cdev td) = b
  /\ (brightness (led_cdev td) = LED_OFF \/ brightness (led_cdev td) = b).

(** ** References to devices

    The driver owns one reference for the handle it holds.  It takes
    references with [dev_hold] and through [dev_get_by_name], which returns
    the device with a reference taken, and it drops them with [dev_put]. *)

(** The calls of an operation. *)
Definition step_calls {K : kernel_api} (init_net : netns) (op : operation)
    (td : led_netdev_data) : list call :=
  match op with
  | WriteDeviceName buf size =>
      calls_of (device_name_store init_net buf size td)
  | WriteFlag attr buf size =>
      calls_of (netdev_led_attr_store buf size attr td)
  | WriteMode buf size => calls_of (mode_store buf size td)
  | WriteInterval buf size => calls_of (interval_store buf size td)
  | Notify evt dev => calls_of (netdev_trig_notify init_net evt dev td)
  | Tick => calls_of (run_work init_net td)
  end.

(** The device [dev_get_by_name] returned to an operation, if it was
    called and found one: the handle an accepted device-name write ends
    with. *)
Definition step_lookup {K : kernel_api} (init_net : netns) (op : operation)
    (td : led_netdev_data) : option net_device :=
  match op with
  | WriteDeviceName buf size =>
      if (size <? IFNAMSIZ)%nat then net_dev (step init_net op td) else None
  | _ => None
  end.

(** 1 when the handle is [dev], 0 otherwise. *)
Definition held (dev : net_device) (h : option net_device) : nat :=
  match h with
  | Some d => if Nat.eqb dev d then 1%nat else 0%nat
  | None => 0%nat
  end.

Definition holds_in (dev : net_device) (calls : list call) : nat :=
  list_sum (map (fun c => match c with
                          | DevHold d => if Nat.eqb dev d then 1%nat else 0%nat
                          | _ => 0%nat
                          end) calls).

Definition puts_in (dev : net_device) (calls : list call) : nat :=
  list_sum (map (fun c => match c with
                          | DevPut d => if Nat.eqb dev d then 1%nat else 0%nat
                          | _ => 0%nat
                          end) calls).

(** The references to [dev] a sequence of operations takes. *)
Fixpoint acquired {K : kernel_api} (dev : net_device)
    (ops : list (netns * operation)) (td : led_netdev_data) : nat :=
  match ops with
  | [] => 0%nat
  | (init_net, op) :: rest =>
      (holds_in dev (step_calls init_net op td)
       + held dev (step_lookup init_net op td)
       + acquired dev rest (step init_net op td))%nat
  end.

(** The references to [dev] a sequence of operations drops. *)
Fixpoint released {K : kernel_api} (dev : net_device)
    (ops : list (netns * operation)) (td : led_netdev_data) : nat :=
  match ops with
  | [] => 0%nat
  | (init_net, op) :: rest =>
      (puts_in dev (step_calls init_net op td)
       + released dev rest (step init_net op td))%nat
  end.

Definition is_ref_call (c : call) : bool :=
  match c with
  | DevHold _ | DevPut _ => true
  | _ => false
  end.

(** * Properties *)

(** ** Strings and bits *)

Lemma Z_of_char_zero (c : ascii) : Z_of_char c = 0 <-> c = NUL.
Proof.
  unfold Z_of_char. split.
  - intros H. rewrite <- (ascii_nat_embedding c).
    replace (nat_of_ascii c) with 0%nat by lia. reflexivity.
  - intros ->. reflexivity.
Qed.

Lemma Z_of_char_inj (c1 c2 : ascii) : Z_of_char c1 = Z_of_char c2 -> c1 = c2.
Proof.
  unfold Z_of_char. intros H.
  rewrite <- (ascii_nat_embedding c1), <- (ascii_nat_embedding c2).
  f_equal. lia.
Qed.

(** [strcmp] returns zero exactly on equal C strings. *)
Lemma strcmp_zero (s1 : string) :
  forall s2, strcmp s1 s2 = 0 <-> cstr s1 = cstr s2.
Proof.
  induction s1 as [| c1 r1 IH]; intros [| c2 r2]; cbn [strcmp cstr].
  - tauto.
  - destruct (Ascii.eqb_spec c2 NUL) as [-> | Hn].
    + cbn. tauto.
    + split; [| discriminate].
      intros H. elim Hn. apply Z_of_char_zero. lia.
  - destruct (Ascii.eqb_spec c1 NUL) as [-> | Hn].
    + cbn. tauto.
    + split; [| discriminate].
      intros H. elim Hn. apply Z_of_char_zero. lia.
  - destruct (Ascii.eqb_spec c1 c2) as [-> | Hne].
    + destruct (Ascii.eqb_spec c2 NUL) as [-> | Hn]; [tauto |].
      rewrite IH. split; [intros -> | intros [=]]; congruence.
    + split.
      * intros H. elim Hne. apply Z_of_char_inj. lia.
      * destruct (Ascii.eqb_spec c1 NUL) as [-> | Hn1];
          destruct (Ascii.eqb_spec c2 NUL) as [-> | Hn2];
          try discriminate; congruence.
Qed.

Lemma test_bit_set_bit (a n m : Z) :
  0 <= n -> test_bit m (Z.setbit a n) = (n =? m) || test_bit m a.
Proof. intros H. unfold test_bit. apply Z.setbit_eqb. exact H. Qed.

Lemma test_bit_clear_bit (a n m : Z) :
  test_bit m (Z.clearbit a n) = test_bit m a && negb (n =? m).
Proof. unfold test_bit. apply Z.clearbit_eqb. Qed.

Ltac bits :=
  unfold linkIsUp, monitorLink, monitorTx, monitorRx,
    NETDEV_LED_MODE_LINKUP, NETDEV_LED_LINK, NETDEV_LED_TX, NETDEV_LED_RX;
  cbn [mode];
  repeat (rewrite test_bit_set_bit by lia);
  repeat rewrite test_bit_clear_bit;
  cbn [Z.eqb Pos.eqb negb orb andb];
  rewrite ?andb_true_r, ?andb_false_r, ?orb_false_r, ?orb_true_r.

(** ** The Reconciler *)

Lemma set_baseline_state_eq (td : led_netdev_data) :
  set_baseline_state td = (tt, baseline_state td, baseline_calls td).
Proof.
  destruct td as [w [b mx bb] nd nm iv la md].
  unfold set_baseline_state, baseline_state, baseline_calls, baseline_level,
    baseline_polls, pulse_brightness, linkIsUp, monitorLink, monitorTx,
    monitorRx.
  unfold_monad. cbn.
  destruct (b =? 0) eqn:Hb; cbn;
    destruct (bb =? 0) eqn:Hbb; cbn; rewrite ?Hb, ?Hbb; cbn;
    destruct (test_bit NETDEV_LED_MODE_LINKUP md); cbn;
    destruct (test_bit NETDEV_LED_LINK md); cbn;
    destruct (test_bit NETDEV_LED_TX md); cbn;
    destruct (test_bit NETDEV_LED_RX md); cbn;
    destruct w; reflexivity.
Qed.

Lemma pulse_brightness_nonzero (l : led_classdev) :
  max_brightness l <> 0 -> pulse_brightness l <> 0.
Proof.
  unfold pulse_brightness. intros Hmax.
  destruct (brightness l =? 0) eqn:Hb; cbn.
  - destruct (blink_brightness l =? 0) eqn:Hbb; cbn.
    + exact Hmax.
    + apply Z.eqb_neq. exact Hbb.
  - apply Z.eqb_neq. exact Hb.
Qed.

Lemma pulse_brightness_stable (l : led_classdev) (level : Z) :
  level = 0 \/ level = pulse_brightness l ->
  pulse_brightness {| brightness := level;
                      max_brightness := max_brightness l;
                      blink_brightness := pulse_brightness l |}
  = pulse_brightness l.
Proof.
  intros Hlevel.
  unfold pulse_brightness at 1. cbn.
  destruct (level =? 0) eqn:Hl; cbn.
  - destruct (pulse_brightness l =? 0) eqn:Hp; cbn; [| reflexivity].
    apply Z.eqb_eq in Hp.
    destruct (Z.eq_dec (max_brightness l) 0) as [Hm | Hm].
    + congruence.
    + elim (pulse_brightness_nonzero l Hm Hp).
  - destruct Hlevel as [H0 | Hp]; [| exact Hp].
    subst level. discriminate.
Qed.

Lemma baseline_state_idem (td : led_netdev_data) :
  baseline_state (baseline_state td) = baseline_state td
  /\ baseline_calls (baseline_state td) = baseline_calls td.
Proof.
  assert (Hpb : pulse_brightness (led_cdev (baseline_state td))
                = pulse_brightness (led_cdev td)).
  { unfold baseline_state; cbn. apply pulse_brightness_stable.
    unfold baseline_level.
    destruct (linkIsUp td && monitorLink td); [right | left]; reflexivity. }
  assert (Hlv : baseline_level (baseline_state td) = baseline_level td).
  { unfold baseline_level at 1. rewrite Hpb. reflexivity. }
  split.
  - unfold baseline_state at 1. rewrite Hlv, Hpb.
    unfold baseline_state, baseline_polls, linkIsUp, monitorTx, monitorRx.
    cbn. f_equal.
    destruct (test_bit NETDEV_LED_MODE_LINKUP (mode td)
              && (test_bit NETDEV_LED_TX (mode td)
                  || test_bit NETDEV_LED_RX (mode td)));
      [destruct (work td) |]; reflexivity.
  - unfold baseline_calls. rewrite Hlv. reflexivity.
Qed.

(** C3: every invocation of the Reconciler [set_baseline_state], on an LED
    whose maximum brightness is not zero.  The pulse brightness it settles
    on is a non-zero ON level, and it is the maximum when neither the
    current level nor a remembered pulse brightness is non-zero.  If
    linkIsUp is false the one call it makes sets the LED to OFF and the
    poller is left as it was.  If linkIsUp is true it sets the LED to the ON
    level exactly when monitorLink is set, else to OFF, and then calls
    [schedule_delayed_work] with delay zero exactly when monitorTx or
    monitorRx is set. *)
Theorem set_baseline_state_spec (td : led_netdev_data) :
  max_brightness (led_cdev td) <> 0 ->
  let r := set_baseline_state td in
  let on := blink_brightness (led_cdev (state_of r)) in
  on <> LED_OFF
  /\ (brightness (led_cdev td) = 0 -> blink_brightness (led_cdev td) = 0 ->
      on = max_brightness (led_cdev td))
  /\ (linkIsUp td = false ->
      calls_of r = [LedSetBrightness LED_OFF]
      /\ brightness (led_cdev (state_of r)) = LED_OFF
      /\ work (state_of r) = work td)
  /\ (linkIsUp td = true ->
      calls_of r
      = LedSetBrightness (if monitorLink td then on else LED_OFF)
        :: (if monitorTx td || monitorRx td
            then [ScheduleDelayedWork 0] else [])
      /\ (brightness (led_cdev (state_of r)) <> LED_OFF
          <-> monitorLink td = true)
      /\ work (state_of r)
         = if monitorTx td || monitorRx td
           then match work td with Some d => Some d | None => Some 0 end
           else work td).
Proof.
  intros Hmax r on. subst r on.
  rewrite set_baseline_state_eq.
  unfold state_of, calls_of; cbn.
  pose proof (pulse_brightness_nonzero _ Hmax) as Hon.
  split; [exact Hon |].
  split.
  { intros Hb Hbb. unfold pulse_brightness. rewrite Hb, Hbb. reflexivity. }
  unfold baseline_calls, baseline_level, baseline_polls.
  split; intros Hup; rewrite Hup; cbn.
  - repeat split; reflexivity.
  - split; [| split].
    + destruct (monitorLink td); reflexivity.
    + destruct (monitorLink td); split; intros H;
        try reflexivity; try exact Hon; try discriminate.
      elim H; reflexivity.
    + reflexivity.
Qed.

Lemma set_baseline_state_spec_witness :
  max_brightness (led_cdev td_polled) <> 0
  /\ calls_of (set_baseline_state td_polled)
     = [LedSetBrightness 255; ScheduleDelayedWork 0].
Proof.
  assert (Hmax : max_brightness (led_cdev td_polled) <> 0)
    by discriminate.
  split; [exact Hmax |].
  destruct (set_baseline_state_spec td_polled Hmax)
    as (_ & _ & _ & Hup).
  destruct (Hup eq_refl) as (Hcalls & _).
  exact Hcalls.
Defined.

(** C8: the Reconciler is idempotent.  Invoking [set_baseline_state] a
    second time on the state the first invocation left makes the same calls
    (the same level for the LED, the same decision to start the poller or
    not) and leaves the LED level, the poller and the rest of the state as
    the first invocation left them. *)
Theorem set_baseline_state_idempotent (td : led_netdev_data) :
  let r1 := set_baseline_state td in
  let r2 := set_baseline_state (state_of r1) in
  calls_of r2 = calls_of r1
  /\ brightness (led_cdev (state_of r2)) = brightness (led_cdev (state_of r1))
  /\ work (state_of r2) = work (state_of r1)
  /\ state_of r2 = state_of r1.
Proof.
  cbv zeta. rewrite set_baseline_state_eq. unfold state_of at 1 3 5 7; cbn [fst snd].
  rewrite set_baseline_state_eq. unfold state_of, calls_of; cbn [fst snd].
  destruct (baseline_state_idem td) as [Hs Hc].
  rewrite Hs, Hc. repeat split; reflexivity.
Qed.

(** ** The notifier *)

Lemma netdev_trig_notify_skip (init_net : netns) (evt : netdev_event)
    (dev : net_device) (td : led_netdev_data) :
  handled evt = false
  \/ cstr (dev_name init_net dev) <> cstr (device_name td) ->
  netdev_trig_notify init_net evt dev td = (NOTIFY_DONE, td, []).
Proof.
  intros Hskip. unfold netdev_trig_notify.
  destruct (handled evt); [| reflexivity].
  destruct Hskip as [H | Hname]; [discriminate H |].
  unfold_monad. cbn [negb].
  destruct (strcmp (dev_name init_net dev) (device_name td) =? 0) eqn:Hcmp.
  - apply Z.eqb_eq, strcmp_zero in Hcmp. contradiction.
  - reflexivity.
Qed.

Lemma netdev_trig_notify_eq (init_net : netns) (evt : netdev_event)
    (dev : net_device) (td : led_netdev_data) :
  handled evt = true ->
  cstr (dev_name init_net dev) = cstr (device_name td) ->
  netdev_trig_notify init_net evt dev td
  = (NOTIFY_DONE,
     baseline_state (notified_state init_net evt dev td),
     CancelDelayedWorkSync
     :: refcount_calls evt dev (net_dev td)
        ++ baseline_calls (notified_state init_net evt dev td)).
Proof.
  intros Hevt Hname.
  apply strcmp_zero, Z.eqb_eq in Hname.
  destruct td as [w l nd nm iv la md]. cbn [device_name] in Hname.
  unfold netdev_trig_notify, notified_state. rewrite Hevt.
  unfold_monad. cbn [negb]. fields. rewrite Hname. cbn [negb]. fields.
  destruct evt; try discriminate Hevt;
    cbn [is_up_or_change handle_after refcount_calls release andb];
    destruct nd; fields;
    try destruct (netif_carrier_ok init_net dev); fields;
    rewrite set_baseline_state_eq, ?app_nil_r; reflexivity.
Qed.

(** C4: a delivered event of one of the six handled kinds.  When the name
    of its device is not the C string in [device_name], the handler leaves
    the state as it is, calls nothing and returns [NOTIFY_DONE].  When the
    names are equal, it cancels the poller and runs the Reconciler on a
    state [td1] in which linkIsUp is set exactly when the event is UP or
    CHANGE and the registry reports carrier; in which the handle is the
    event's device after REGISTER (the previous handle released, the new one
    held), none after RENAME or UNREGISTER (the previous handle released),
    and unchanged otherwise; and whose other fields are those of the state
    before.  It returns [NOTIFY_DONE]. *)
Theorem netdev_trig_notify_spec (init_net : netns) (evt : netdev_event)
    (dev : net_device) (td : led_netdev_data) :
  handled evt = true ->
  (cstr (dev_name init_net dev) <> cstr (device_name td) ->
   netdev_trig_notify init_net evt dev td = (NOTIFY_DONE, td, []))
  /\ (cstr (dev_name init_net dev) = cstr (device_name td) ->
      exists td1,
        linkIsUp td1 = is_up_or_change evt && netif_carrier_ok init_net dev
        /\ monitorLink td1 = monitorLink td
        /\ monitorTx td1 = monitorTx td
        /\ monitorRx td1 = monitorRx td
        /\ net_dev td1 = handle_after evt dev (net_dev td)
        /\ work td1 = None
        /\ led_cdev td1 = led_cdev td
        /\ device_name td1 = device_name td
        /\ interval td1 = interval td
        /\ last_activity td1 = last_activity td
        /\ netdev_trig_notify init_net evt dev td
           = (NOTIFY_DONE, state_of (set_baseline_state td1),
              CancelDelayedWorkSync
              :: refcount_calls evt dev (net_dev td)
                 ++ calls_of (set_baseline_state td1))).
Proof.
  intros Hevt. split; intros Hname.
  - apply netdev_trig_notify_skip. right. exact Hname.
  - exists (notified_state init_net evt dev td).
    rewrite (netdev_trig_notify_eq init_net evt dev td Hevt Hname).
    rewrite set_baseline_state_eq.
    unfold notified_state, state_of, calls_of; fields.
    repeat match goal with |- _ /\ _ => split end; try reflexivity.
    all: destruct (is_up_or_change evt && netif_carrier_ok init_net dev);
      bits; reflexivity.
Qed.

Lemma netdev_trig_notify_spec_witness :
  handled NETDEV_UNREGISTER = true
  /\ cstr (dev_name (net_eth0 5 0) 1%nat) = cstr (device_name td_polled)
  /\ exists td1,
       net_dev td1 = None
       /\ netdev_trig_notify (net_eth0 5 0) NETDEV_UNREGISTER 1%nat td_polled
          = (NOTIFY_DONE, state_of (set_baseline_state td1),
             CancelDelayedWorkSync
             :: [DevPut 1%nat] ++ calls_of (set_baseline_state td1)).
Proof.
  assert (Hevt : handled NETDEV_UNREGISTER = true) by reflexivity.
  assert (Hname : cstr (dev_name (net_eth0 5 0) 1%nat)
                  = cstr (device_name td_polled)) by reflexivity.
  split; [exact Hevt | split; [exact Hname |]].
  destruct (netdev_trig_notify_spec (net_eth0 5 0) NETDEV_UNREGISTER 1%nat
              td_polled Hevt) as [_ Hmatch].
  destruct (Hmatch Hname)
    as (td1 & _ & _ & _ & _ & Hdev & _ & _ & _ & _ & _ & Hrun).
  exists td1. split; [exact Hdev | exact Hrun].
Defined.

(** ** The poller *)

Lemma to_uint_to_u64 (x : Z) : to_uint (to_u64 x) = to_uint x.
Proof.
  unfold to_uint, to_u64.
  apply Z.mod_mod_divide.
  exists (2 ^ 32). reflexivity.
Qed.

Lemma resched_delay_small (td : led_netdev_data) :
  0 <= interval td < 2 ^ 30 -> resched_delay td = 2 * interval td.
Proof.
  intros H. unfold resched_delay, to_ulong, to_u64, to_int.
  change (2 ^ 30) with 1073741824 in H.
  change (2 ^ 31) with 2147483648. change (2 ^ 32) with 4294967296.
  change (2 ^ 64) with 18446744073709551616.
  rewrite (Z.mod_small (interval td * 2 + 2147483648)) by lia.
  rewrite Z.mod_small by lia. lia.
Qed.

Section Poller.
Context {K : kernel_api}.

(** A tick with a bound device and tx or rx monitored, in closed form. *)
Lemma netdev_trig_work_eq (init_net : netns) (td : led_netdev_data)
    (dev : net_device) :
  net_dev td = Some dev ->
  monitorTx td || monitorRx td = true ->
  let new_activity := to_uint (activity_sum init_net dev td) in
  let ms := jiffies_to_msecs (to_ulong (interval td)) in
  netdev_trig_work init_net td
  = (tt,
     {| work := match work td with
                | Some d => Some d
                | None => Some (resched_delay td)
                end;
        led_cdev := led_cdev td;
        net_dev := net_dev td;
        device_name := device_name td;
        interval := interval td;
        last_activity := new_activity;
        mode := mode td |},
     (if last_activity td =? new_activity then []
      else [LedStopSoftwareBlink;
            LedBlinkSetOneshot ms ms (if monitorLink td then 1 else 0)])
     ++ [ScheduleDelayedWork (resched_delay td)]).
Proof.
  intros Hdev Hmon new_activity ms. subst new_activity ms.
  destruct td as [w l nd nm iv la md].
  unfold activity_sum, resched_delay in *.
  unfold monitorTx, monitorRx, monitorLink in *.
  cbn [net_dev mode interval last_activity work led_cdev device_name] in *.
  subst nd.
  unfold netdev_trig_work. unfold_monad. cbn.
  rewrite <- negb_orb, Hmon. cbn.
  rewrite to_uint_to_u64.
  match goal with |- context [la =? ?x] => destruct (la =? x) eqn:Hla end;
    cbn; try (apply Z.eqb_eq in Hla; subst la);
    destruct w; reflexivity.
Qed.

Lemma run_work_pending (init_net : netns) (td : led_netdev_data) (d : Z) :
  work td = Some d ->
  run_work init_net td = netdev_trig_work init_net (with_work td None).
Proof.
  intros Hw. unfold run_work, bind, get, modify. rewrite Hw.
  destruct (netdev_trig_work init_net (with_work td None)) as [[a s] c].
  reflexivity.
Qed.

(** C2: a tick of the poller with a bound device, tx or rx monitored and a
    stored poll interval that [int] arithmetic can double.  When the newly
    computed activity sum differs from [last_activity], the tick stops a
    running blink and then issues one one-shot blink whose on and off
    durations are both the poll interval in milliseconds, inverted exactly
    when monitorLink is set; otherwise it issues no blink.  In both cases
    [last_activity] ends as the new sum, the last call reschedules the work
    after twice the stored poll interval, and nothing else changes. *)
Theorem netdev_trig_work_spec (init_net : netns) (td : led_netdev_data)
    (dev : net_device) :
  net_dev td = Some dev ->
  monitorTx td || monitorRx td = true ->
  0 <= interval td < 2 ^ 30 ->
  let new_activity := to_uint (activity_sum init_net dev td) in
  let pollIntervalMs := jiffies_to_msecs (interval td) in
  let r := netdev_trig_work init_net td in
  calls_of r
  = (if last_activity td =? new_activity then []
     else [LedStopSoftwareBlink;
           LedBlinkSetOneshot pollIntervalMs pollIntervalMs
             (if monitorLink td then 1 else 0)])
    ++ [ScheduleDelayedWork (2 * interval td)]
  /\ last_activity (state_of r) = new_activity
  /\ work (state_of r) = match work td with
                         | Some d => Some d
                         | None => Some (2 * interval td)
                         end
  /\ led_cdev (state_of r) = led_cdev td
  /\ net_dev (state_of r) = net_dev td
  /\ device_name (state_of r) = device_name td
  /\ interval (state_of r) = interval td
  /\ mode (state_of r) = mode td.
Proof.
  intros Hdev Hmon Hiv new_activity ms r. subst new_activity ms r.
  rewrite (netdev_trig_work_eq init_net td dev Hdev Hmon).
  unfold state_of, calls_of; cbn.
  rewrite (resched_delay_small td Hiv).
  replace (to_ulong (interval td)) with (interval td).
  - repeat split; reflexivity.
  - unfold to_ulong, to_u64. symmetry. apply Z.mod_small.
    change (2 ^ 30) with 1073741824 in Hiv.
    change (2 ^ 64) with 18446744073709551616. lia.
Qed.

(** C10: the activity comparison is made modulo 2^32.  Take a tick with a
    bound device and tx or rx monitored, then the next tick of the queued
    work with the registry's counters changed so that the sum of the
    monitored counters differs from the sum at the first tick by an exact
    multiple of 2^32.  The second tick issues no blink: its only call
    reschedules the work, and [last_activity] stays the first sum modulo
    2^32. *)
Theorem activity_compared_modulo_2_32 (net1 net2 : netns)
    (td : led_netdev_data) (dev : net_device) :
  net_dev td = Some dev ->
  monitorTx td || monitorRx td = true ->
  (activity_sum net2 dev td - activity_sum net1 dev td) mod 2 ^ 32 = 0 ->
  let td1 := state_of (netdev_trig_work net1 td) in
  let r2 := run_work net2 td1 in
  calls_of r2 = [ScheduleDelayedWork (resched_delay td)]
  /\ existsb is_oneshot (calls_of r2) = false
  /\ last_activity td1 = activity_sum net1 dev td mod 2 ^ 32
  /\ last_activity (state_of r2) = last_activity td1.
Proof.
  intros Hdev Hmon Hsum td1 r2.
  assert (Heq : to_uint (activity_sum net2 dev td)
                = to_uint (activity_sum net1 dev td)).
  { unfold to_uint.
    replace (activity_sum net2 dev td)
      with (activity_sum net1 dev td
            + (activity_sum net2 dev td - activity_sum net1 dev td)) at 1
      by lia.
    rewrite <- Zplus_mod_idemp_r, Hsum, Z.add_0_r. reflexivity. }
  subst r2 td1.
  rewrite (netdev_trig_work_eq net1 td dev Hdev Hmon).
  cbv zeta. unfold state_of, calls_of; cbn [fst snd].
  set (td1 := {| work := _ |}).
  assert (Hw : exists d, work td1 = Some d).
  { subst td1; cbn. destruct (work td); eauto. }
  destruct Hw as [d Hw].
  rewrite (run_work_pending net2 td1 d Hw).
  assert (Hdev1 : net_dev (with_work td1 None) = Some dev) by exact Hdev.
  assert (Hmon1 : monitorTx (with_work td1 None)
                  || monitorRx (with_work td1 None) = true) by exact Hmon.
  rewrite (netdev_trig_work_eq net2 _ dev Hdev1 Hmon1).
  unfold state_of, calls_of; cbn.
  change (activity_sum net2 dev (with_work td1 None))
    with (activity_sum net2 dev td).
  rewrite Heq, Z.eqb_refl. cbn.
  repeat split; reflexivity.
Qed.

End Poller.

Lemma netdev_trig_work_spec_witness :
  net_dev td_polled = Some 1%nat
  /\ monitorTx td_polled || monitorRx td_polled = true
  /\ 0 <= interval td_polled < 2 ^ 30
  /\ calls_of (@netdev_trig_work kernel_hz100 (net_eth0 6 0) td_polled)
     = [LedStopSoftwareBlink; LedBlinkSetOneshot 50 50 1;
        ScheduleDelayedWork 10].
Proof.
  assert (Hdev : net_dev td_polled = Some 1%nat) by reflexivity.
  assert (Hmon : monitorTx td_polled || monitorRx td_polled = true)
    by reflexivity.
  assert (Hiv : 0 <= interval td_polled < 2 ^ 30)
    by (split; [discriminate | reflexivity]).
  split; [exact Hdev | split; [exact Hmon | split; [exact Hiv |]]].
  exact (proj1 (@netdev_trig_work_spec kernel_hz100 (net_eth0 6 0) td_polled
                  1%nat Hdev Hmon Hiv)).
Defined.

Lemma activity_compared_modulo_2_32_witness :
  net_dev td_polled = Some 1%nat
  /\ monitorTx td_polled || monitorRx td_polled = true
  /\ (activity_sum (net_eth0 (6 + 2 ^ 32) 0) 1%nat td_polled
      - activity_sum (net_eth0 6 0) 1%nat td_polled) mod 2 ^ 32 = 0
  /\ calls_of
       (@run_work kernel_hz100 (net_eth0 (6 + 2 ^ 32) 0)
          (state_of (@netdev_trig_work kernel_hz100 (net_eth0 6 0)
                       td_polled)))
     = [ScheduleDelayedWork 10].
Proof.
  assert (Hdev : net_dev td_polled = Some 1%nat) by reflexivity.
  assert (Hmon : monitorTx td_polled || monitorRx td_polled = true)
    by reflexivity.
  assert (Hsum : (activity_sum (net_eth0 (6 + 2 ^ 32) 0) 1%nat td_polled
                  - activity_sum (net_eth0 6 0) 1%nat td_polled)
                 mod 2 ^ 32 = 0) by reflexivity.
  split; [exact Hdev | split; [exact Hmon | split; [exact Hsum |]]].
  exact (proj1 (@activity_compared_modulo_2_32 kernel_hz100 (net_eth0 6 0)
                  (net_eth0 (6 + 2 ^ 32) 0) td_polled 1%nat
                  Hdev Hmon Hsum)).
Defined.

(** ** The store handlers in closed form *)

Lemma device_name_store_eq (init_net : netns) (buf : string) (size : nat)
    (td : led_netdev_data) :
  (size < IFNAMSIZ)%nat ->
  device_name_store init_net buf size td
  = (Z.of_nat size,
     baseline_state (rebound_state init_net buf size td),
     CancelDelayedWorkSync
     :: release (net_dev td)
        ++ baseline_calls (rebound_state init_net buf size td)).
Proof.
  intros Hsize.
  unfold device_name_store.
  destruct (IFNAMSIZ <=? size)%nat eqn:Hle;
    [apply Nat.leb_le in Hle; lia |].
  destruct td as [w l nd nm iv la md].
  unfold rebound_state, name_after_store, handle_after_store, release.
  unfold_monad. fields.
  destruct nd as [old |]; fields;
    destruct ((0 <? size)%nat
              && Ascii.eqb (array_get (strncpy nm buf size) (size - 1)) LF);
    fields;
    match goal with
    | |- context [negb (Ascii.eqb (array_get ?a 0) NUL)] =>
        destruct (negb (Ascii.eqb (array_get a 0) NUL)); fields;
        [destruct (dev_get_by_name init_net (cstr a)) as [d |]; fields;
         [destruct (netif_carrier_ok init_net d); fields |] |]
    end;
    rewrite set_baseline_state_eq, ?app_nil_r; reflexivity.
Qed.

Section Stores.
Context {K : kernel_api}.

Lemma netdev_led_attr_store_ok (buf : string) (size : nat)
    (attr : netdev_led_attr) (state : Z) (td : led_netdev_data) :
  kstrtoul buf = (0, state) ->
  netdev_led_attr_store buf size attr td
  = (Z.of_nat size,
     baseline_state (flagged_state attr state td),
     CancelDelayedWorkSync :: baseline_calls (flagged_state attr state td)).
Proof.
  intros Hparse. unfold netdev_led_attr_store, flagged_state, attr_bit.
  rewrite Hparse. unfold_monad. cbn [Z.eqb negb].
  destruct (state =? 0); destruct attr; cbn [negb];
    rewrite set_baseline_state_eq, ?app_nil_r; reflexivity.
Qed.

Lemma netdev_led_attr_store_err (buf : string) (size : nat)
    (attr : netdev_led_attr) (code state : Z) (td : led_netdev_data) :
  kstrtoul buf = (code, state) -> code <> 0 ->
  netdev_led_attr_store buf size attr td = (code, td, []).
Proof.
  intros Hparse Hcode. unfold netdev_led_attr_store. rewrite Hparse.
  apply Z.eqb_neq in Hcode. rewrite Hcode. reflexivity.
Qed.

End Stores.

(** C7, as stated, fails where a timer tick is longer than a millisecond:
    the interval is kept in jiffies, so a written value that is not a whole
    number of ticks is not the poll interval afterwards.  With HZ = 100
    the write of 5 succeeds and stores one jiffy: the poll interval is
    then 10 ms, the endpoint reads back 10, and the write of 7 leaves
    the same state as the write of 5. *)
Lemma interval_write_rounded_to_tick :
  @kstrtoul kernel_hz100 "5" = (0, 5)
  /\ result (@interval_store kernel_hz100 "5" 1 td_default) = 1
  /\ interval (state_of (@interval_store kernel_hz100 "5" 1 td_default)) = 1
  /\ @jiffies_to_msecs kernel_hz100
       (interval (state_of (@interval_store kernel_hz100 "5" 1 td_default)))
     = 10
  /\ @jiffies_to_msecs kernel_hz100
       (interval (state_of (@interval_store kernel_hz100 "5" 1 td_default)))
     <> 5
  /\ result (@interval_show kernel_hz100
               (state_of (@interval_store kernel_hz100 "5" 1 td_default)))
     = ("10" ++ String LF EmptyString)%string
  /\ state_of (@interval_store kernel_hz100 "7" 1 td_default)
     = state_of (@interval_store kernel_hz100 "5" 1 td_default).
Proof.
  repeat (split; [reflexivity |]).
  split; [vm_compute; discriminate |].
  split; reflexivity.
Qed.

Section Interval.
Context {K : kernel_api}.

(** C7, amended: an interval write whose text [kstrtoul] accepts returns
    the number of bytes written, a success.  When the value is outside
    [5, 10000] the state is left as it is and nothing is called.  When it
    is within [5, 10000] the poller is cancelled first, the interval is
    stored as [msecs_to_jiffies] of the written value, in an [int], and the
    Reconciler then runs on the state with that interval: these are all
    the calls, and nothing but the interval, the queued work and what the
    Reconciler sets is changed.  Where the conversion fits an [int], the
    poll interval in milliseconds is then the written value converted to
    jiffies and back, that is, rounded to whole timer ticks; it is the
    written value exactly when that value converts to jiffies and back
    unchanged. *)
Theorem interval_store_spec (buf : string) (size : nat) (value : Z)
    (td : led_netdev_data) :
  kstrtoul buf = (0, value) ->
  let r := interval_store buf size td in
  result r = Z.of_nat size
  /\ 0 <= result r
  /\ (value < 5 \/ 10000 < value -> state_of r = td /\ calls_of r = [])
  /\ (5 <= value <= 10000 ->
      let td1 := with_interval (with_work td None)
                   (to_int (msecs_to_jiffies value)) in
      interval (state_of r) = to_int (msecs_to_jiffies value)
      /\ state_of r = state_of (set_baseline_state td1)
      /\ calls_of r
         = CancelDelayedWorkSync :: calls_of (set_baseline_state td1)
      /\ (0 <= msecs_to_jiffies value < 2 ^ 31 ->
          let pollIntervalMs := jiffies_to_msecs (interval (state_of r)) in
          pollIntervalMs = jiffies_to_msecs (msecs_to_jiffies value)
          /\ (pollIntervalMs = value
              <-> jiffies_to_msecs (msecs_to_jiffies value) = value))).
Proof.
  intros Hparse r. subst r.
  unfold interval_store. rewrite Hparse. cbn [Z.eqb negb].
  destruct ((5 <=? value) && (value <=? 10000)) eqn:Hrange.
  - apply andb_true_iff in Hrange. destruct Hrange as [H5 H10].
    apply Z.leb_le in H5, H10.
    assert (Hu : to_uint value = value).
    { unfold to_uint. apply Z.mod_small.
      change (2 ^ 32) with 4294967296. lia. }
    rewrite Hu. unfold_monad. fields.
    rewrite !set_baseline_state_eq, ?app_nil_r.
    unfold result, state_of, calls_of; fields.
    split; [reflexivity |]. split; [lia |].
    split; [intros Hout; exfalso; lia |].
    intros _. cbv zeta.
    split; [reflexivity |]. split; [reflexivity |]. split; [reflexivity |].
    intros Hfit.
    assert (Hint : to_int (msecs_to_jiffies value) = msecs_to_jiffies value).
    { unfold to_int.
      change (2 ^ 31) with 2147483648 in *.
      change (2 ^ 32) with 4294967296.
      rewrite Z.mod_small by lia. lia. }
    cbn [baseline_state interval with_interval with_work].
    rewrite Hint. split; [reflexivity |]. reflexivity.
  - unfold_monad. unfold result, state_of, calls_of; fields.
    repeat split; try reflexivity; try lia.
    all: intros Hin; exfalso;
      apply andb_false_iff in Hrange;
      destruct Hrange as [H | H]; apply Z.leb_gt in H; lia.
Qed.

End Interval.

Lemma interval_store_spec_witness :
  @kstrtoul kernel_hz100 "200" = (0, 200)
  /\ interval (state_of (@interval_store kernel_hz100 "200" 3
                           td_default))
     = 20
  /\ @jiffies_to_msecs kernel_hz100
       (interval (state_of (@interval_store kernel_hz100 "200" 3
                              td_default)))
     = 200.
Proof.
  split; [reflexivity |].
  destruct (@interval_store_spec kernel_hz100 "200" 3 200 td_default
              eq_refl)
    as (_ & _ & _ & Hin).
  destruct Hin as (Hiv & _ & _ & Hms); [lia |].
  split; [exact Hiv |].
  destruct Hms as (_ & Hback); [split; [discriminate | reflexivity] |].
  apply Hback. reflexivity.
Defined.

(** ** The activity count across configuration writes *)

(** C5, as stated, fails for flag writes: the poller has counted five
    packets, tx is written again, and [last_activity] is still five. *)
Lemma flag_write_keeps_last_activity :
  last_activity td_polled = 5
  /\ last_activity (state_of (@tx_store kernel_hz100 "1" 1 td_polled)) <> 0.
Proof. split; [reflexivity | vm_compute; discriminate]. Qed.

Section ActivityCount.
Context {K : kernel_api}.

(** C5, amended: after every device-name write that is accepted (fewer
    than [IFNAMSIZ] bytes) [last_activity] is 0; a rejected device-name
    write and every flag write, accepted or not, leave [last_activity] as
    it was. *)
Theorem last_activity_after_writes (init_net : netns) (name : string)
    (size : nat) (td : led_netdev_data) :
  (size < IFNAMSIZ)%nat ->
  last_activity (state_of (device_name_store init_net name size td)) = 0
  /\ (forall big, (IFNAMSIZ <= big)%nat ->
        device_name_store init_net name big td = (- EINVAL, td, []))
  /\ (forall buf n attr,
        last_activity (state_of (netdev_led_attr_store buf n attr td))
        = last_activity td).
Proof.
  intros Hsize. split; [| split].
  - rewrite (device_name_store_eq init_net name size td Hsize). reflexivity.
  - intros big Hbig. unfold device_name_store.
    apply Nat.leb_le in Hbig. rewrite Hbig. reflexivity.
  - intros buf n attr.
    destruct (kstrtoul buf) as [code state] eqn:Hparse.
    destruct (Z.eq_dec code 0) as [-> | Hcode].
    + rewrite (netdev_led_attr_store_ok buf n attr state td Hparse).
      reflexivity.
    + rewrite (netdev_led_attr_store_err buf n attr code state td Hparse Hcode).
      reflexivity.
Qed.

End ActivityCount.

Lemma last_activity_after_writes_witness :
  (5 < IFNAMSIZ)%nat
  /\ last_activity
       (state_of (device_name_store (net_eth0 5 0)
                    ("eth0" ++ String LF EmptyString)%string 5 td_polled))
     = 0.
Proof.
  assert (H : (5 < IFNAMSIZ)%nat) by (unfold IFNAMSIZ; lia).
  split; [exact H |].
  exact (proj1 (@last_activity_after_writes kernel_hz100 (net_eth0 5 0)
                  ("eth0" ++ String LF EmptyString)%string 5 td_polled H)).
Defined.

(** ** Unbinding *)

Lemma array_get_set_NUL (s : string) (i : nat) :
  array_get (array_set (String NUL s) i NUL) 0 = NUL.
Proof. destruct i; reflexivity. Qed.

(** A write of the empty name in at least one byte leaves a NUL in the
    first byte of the array. *)
Lemma name_after_store_empty (old buf : string) (size : nat) :
  old <> EmptyString ->
  (0 < size)%nat ->
  empty_name_write buf size = true ->
  array_get (name_after_store old buf size) 0 = NUL.
Proof.
  intros Hold Hsize Hempty.
  destruct old as [| x r]; [congruence |].
  destruct size as [| n]; [lia |].
  unfold name_after_store.
  assert (Hpad : forall src,
             strncpy (String x r) src (S n)
             = String NUL (strncpy r EmptyString n) ->
             array_get
               (if (0 <? S n)%nat
                   && Ascii.eqb
                        (array_get (strncpy (String x r) src (S n))
                           (S n - 1)) LF
                then array_set (strncpy (String x r) src (S n)) (S n - 1) NUL
                else strncpy (String x r) src (S n)) 0 = NUL).
  { intros src ->.
    destruct ((0 <? S n)%nat && _);
      [apply array_get_set_NUL | reflexivity]. }
  destruct buf as [| c b].
  - apply Hpad. reflexivity.
  - cbn [empty_name_write] in Hempty.
    destruct (Ascii.eqb c NUL) eqn:Hc.
    + apply Hpad. cbn [strncpy]. rewrite Hc. reflexivity.
    + cbn [orb] in Hempty. apply andb_true_iff in Hempty.
      destruct Hempty as [Hone Hlf].
      apply Nat.eqb_eq in Hone. apply Ascii.eqb_eq in Hlf.
      assert (n = 0)%nat by lia. subst n c. reflexivity.
Qed.

(** C6: for every prior state whose [device_name] array is in place,
    writing the empty device name (one newline, or a text that starts with
    its terminator) fully unbinds the controller.  The write carries at
    least one byte, as every write that reaches a store handler does, and
    fewer than [IFNAMSIZ], so it is accepted.  It succeeds; afterwards
    the stored name is empty, the handle is none, linkIsUp is false,
    [last_activity] is 0, the poller is not queued and the LED is OFF. *)
Theorem device_name_store_empty (init_net : netns) (buf : string)
    (size : nat) (td : led_netdev_data) :
  String.length (device_name td) = IFNAMSIZ ->
  (0 < size < IFNAMSIZ)%nat ->
  empty_name_write buf size = true ->
  let r := device_name_store init_net buf size td in
  result r = Z.of_nat size
  /\ cstr (device_name (state_of r)) = EmptyString
  /\ net_dev (state_of r) = None
  /\ linkIsUp (state_of r) = false
  /\ last_activity (state_of r) = 0
  /\ work (state_of r) = None
  /\ brightness (led_cdev (state_of r)) = LED_OFF.
Proof.
  intros Hlen [Hpos Hsize] Hempty r. subst r.
  rewrite (device_name_store_eq init_net buf size td Hsize).
  unfold result, state_of; fields.
  assert (Hold : device_name td <> EmptyString).
  { intros E. rewrite E in Hlen. discriminate Hlen. }
  pose proof (name_after_store_empty _ buf size Hold Hpos Hempty) as Hnul.
  assert (Hdev : net_dev (rebound_state init_net buf size td) = None).
  { unfold rebound_state, handle_after_store; fields.
    rewrite Hnul. reflexivity. }
  assert (Hup : linkIsUp (rebound_state init_net buf size td) = false).
  { unfold rebound_state, handle_after_store. rewrite Hnul.
    rewrite Ascii.eqb_refl. cbn [negb]. bits. reflexivity. }
  unfold baseline_state, baseline_level, baseline_polls; fields.
  rewrite Hup. cbn [andb brightness].
  repeat split; try reflexivity; try assumption.
  unfold rebound_state; fields.
  destruct (name_after_store (device_name td) buf size) as [| c s];
    [reflexivity |].
  unfold array_get in Hnul. cbn in Hnul. subst c. reflexivity.
Qed.

Lemma device_name_store_empty_witness :
  String.length (device_name td_polled) = IFNAMSIZ
  /\ (0 < 1 < IFNAMSIZ)%nat
  /\ empty_name_write (String LF EmptyString) 1 = true
  /\ net_dev (state_of (device_name_store (net_eth0 5 0)
                          (String LF EmptyString) 1 td_polled)) = None.
Proof.
  assert (H1 : String.length (device_name td_polled) = IFNAMSIZ)
    by reflexivity.
  assert (H2 : (0 < 1 < IFNAMSIZ)%nat) by (unfold IFNAMSIZ; lia).
  assert (H3 : empty_name_write (String LF EmptyString) 1 = true)
    by reflexivity.
  split; [exact H1 | split; [exact H2 | split; [exact H3 |]]].
  destruct (device_name_store_empty (net_eth0 5 0) (String LF EmptyString) 1
              td_polled H1 H2 H3) as (_ & _ & Hdev & _).
  exact Hdev.
Defined.

(** ** The combined-mode endpoint *)

Lemma prefix_occurs (needle : string) :
  forall text,
    String.prefix needle text = true
    <-> exists post, text = (needle ++ post)%string.
Proof.
  induction needle as [| a n IH]; intros [| b t]; simpl.
  - split; [intros _; exists EmptyString; reflexivity | reflexivity].
  - split; [intros _; exists (String b t); reflexivity | reflexivity].
  - split; [discriminate | intros [post H]; discriminate H].
  - destruct (ascii_dec a b) as [-> | Hab].
    + rewrite IH. split; intros [post H]; exists post; congruence.
    + split; [discriminate |].
      intros [post H]. congruence.
Qed.

(** [strstr] finds a needle exactly when the needle is present as a
    substring of the text, both read as C strings. *)
Lemma strstr_occurs (needle : string) :
  forall text,
    (exists p, strstr text needle = Some p)
    <-> occurs (cstr needle) (cstr text).
Proof.
  assert (Hempty : String.prefix (cstr needle) EmptyString = true
                   <-> occurs (cstr needle) EmptyString).
  { split.
    - intros Hp. apply prefix_occurs in Hp. destruct Hp as [post Hp].
      exists EmptyString, post. exact Hp.
    - intros (pre & post & H). destruct pre; [| discriminate H].
      apply prefix_occurs. exists post. exact H. }
  assert (Hstop : forall text,
             (exists p : string,
                 (if String.prefix (cstr needle) EmptyString
                  then Some text else None) = Some p)
             <-> occurs (cstr needle) EmptyString).
  { intros text. rewrite <- Hempty.
    destruct (String.prefix (cstr needle) EmptyString).
    - split; [reflexivity | eauto].
    - split; [intros [p H]; discriminate H | discriminate]. }
  induction text as [| c t IH]; cbn [strstr cstr].
  - apply Hstop.
  - destruct (Ascii.eqb c NUL) eqn:Hc; [apply Hstop |].
    destruct (String.prefix (cstr needle) (String c (cstr t))) eqn:Hp.
    + split; [| eauto].
      intros _. apply prefix_occurs in Hp. destruct Hp as [post Hp].
      exists EmptyString, post. exact Hp.
    + rewrite IH. split.
      * intros (pre & post & H). exists (String c pre), post.
        cbn. rewrite H. reflexivity.
      * intros (pre & post & H). destruct pre as [| c' pre].
        -- assert (String.prefix (cstr needle) (String c (cstr t)) = true)
             by (apply prefix_occurs; exists post; exact H).
           congruence.
        -- exists pre, post. cbn in H. congruence.
Qed.

Lemma strstr_none (needle text : string) :
  strstr text needle = None <-> ~ occurs (cstr needle) (cstr text).
Proof.
  rewrite <- strstr_occurs.
  destruct (strstr text needle) as [p |].
  - split; [discriminate | intros H; elim H; eauto].
  - split; [intros _ [p H]; discriminate H | reflexivity].
Qed.

(** C9, as stated, fails on the read side: with the default flags (link
    only) the endpoint reads as the token followed by two spaces and a
    newline, which is not the space-joined token list, with or without a
    final newline. *)
Lemma mode_show_not_joined :
  mode_tokens td_default = ["link"]
  /\ mode_text_spec td_default = "link"
  /\ result (mode_show td_default) <> mode_text_spec td_default
  /\ result (mode_show td_default)
     <> (mode_text_spec td_default ++ String LF EmptyString)%string.
Proof.
  split; [reflexivity |]. split; [reflexivity |].
  split; vm_compute; discriminate.
Qed.

(** The search of a combined-mode write ends at the terminator of the
    written text: in the bytes t, x, NUL, r, x the token rx lies behind the
    NUL, so tx is set and rx is cleared. *)
Lemma mode_store_stops_at_NUL :
  strstr ("tx" ++ String NUL "rx") "rx" = None
  /\ monitorTx (state_of (@mode_store kernel_hz100
                            ("tx" ++ String NUL "rx") 5 td_polled)) = true
  /\ monitorRx (state_of (@mode_store kernel_hz100
                            ("tx" ++ String NUL "rx") 5 td_polled)) = false
  /\ monitorLink (state_of (@mode_store kernel_hz100
                              ("tx" ++ String NUL "rx") 5 td_polled)) = false.
Proof. repeat split; reflexivity. Qed.

Section CombinedMode.
Context {K : kernel_api}.

Lemma mode_store_step (needle buf : string) (size : nat)
    (attr : netdev_led_attr) (td : led_netdev_data) :
  kstrtoul "1" = (0, 1) -> kstrtoul "0" = (0, 0) ->
  exists state,
    (state <> 0 <-> occurs (cstr needle) (cstr buf))
    /\ match strstr buf needle with
       | Some _ => netdev_led_attr_store "1" size attr
       | None => netdev_led_attr_store "0" size attr
       end td
       = (Z.of_nat size,
          baseline_state (flagged_state attr state td),
          CancelDelayedWorkSync
          :: baseline_calls (flagged_state attr state td)).
Proof.
  intros H1 H0.
  destruct (strstr buf needle) as [p |] eqn:Hs.
  - exists 1. split.
    + split; [intros _ | discriminate].
      apply strstr_occurs. eauto.
    + apply netdev_led_attr_store_ok. exact H1.
  - exists 0. split.
    + apply strstr_none in Hs. split; [congruence | contradiction].
    + apply netdev_led_attr_store_ok. exact H0.
Qed.

Lemma flagged_state_bits (attr : netdev_led_attr) (state : Z)
    (td : led_netdev_data) (nr : Z) :
  test_bit nr (mode (baseline_state (flagged_state attr state td)))
  = if nr =? attr_bit attr then negb (state =? 0) else test_bit nr (mode td).
Proof.
  unfold baseline_state, flagged_state; fields.
  assert (Hbit : 0 <= attr_bit attr) by (destruct attr; cbv; discriminate).
  rewrite (Z.eqb_sym nr).
  destruct (state =? 0); cbn [negb].
  - rewrite test_bit_clear_bit.
    destruct (attr_bit attr =? nr); cbn [negb];
      [apply andb_false_r | apply andb_true_r].
  - rewrite test_bit_set_bit by exact Hbit.
    destruct (attr_bit attr =? nr); reflexivity.
Qed.

(** C9, amended.  Reading: the combined-mode endpoint shows three slots,
    for link, tx and rx in that order, separated by single spaces and
    ended by a newline; a slot holds its token when its flag is set and is
    empty otherwise, so the whitespace-separated tokens of the text are
    one token per set flag.  Reading changes nothing.  Writing, with a
    [kstrtoul] that reads the literals 0 and 1: the written text is read as
    a C string, up to its first NUL byte; each of the three flags ends set
    exactly when its token is present in that text as a substring, linkIsUp
    is left as it was and the write returns its size.  The write is three
    flag writes in a row, for link, then tx, then rx: each one cancels the
    poller, sets or clears its flag and runs the Reconciler, so the calls
    of the write are exactly a cancel and the Reconciler's calls, three
    times, and the state it leaves is the one the third Reconciler run
    leaves. *)
Theorem mode_endpoint_spec (buf : string) (size : nat)
    (td : led_netdev_data) :
  kstrtoul "1" = (0, 1) -> kstrtoul "0" = (0, 0) ->
  let shown := mode_show td in
  let r := mode_store buf size td in
  result shown
  = ((if monitorLink td then "link" else "") ++ " "
     ++ (if monitorTx td then "tx" else "") ++ " "
     ++ (if monitorRx td then "rx" else "") ++ String LF EmptyString)%string
  /\ words (result shown) = mode_tokens td
  /\ state_of shown = td
  /\ calls_of shown = []
  /\ result r = Z.of_nat size
  /\ (monitorLink (state_of r) = true <-> occurs "link" (cstr buf))
  /\ (monitorTx (state_of r) = true <-> occurs "tx" (cstr buf))
  /\ (monitorRx (state_of r) = true <-> occurs "rx" (cstr buf))
  /\ linkIsUp (state_of r) = linkIsUp td
  /\ exists link tx rx : Z,
       (link <> 0 <-> occurs "link" (cstr buf))
       /\ (tx <> 0 <-> occurs "tx" (cstr buf))
       /\ (rx <> 0 <-> occurs "rx" (cstr buf))
       /\ let f1 := flagged_state NETDEV_ATTR_LINK link td in
          let td1 := state_of (set_baseline_state f1) in
          let f2 := flagged_state NETDEV_ATTR_TX tx td1 in
          let td2 := state_of (set_baseline_state f2) in
          let f3 := flagged_state NETDEV_ATTR_RX rx td2 in
          state_of r = state_of (set_baseline_state f3)
          /\ calls_of r
             = (CancelDelayedWorkSync :: calls_of (set_baseline_state f1))
               ++ (CancelDelayedWorkSync :: calls_of (set_baseline_state f2))
               ++ (CancelDelayedWorkSync :: calls_of (set_baseline_state f3)).
Proof.
  intros H1 H0 shown r.
  split; [reflexivity |].
  split.
  { subst shown. unfold mode_show, mode_tokens, monitorLink, monitorTx,
      monitorRx, attr_value, NETDEV_LED_LINK, NETDEV_LED_TX, NETDEV_LED_RX.
    unfold_monad. unfold result; fields.
    destruct (test_bit 0 (mode td)), (test_bit 1 (mode td)),
      (test_bit 2 (mode td)); reflexivity. }
  split; [reflexivity |]. split; [reflexivity |].
  subst r. unfold mode_store, bind.
  destruct (mode_store_step "link" buf size NETDEV_ATTR_LINK td H1 H0)
    as (s1 & Hs1 & ->).
  set (td1 := baseline_state (flagged_state NETDEV_ATTR_LINK s1 td)).
  destruct (mode_store_step "tx" buf size NETDEV_ATTR_TX td1 H1 H0)
    as (s2 & Hs2 & ->).
  set (td2 := baseline_state (flagged_state NETDEV_ATTR_TX s2 td1)).
  destruct (mode_store_step "rx" buf size NETDEV_ATTR_RX td2 H1 H0)
    as (s3 & Hs3 & ->).
  change (cstr "link") with "link" in Hs1.
  change (cstr "tx") with "tx" in Hs2.
  change (cstr "rx") with "rx" in Hs3.
  unfold ret, result, state_of, calls_of; fields.
  assert (Hbits : forall nr,
             test_bit nr
               (mode (baseline_state (flagged_state NETDEV_ATTR_RX s3 td2)))
             = if nr =? 2 then negb (s3 =? 0)
               else if nr =? 1 then negb (s2 =? 0)
               else if nr =? 0 then negb (s1 =? 0)
               else test_bit nr (mode td)).
  { intros nr. subst td2 td1. rewrite !flagged_state_bits. reflexivity. }
  assert (Hnz : forall s, negb (s =? 0) = true <-> s <> 0).
  { intros s. rewrite negb_true_iff. apply Z.eqb_neq. }
  split; [reflexivity |].
  unfold monitorLink, monitorTx, monitorRx, linkIsUp.
  rewrite !Hbits. cbn [Z.eqb Pos.eqb NETDEV_LED_LINK NETDEV_LED_TX
                         NETDEV_LED_RX NETDEV_LED_MODE_LINKUP].
  split; [rewrite <- Hs1; apply Hnz |].
  split; [rewrite <- Hs2; apply Hnz |].
  split; [rewrite <- Hs3; apply Hnz |].
  split; [reflexivity |].
  exists s1, s2, s3.
  split; [exact Hs1 |]. split; [exact Hs2 |]. split; [exact Hs3 |].
  cbv zeta. rewrite !set_baseline_state_eq.
  unfold state_of, calls_of; cbn [fst snd].
  fold td1. fold td2.
  split; [reflexivity |].
  rewrite app_nil_r. reflexivity.
Qed.

End CombinedMode.

Lemma mode_endpoint_spec_witness :
  @kstrtoul kernel_hz100 "1" = (0, 1)
  /\ @kstrtoul kernel_hz100 "0" = (0, 0)
  /\ words (result (mode_show td_polled)) = mode_tokens td_polled
  /\ (monitorRx (state_of (@mode_store kernel_hz100 "rx link" 7 td_polled))
      = true <-> occurs "rx" (cstr "rx link")).
Proof.
  split; [reflexivity |]. split; [reflexivity |].
  destruct (@mode_endpoint_spec kernel_hz100 "rx link" 7 td_polled
              eq_refl eq_refl)
    as (_ & Hwords & _ & _ & _ & _ & _ & Hrx & _).
  split; [exact Hwords | exact Hrx].
Defined.

(** ** The invariant of the unbound controller *)

Lemma state_of_bind {A B : Type} (m : M A) (k : A -> M B)
    (td : led_netdev_data) :
  state_of (bind m k td) = state_of (k (result (m td)) (state_of (m td))).
Proof.
  unfold bind, state_of, result.
  destruct (m td) as [[a s] c]. cbn [fst snd].
  destruct (k a s) as [[b s'] c']. reflexivity.
Qed.

Lemma baseline_quiet (td : led_netdev_data) :
  (net_dev td = None -> linkIsUp td = false /\ work td = None) ->
  unbound_quiet (baseline_state td).
Proof.
  intros H Hnd. cbn [baseline_state net_dev] in Hnd.
  destruct (H Hnd) as [Hup Hw].
  unfold baseline_state, baseline_level, baseline_polls, linkIsUp in *.
  cbn [mode led_cdev brightness work].
  rewrite Hup. cbn [andb]. auto.
Qed.

Lemma set_baseline_state_quiet (td : led_netdev_data) :
  unbound_quiet td -> unbound_quiet (state_of (set_baseline_state td)).
Proof.
  intros H. rewrite set_baseline_state_eq. unfold state_of; fields.
  apply baseline_quiet. intros Hnd. destruct (H Hnd) as (Hup & _ & Hw). auto.
Qed.

(** A device-name write establishes the invariant when it is accepted and
    changes nothing when it is rejected. *)
Lemma device_name_store_quiet (init_net : netns) (buf : string) (size : nat)
    (td : led_netdev_data) :
  unbound_quiet td ->
  unbound_quiet (state_of (device_name_store init_net buf size td)).
Proof.
  intros H.
  destruct (Nat.lt_ge_cases size IFNAMSIZ) as [Hlt | Hge].
  - rewrite (device_name_store_eq init_net buf size td Hlt).
    unfold state_of; fields. apply baseline_quiet.
    unfold rebound_state; fields. intros Hnd. rewrite Hnd.
    split; [bits |]; reflexivity.
  - unfold device_name_store. apply Nat.leb_le in Hge. rewrite Hge.
    exact H.
Qed.

Lemma netdev_trig_notify_quiet (init_net : netns) (evt : netdev_event)
    (dev : net_device) (td : led_netdev_data) :
  unbound_quiet td ->
  (is_up_or_change evt && netif_carrier_ok init_net dev = true ->
   net_dev td <> None) ->
  unbound_quiet (state_of (netdev_trig_notify init_net evt dev td)).
Proof.
  intros H Hbound.
  destruct (handled evt) eqn:Hevt.
  2: { rewrite netdev_trig_notify_skip by (left; exact Hevt). exact H. }
  destruct (string_dec (cstr (dev_name init_net dev)) (cstr (device_name td)))
    as [Hname | Hname].
  2: { rewrite netdev_trig_notify_skip by (right; exact Hname). exact H. }
  rewrite (netdev_trig_notify_eq init_net evt dev td Hevt Hname).
  unfold state_of; fields. apply baseline_quiet.
  unfold notified_state; fields. intros Hnd.
  destruct (is_up_or_change evt && netif_carrier_ok init_net dev) eqn:Hup.
  - exfalso. apply (Hbound eq_refl).
    destruct evt; try discriminate Hup; exact Hnd.
  - split; [bits |]; reflexivity.
Qed.

Section QuietStores.
Context {K : kernel_api}.

Lemma netdev_led_attr_store_quiet (buf : string) (size : nat)
    (attr : netdev_led_attr) (td : led_netdev_data) :
  unbound_quiet td ->
  unbound_quiet (state_of (netdev_led_attr_store buf size attr td)).
Proof.
  intros H.
  destruct (kstrtoul buf) as [code state] eqn:Hparse.
  destruct (Z.eq_dec code 0) as [-> | Hcode].
  - rewrite (netdev_led_attr_store_ok buf size attr state td Hparse).
    unfold state_of; fields. apply baseline_quiet.
    intros Hnd. destruct (H Hnd) as (Hup & _).
    split; [| reflexivity].
    unfold linkIsUp in *. unfold flagged_state; fields.
    destruct (state =? 0); cbn [negb];
      [rewrite test_bit_clear_bit | rewrite test_bit_set_bit];
      rewrite ?Hup; destruct attr; try reflexivity; cbv; discriminate.
  - rewrite (netdev_led_attr_store_err buf size attr code state td
               Hparse Hcode).
    exact H.
Qed.

Lemma mode_store_quiet (buf : string) (size : nat) (td : led_netdev_data) :
  unbound_quiet td -> unbound_quiet (state_of (mode_store buf size td)).
Proof.
  intros H. unfold mode_store, ret.
  assert (Hstep : forall needle attr td0,
             unbound_quiet td0 ->
             unbound_quiet
               (state_of (match strstr buf needle with
                          | Some _ => netdev_led_attr_store "1" size attr
                          | None => netdev_led_attr_store "0" size attr
                          end td0))).
  { intros needle attr td0 H0.
    destruct (strstr buf needle); apply netdev_led_attr_store_quiet, H0. }
  rewrite !state_of_bind. unfold state_of at 1. cbn [fst snd].
  apply Hstep, Hstep, Hstep, H.
Qed.

Lemma interval_store_quiet (buf : string) (size : nat)
    (td : led_netdev_data) :
  unbound_quiet td -> unbound_quiet (state_of (interval_store buf size td)).
Proof.
  intros H. unfold interval_store.
  destruct (kstrtoul buf) as [code value].
  destruct (code =? 0); cbn [negb]; [| exact H].
  destruct ((5 <=? value) && (value <=? 10000)).
  - unfold_monad. fields. rewrite set_baseline_state_eq. unfold state_of.
    fields. apply baseline_quiet. intros Hnd.
    destruct (H Hnd) as (Hup & _). auto.
  - exact H.
Qed.

Lemma netdev_trig_work_quiet (init_net : netns) (td : led_netdev_data) :
  unbound_quiet td ->
  unbound_quiet (state_of (netdev_trig_work init_net td)).
Proof.
  intros H. destruct (net_dev td) as [dev |] eqn:Hnd.
  - destruct (monitorTx td || monitorRx td) eqn:Hmon.
    + rewrite (netdev_trig_work_eq init_net td dev Hnd Hmon).
      unfold state_of; fields. intros Hnone. cbn in Hnone. congruence.
    + unfold netdev_trig_work. unfold_monad. rewrite Hnd.
      unfold monitorTx, monitorRx in Hmon.
      rewrite <- negb_orb, Hmon. exact H.
  - destruct (H Hnd) as (Hup & _ & Hw).
    unfold netdev_trig_work. unfold_monad. rewrite Hnd.
    unfold state_of; fields. intros _. auto.
Qed.

End QuietStores.

Section QuietRuns.
Context {K : kernel_api}.

Lemma run_work_quiet (init_net : netns) (td : led_netdev_data) :
  unbound_quiet td -> unbound_quiet (state_of (run_work init_net td)).
Proof.
  intros H. destruct (work td) as [d |] eqn:Hw.
  - rewrite (run_work_pending init_net td d Hw).
    apply netdev_trig_work_quiet.
    intros Hnd. destruct (H Hnd) as (Hup & Hoff & _). auto.
  - unfold run_work. unfold_monad. rewrite Hw. exact H.
Qed.

(** Every operation other than a link-up event without a handle preserves
    the invariant. *)
Lemma step_quiet (init_net : netns) (op : operation) (td : led_netdev_data) :
  unbound_quiet td ->
  link_up_unbound init_net op td = false ->
  unbound_quiet (step init_net op td).
Proof.
  intros H Hop. destruct op; cbn [step].
  - apply device_name_store_quiet, H.
  - apply netdev_led_attr_store_quiet, H.
  - apply mode_store_quiet, H.
  - apply interval_store_quiet, H.
  - apply netdev_trig_notify_quiet; [exact H |].
    intros Hup Hnd. unfold link_up_unbound in Hop.
    rewrite Hnd, Hup in Hop. discriminate Hop.
  - apply run_work_quiet, H.
Qed.

(** The invariant holds after every sequence of writes, events and ticks
    in which no link-up event arrives while the handle is none. *)
Lemma run_quiet (ops : list (netns * operation)) :
  forall td,
    unbound_quiet td -> bound_when_up ops td -> unbound_quiet (run ops td).
Proof.
  induction ops as [| [init_net op] rest IH]; intros td H Hops.
  - exact H.
  - destruct Hops as [Hop Hrest]. cbn [run].
    apply IH; [apply step_quiet; assumption | exact Hrest].
Qed.

End QuietRuns.

(** ** The name array keeps its size *)

Lemma strncpy_length (dest : string) :
  forall src n, String.length (strncpy dest src n) = String.length dest.
Proof.
  induction dest as [| c d IH]; intros src [| n]; cbn [strncpy];
    try reflexivity.
  destruct src as [| x src]; [| destruct (Ascii.eqb x NUL)];
    cbn [String.length]; rewrite IH; reflexivity.
Qed.

Lemma array_set_length (a : string) :
  forall i c, String.length (array_set a i c) = String.length a.
Proof.
  induction a as [| x r IH]; intros [| i] c; cbn [array_set String.length];
    try reflexivity.
  rewrite IH. reflexivity.
Qed.

Lemma name_after_store_length (old buf : string) (size : nat) :
  String.length (name_after_store old buf size) = String.length old.
Proof.
  unfold name_after_store.
  destruct ((0 <? size)%nat && _);
    rewrite ?array_set_length; apply strncpy_length.
Qed.

Section NameArray.
Context {K : kernel_api}.

(** No operation changes the size of [device_name]: the array of a
    reachable state has [IFNAMSIZ] bytes, as the one of the activated
    trigger. *)
Lemma step_device_name_length (init_net : netns) (op : operation)
    (td : led_netdev_data) :
  String.length (device_name (step init_net op td))
  = String.length (device_name td).
Proof.
  assert (Hflag : forall buf size attr td0,
             device_name (state_of (netdev_led_attr_store buf size attr td0))
             = device_name td0).
  { intros buf size attr td0.
    destruct (kstrtoul buf) as [code state] eqn:Hparse.
    destruct (Z.eq_dec code 0) as [-> | Hcode].
    - rewrite (netdev_led_attr_store_ok buf size attr state td0 Hparse).
      reflexivity.
    - rewrite (netdev_led_attr_store_err buf size attr code state td0
                 Hparse Hcode).
      reflexivity. }
  destruct op; cbn [step].
  - destruct (Nat.lt_ge_cases size IFNAMSIZ) as [Hlt | Hge].
    + rewrite (device_name_store_eq init_net buf size td Hlt).
      unfold state_of, rebound_state; cbn. apply name_after_store_length.
    + unfold device_name_store. apply Nat.leb_le in Hge. rewrite Hge.
      reflexivity.
  - rewrite Hflag. reflexivity.
  - unfold mode_store, ret. rewrite !state_of_bind.
    unfold state_of at 1. cbn [fst snd].
    destruct (strstr buf "rx"), (strstr buf "tx"), (strstr buf "link");
      rewrite !Hflag; reflexivity.
  - unfold interval_store.
    destruct (kstrtoul buf) as [code value].
    destruct (code =? 0); cbn [negb]; [| reflexivity].
    destruct ((5 <=? value) && (value <=? 10000)); [| reflexivity].
    unfold_monad. fields. rewrite set_baseline_state_eq. reflexivity.
  - destruct (handled evt) eqn:Hevt.
    2: { rewrite netdev_trig_notify_skip by (left; exact Hevt).
         reflexivity. }
    destruct (string_dec (cstr (dev_name init_net dev))
                (cstr (device_name td))) as [Hname | Hname].
    2: { rewrite netdev_trig_notify_skip by (right; exact Hname).
         reflexivity. }
    rewrite (netdev_trig_notify_eq init_net evt dev td Hevt Hname).
    reflexivity.
  - destruct (work td) as [d |] eqn:Hw.
    + rewrite (run_work_pending init_net td d Hw).
      destruct (net_dev td) as [dev |] eqn:Hnd.
      * destruct (monitorTx td || monitorRx td) eqn:Hmon.
        -- rewrite (netdev_trig_work_eq init_net (with_work td None) dev
                      Hnd Hmon).
           reflexivity.
        -- unfold netdev_trig_work. unfold_monad. fields. rewrite Hnd.
           unfold monitorTx, monitorRx in Hmon.
           rewrite <- negb_orb, Hmon. reflexivity.
      * unfold netdev_trig_work. unfold_monad. fields. rewrite Hnd.
        reflexivity.
    + unfold run_work. unfold_monad. rewrite Hw. reflexivity.
Qed.

Lemma run_device_name_length (ops : list (netns * operation)) :
  forall led,
    String.length (device_name (run ops (netdev_trig_activate led)))
    = IFNAMSIZ.
Proof.
  assert (Hrun : forall td,
             String.length (device_name (run ops td))
             = String.length (device_name td)).
  { induction ops as [| [init_net op] rest IH]; intros td; cbn [run].
    - reflexivity.
    - rewrite IH. apply step_device_name_length. }
  intros led. rewrite Hrun. reflexivity.
Qed.

End NameArray.


(** C1: the invariant does not survive every event.  The controller is
    pointed at eth0 and holds no handle (a device was renamed to eth0, which
    drops the handle); the invariant holds.  The registry then reports the
    device up with carrier: the notifier sets linkIsUp from the event's
    device without looking at the handle, the Reconciler lights the LED and
    queues the poller, and the handle is still none. *)
Theorem link_up_event_while_unbound :
  unbound_quiet td_renamed
  /\ net_dev td_renamed = None
  /\ link_up_unbound (net_eth0 0 0) (Notify NETDEV_UP 1%nat) td_renamed = true
  /\ net_dev (@step kernel_hz100 (net_eth0 0 0) (Notify NETDEV_UP 1%nat)
                td_renamed) = None
  /\ linkIsUp (@step kernel_hz100 (net_eth0 0 0) (Notify NETDEV_UP 1%nat)
                 td_renamed) = true
  /\ brightness (led_cdev (@step kernel_hz100 (net_eth0 0 0)
                             (Notify NETDEV_UP 1%nat) td_renamed)) = 255
  /\ work (@step kernel_hz100 (net_eth0 0 0) (Notify NETDEV_UP 1%nat)
             td_renamed) = Some 0
  /\ ~ unbound_quiet (@step kernel_hz100 (net_eth0 0 0)
                         (Notify NETDEV_UP 1%nat) td_renamed).
Proof.
  split.
  { intros _. repeat split; reflexivity. }
  repeat (split; [reflexivity |]).
  intros Hq. destruct (Hq eq_refl) as (Hup & _).
  vm_compute in Hup. discriminate Hup.
Qed.

(** * Further properties of the driver *)

(** ** Activation and deactivation *)

Lemma setup_effects_app (c1 c2 : list Lifecycle.setup_call) :
  forall r r1,
    setup_effects c1 r = Some r1 ->
    setup_effects (c1 ++ c2) r = setup_effects c2 r1.
Proof.
  induction c1 as [| c rest IH]; intros r r1 H; cbn [setup_effects app] in *.
  - congruence.
  - destruct (setup_effect c r) as [r' |]; [| discriminate H].
    apply IH. exact H.
Qed.

Section Activation.
Context {K : kernel_api}.

(** Activation in closed form: it succeeds exactly when every step does,
    and then holds everything; otherwise it holds nothing. *)
Lemma activate_effects (env : Lifecycle.environment) (led : led_classdev)
    (old : option led_netdev_data) :
  let r := Lifecycle.netdev_trig_activate env led old in
  let ok := Lifecycle.kzalloc env
            && (Lifecycle.device_create_file env
                  Lifecycle.dev_attr_device_name =? 0)
            && (Lifecycle.device_create_file env Lifecycle.dev_attr_link =? 0)
            && (Lifecycle.device_create_file env Lifecycle.dev_attr_rx =? 0)
            && (Lifecycle.device_create_file env Lifecycle.dev_attr_tx =? 0)
            && (Lifecycle.device_create_file env
                  Lifecycle.dev_attr_interval =? 0)
            && (Lifecycle.device_create_file env Lifecycle.dev_attr_mode =? 0)
            && (Lifecycle.register_netdevice_notifier env =? 0) in
  fst r = (if ok then Some (netdev_trig_activate led)
           else if Lifecycle.kzalloc env then None else old)
  /\ setup_effects (snd r) no_resources
     = Some (if ok then all_resources else no_resources).
Proof.
  cbv zeta. unfold Lifecycle.netdev_trig_activate.
  destruct (Lifecycle.kzalloc env); cbn [negb andb]; [| split; reflexivity].
  destruct (Lifecycle.device_create_file env Lifecycle.dev_attr_device_name
            =? 0) eqn:E1; cbn [negb andb];
    [| split; [reflexivity | cbn; rewrite E1; reflexivity]].
  destruct (Lifecycle.device_create_file env Lifecycle.dev_attr_link =? 0)
    eqn:E2; cbn [negb andb];
    [| split; [reflexivity | cbn; rewrite E1; cbn; rewrite E2; reflexivity]].
  destruct (Lifecycle.device_create_file env Lifecycle.dev_attr_rx =? 0)
    eqn:E3; cbn [negb andb];
    [| split; [reflexivity
              | cbn; rewrite E1; cbn; rewrite E2; cbn; rewrite E3;
                reflexivity]].
  destruct (Lifecycle.device_create_file env Lifecycle.dev_attr_tx =? 0)
    eqn:E4; cbn [negb andb];
    [| split; [reflexivity
              | cbn; rewrite E1; cbn; rewrite E2; cbn; rewrite E3; cbn;
                rewrite E4; reflexivity]].
  destruct (Lifecycle.device_create_file env Lifecycle.dev_attr_interval =? 0)
    eqn:E5; cbn [negb andb];
    [| split; [reflexivity
              | cbn; rewrite E1; cbn; rewrite E2; cbn; rewrite E3; cbn;
                rewrite E4; cbn; rewrite E5; reflexivity]].
  destruct (Lifecycle.device_create_file env Lifecycle.dev_attr_mode =? 0)
    eqn:E6; cbn [negb andb];
    [| split; [reflexivity
              | cbn; rewrite E1; cbn; rewrite E2; cbn; rewrite E3; cbn;
                rewrite E4; cbn; rewrite E5; cbn; rewrite E6; reflexivity]].
  destruct (Lifecycle.register_netdevice_notifier env =? 0) eqn:E7;
    cbn [negb andb];
    (split; [reflexivity
            | cbn; rewrite E1; cbn; rewrite E2; cbn; rewrite E3; cbn;
              rewrite E4; cbn; rewrite E5; cbn; rewrite E6; cbn; rewrite E7;
              reflexivity]).
Qed.

(** X1: activation is all or nothing.  When the allocation fails nothing
    is touched and [led_cdev->trigger_data] keeps its value.  When the
    allocation succeeds and every [device_create_file] and the notifier
    registration succeed, [led_cdev->trigger_data] holds the initial state,
    the six files exist and the notifier is registered.  When the
    allocation succeeds and a [device_create_file] or the notifier
    registration fails, every file created so far is removed again (none
    twice, none that was not created), the state is freed and
    [led_cdev->trigger_data] is cleared: no file, no notifier and no memory
    is left.  So the trigger data is set exactly when every step
    succeeded. *)
Theorem activation_all_or_nothing (env : Lifecycle.environment)
    (led : led_classdev) (old : option led_netdev_data) :
  let r := Lifecycle.netdev_trig_activate env led old in
  let steps_succeed :=
    (forall a, Lifecycle.device_create_file env a = 0)
    /\ Lifecycle.register_netdevice_notifier env = 0 in
  (Lifecycle.kzalloc env = false ->
   r = (old, [Lifecycle.Kzalloc false]))
  /\ (Lifecycle.kzalloc env = true -> steps_succeed ->
      fst r = Some (netdev_trig_activate led)
      /\ setup_effects (snd r) no_resources = Some all_resources)
  /\ (Lifecycle.kzalloc env = true -> ~ steps_succeed ->
      fst r = None
      /\ setup_effects (snd r) no_resources = Some no_resources)
  /\ (Lifecycle.kzalloc env = true -> fst r = None ->
      setup_effects (snd r) no_resources = Some no_resources)
  /\ (forall td, Lifecycle.kzalloc env = true -> fst r = Some td ->
      td = netdev_trig_activate led
      /\ setup_effects (snd r) no_resources = Some all_resources
      /\ steps_succeed).
Proof.
  intros r steps_succeed.
  destruct (activate_effects env led old) as [Hfst Heff].
  fold r in Hfst, Heff. cbv zeta in Hfst, Heff.
  assert (Hok : Lifecycle.kzalloc env = true ->
            (Lifecycle.kzalloc env
             && (Lifecycle.device_create_file env
                   Lifecycle.dev_attr_device_name =? 0)
             && (Lifecycle.device_create_file env Lifecycle.dev_attr_link =? 0)
             && (Lifecycle.device_create_file env Lifecycle.dev_attr_rx =? 0)
             && (Lifecycle.device_create_file env Lifecycle.dev_attr_tx =? 0)
             && (Lifecycle.device_create_file env
                   Lifecycle.dev_attr_interval =? 0)
             && (Lifecycle.device_create_file env Lifecycle.dev_attr_mode =? 0)
             && (Lifecycle.register_netdevice_notifier env =? 0) = true
             <-> steps_succeed)).
  { intros Hk. rewrite Hk. cbn [andb]. subst steps_succeed. split.
    - intros H.
      repeat (apply andb_true_iff in H; destruct H as [H ?]).
      repeat match goal with H : (_ =? 0) = true |- _ =>
               apply Z.eqb_eq in H end.
      split; [intros []; assumption | assumption].
    - intros [Hfiles Hreg].
      rewrite !Hfiles, Hreg. reflexivity. }
  split; [| split; [| split; [| split]]].
  - intros Hk. subst r. unfold Lifecycle.netdev_trig_activate.
    rewrite Hk. reflexivity.
  - intros Hk Hsteps. apply (Hok Hk) in Hsteps.
    rewrite Hfst, Heff, Hsteps. split; reflexivity.
  - intros Hk Hsteps. rewrite Hfst, Heff.
    pose proof (Hok Hk) as Hiff. clear Hok.
    destruct (_ && _).
    + elim Hsteps. apply Hiff. reflexivity.
    + rewrite Hk. split; reflexivity.
  - intros Hk Hnone. rewrite Heff. rewrite Hfst in Hnone.
    destruct (_ && _); [discriminate Hnone | reflexivity].
  - intros td Hk Hsome. rewrite Heff. rewrite Hfst in Hsome.
    pose proof (Hok Hk) as Hiff. clear Hok.
    destruct (_ && _).
    + inversion Hsome; subst td.
      split; [reflexivity |]. split; [reflexivity |].
      apply Hiff. reflexivity.
    + rewrite Hk in Hsome. discriminate Hsome.
Qed.

(** X2: deactivation undoes a successful activation, whatever state the
    trigger has reached in between: the notifier is unregistered, the six
    files are removed, the work is cancelled, the handle is released when
    one is held, the state is freed, and nothing is left. *)
Theorem activate_deactivate_balanced (env : Lifecycle.environment)
    (led : led_classdev) (td0 td : led_netdev_data)
    (calls : list Lifecycle.setup_call) :
  Lifecycle.netdev_trig_activate env led None = (Some td0, calls) ->
  setup_effects (calls ++ Lifecycle.netdev_trig_deactivate (Some td))
    no_resources = Some no_resources
  /\ driver_calls (Lifecycle.netdev_trig_deactivate (Some td))
     = CancelDelayedWorkSync :: release (net_dev td).
Proof.
  intros Hact.
  destruct (activate_effects env led None) as [Hfst Heff].
  rewrite Hact in Hfst, Heff. cbn [fst snd] in Hfst, Heff.
  destruct (_ && _) in Hfst, Heff.
  2: { destruct (Lifecycle.kzalloc env); discriminate Hfst. }
  split.
  - rewrite (setup_effects_app _ _ _ _ Heff).
    unfold Lifecycle.netdev_trig_deactivate, netdev_trig_deactivate.
    unfold_monad. unfold calls_of. cbn [snd fst].
    destruct (net_dev (with_work td None)); reflexivity.
  - unfold Lifecycle.netdev_trig_deactivate, netdev_trig_deactivate.
    unfold_monad. unfold calls_of. cbn [snd fst].
    change (net_dev (with_work td None)) with (net_dev td).
    destruct (net_dev td); reflexivity.
Qed.

End Activation.

Lemma activate_deactivate_balanced_witness :
  @Lifecycle.netdev_trig_activate kernel_hz100 env_ok led_255 None
  = (Some td_default,
     snd (@Lifecycle.netdev_trig_activate kernel_hz100 env_ok led_255 None))
  /\ driver_calls (Lifecycle.netdev_trig_deactivate (Some td_polled))
     = [CancelDelayedWorkSync; DevPut 1%nat].
Proof.
  assert (H : @Lifecycle.netdev_trig_activate kernel_hz100 env_ok led_255 None
              = (Some td_default,
                 snd (@Lifecycle.netdev_trig_activate kernel_hz100 env_ok
                        led_255 None))) by reflexivity.
  split; [exact H |].
  exact (proj2 (@activate_deactivate_balanced kernel_hz100 env_ok led_255
                  td_default td_polled _ H)).
Defined.

(** ** Every tick *)

Section Ticks.
Context {K : kernel_api}.

Lemma netdev_trig_work_state (init_net : netns) (td : led_netdev_data) :
  state_of (netdev_trig_work init_net td) = ticked_state init_net td.
Proof.
  unfold ticked_state.
  destruct (net_dev td) as [dev |] eqn:Hnd.
  - destruct (monitorTx td || monitorRx td) eqn:Hmon.
    + rewrite (netdev_trig_work_eq init_net td dev Hnd Hmon).
      unfold state_of; cbn [fst snd]. rewrite Hnd. reflexivity.
    + unfold netdev_trig_work. unfold_monad. rewrite Hnd.
      unfold monitorTx, monitorRx in Hmon.
      rewrite <- negb_orb, Hmon. reflexivity.
  - unfold netdev_trig_work. unfold_monad. rewrite Hnd. reflexivity.
Qed.

(** X3: the ticks that end the polling.  A tick that finds no handle sets
    the LED to OFF, makes no other call and does not queue the work again;
    a tick that finds a handle but neither tx nor rx monitored calls
    nothing and changes nothing.  In both cases the work stays as it was:
    only the Reconciler can start the poller again. *)
Theorem netdev_trig_work_stops (init_net : netns) (td : led_netdev_data) :
  net_dev td = None \/ monitorTx td || monitorRx td = false ->
  let r := netdev_trig_work init_net td in
  calls_of r = (match net_dev td with
                | None => [LedSetBrightness LED_OFF]
                | Some _ => []
                end)
  /\ brightness (led_cdev (state_of r))
     = (match net_dev td with
        | None => LED_OFF
        | Some _ => brightness (led_cdev td)
        end)
  /\ work (state_of r) = work td
  /\ net_dev (state_of r) = net_dev td
  /\ mode (state_of r) = mode td
  /\ last_activity (state_of r) = last_activity td
  /\ interval (state_of r) = interval td
  /\ device_name (state_of r) = device_name td.
Proof.
  intros Hstop r. subst r.
  unfold netdev_trig_work. unfold_monad.
  destruct (net_dev td) as [dev |] eqn:Hnd.
  - destruct Hstop as [H | Hmon]; [discriminate H |].
    unfold monitorTx, monitorRx in Hmon.
    rewrite <- negb_orb, Hmon. cbn [negb].
    unfold state_of, calls_of; cbn [fst snd]. rewrite Hnd.
    repeat split; reflexivity.
  - unfold state_of, calls_of; cbn. rewrite Hnd. repeat split; reflexivity.
Qed.

End Ticks.

Lemma netdev_trig_work_stops_witness :
  (net_dev td_renamed = None
   \/ monitorTx td_renamed || monitorRx td_renamed = false)
  /\ calls_of (@netdev_trig_work kernel_hz100 (net_eth0 0 0) td_renamed)
     = [LedSetBrightness LED_OFF].
Proof.
  assert (H : net_dev td_renamed = None
              \/ monitorTx td_renamed || monitorRx td_renamed = false)
    by (left; reflexivity).
  split; [exact H |].
  exact (proj1 (@netdev_trig_work_stops kernel_hz100 (net_eth0 0 0)
                  td_renamed H)).
Defined.

(** ** Invariants of every run *)

Section Invariants.
Context {K : kernel_api}.

(** A property kept by the Reconciler after each kind of update and by
    the tick of a queued work is kept by every operation. *)
Lemma step_invariant (P : led_netdev_data -> Prop) :
  (forall attr state td,
      P td -> P (baseline_state (flagged_state attr state td))) ->
  (forall ms td,
      5 <= ms <= 10000 -> P td ->
      P (baseline_state
           (with_interval (with_work td None)
              (to_int (msecs_to_jiffies ms))))) ->
  (forall init_net buf size td,
      (size < IFNAMSIZ)%nat -> P td ->
      P (baseline_state (rebound_state init_net buf size td))) ->
  (forall init_net evt dev td,
      handled evt = true -> P td ->
      P (baseline_state (notified_state init_net evt dev td))) ->
  (forall init_net td d,
      work td = Some d -> P td ->
      P (ticked_state init_net (with_work td None))) ->
  forall init_net op td, P td -> P (step init_net op td).
Proof.
  intros Hflag Hinterval Hname Hnotify Htick init_net op td H.
  assert (Hstore : forall buf size attr td0,
             P td0 ->
             P (state_of (netdev_led_attr_store buf size attr td0))).
  { intros buf size attr td0 H0.
    destruct (kstrtoul buf) as [code state] eqn:Hparse.
    destruct (Z.eq_dec code 0) as [-> | Hcode].
    - rewrite (netdev_led_attr_store_ok buf size attr state td0 Hparse).
      apply Hflag, H0.
    - rewrite (netdev_led_attr_store_err buf size attr code state td0
                 Hparse Hcode).
      exact H0. }
  destruct op; cbn [step].
  - destruct (Nat.lt_ge_cases size IFNAMSIZ) as [Hlt | Hge].
    + rewrite (device_name_store_eq init_net buf size td Hlt).
      apply Hname; assumption.
    + unfold device_name_store. apply Nat.leb_le in Hge. rewrite Hge.
      exact H.
  - apply Hstore, H.
  - unfold mode_store, ret. rewrite !state_of_bind.
    unfold state_of at 1. cbn [fst snd].
    destruct (strstr buf "rx"), (strstr buf "tx"), (strstr buf "link");
      apply Hstore, Hstore, Hstore, H.
  - unfold interval_store.
    destruct (kstrtoul buf) as [code value].
    destruct (code =? 0); cbn [negb]; [| exact H].
    destruct ((5 <=? value) && (value <=? 10000)) eqn:Hrange; [| exact H].
    apply andb_true_iff in Hrange. destruct Hrange as [H5 H10].
    apply Z.leb_le in H5, H10.
    assert (Hu : to_uint value = value).
    { unfold to_uint. apply Z.mod_small.
      change (2 ^ 32) with 4294967296. lia. }
    rewrite Hu. unfold_monad. fields. rewrite set_baseline_state_eq.
    unfold state_of; fields. apply Hinterval; [lia | exact H].
  - destruct (handled evt) eqn:Hevt.
    2: { rewrite netdev_trig_notify_skip by (left; exact Hevt). exact H. }
    destruct (string_dec (cstr (dev_name init_net dev))
                (cstr (device_name td))) as [Hn | Hn].
    2: { rewrite netdev_trig_notify_skip by (right; exact Hn). exact H. }
    rewrite (netdev_trig_notify_eq init_net evt dev td Hevt Hn).
    apply Hnotify; assumption.
  - destruct (work td) as [d |] eqn:Hw.
    + rewrite (run_work_pending init_net td d Hw).
      rewrite netdev_trig_work_state. apply (Htick init_net td d Hw H).
    + unfold run_work. unfold_monad. rewrite Hw. exact H.
Qed.

Lemma run_invariant (P : led_netdev_data -> Prop) :
  (forall init_net op td, P td -> P (step init_net op td)) ->
  forall ops td, P td -> P (run ops td).
Proof.
  intros Hstep ops. induction ops as [| [init_net op] rest IH]; intros td H.
  - exact H.
  - cbn [run]. apply IH, Hstep, H.
Qed.

Lemma baseline_poller_gated (td : led_netdev_data) :
  work td = None -> poller_gated (baseline_state td).
Proof.
  intros Hw. unfold poller_gated, baseline_state, baseline_polls, linkIsUp,
    monitorTx, monitorRx.
  cbn [work mode]. rewrite Hw.
  destruct (test_bit NETDEV_LED_MODE_LINKUP (mode td)); cbn [andb];
    [| congruence].
  destruct (test_bit NETDEV_LED_TX (mode td)
            || test_bit NETDEV_LED_RX (mode td));
    [auto | congruence].
Qed.

(** X4: in every state reached from activation by any sequence of writes,
    events and ticks, the work is queued only while linkIsUp is set and tx
    or rx is monitored. *)
Theorem poller_gated_always (ops : list (netns * operation))
    (led : led_classdev) :
  poller_gated (run ops (netdev_trig_activate led)).
Proof.
  apply run_invariant.
  - apply step_invariant.
    + intros attr state td _. apply baseline_poller_gated. reflexivity.
    + intros ms td _ _. apply baseline_poller_gated. reflexivity.
    + intros init_net buf size td _ _. apply baseline_poller_gated.
      reflexivity.
    + intros init_net evt dev td _ _. apply baseline_poller_gated.
      reflexivity.
    + intros init_net td d Hw H.
      assert (Hq : work td <> None) by congruence.
      destruct (H Hq) as [Hup Hmon].
      unfold poller_gated, ticked_state.
      change (net_dev (with_work td None)) with (net_dev td).
      change (monitorTx (with_work td None)) with (monitorTx td).
      change (monitorRx (with_work td None)) with (monitorRx td).
      destruct (net_dev td); [rewrite Hmon |]; cbn; intros _; auto.
  - intros Hq. elim Hq. reflexivity.
Qed.

Lemma baseline_lit_gated (td : led_netdev_data) :
  lit_gated (baseline_state td).
Proof.
  unfold lit_gated, baseline_state, baseline_level, linkIsUp, monitorLink.
  cbn [led_cdev brightness mode].
  destruct (test_bit NETDEV_LED_MODE_LINKUP (mode td)); cbn [andb];
    [| intros H; elim H; reflexivity].
  destruct (test_bit NETDEV_LED_LINK (mode td));
    [auto | intros H; elim H; reflexivity].
Qed.

(** X5: when the LED is off at activation, in every state reached by any
    sequence of writes, events and ticks the LED rests at a non-zero level
    only while linkIsUp is set and link is monitored. *)
Theorem lit_gated_always (ops : list (netns * operation))
    (led : led_classdev) :
  brightness led = LED_OFF ->
  lit_gated (run ops (netdev_trig_activate led)).
Proof.
  intros Hoff. apply run_invariant.
  - apply step_invariant; try (intros; apply baseline_lit_gated).
    intros init_net td d Hw H. unfold lit_gated, ticked_state in *.
    change (net_dev (with_work td None)) with (net_dev td).
    change (monitorTx (with_work td None)) with (monitorTx td).
    change (monitorRx (with_work td None)) with (monitorRx td).
    destruct (net_dev td);
      [destruct (monitorTx td || monitorRx td) |]; cbn; try exact H.
    intros E. elim E. reflexivity.
  - intros H. elim H. exact Hoff.
Qed.

End Invariants.

Lemma lit_gated_always_witness :
  brightness led_255 = LED_OFF
  /\ lit_gated
       (@run kernel_hz100
          [(net_eth0 0 0,
            WriteDeviceName ("eth0" ++ String LF EmptyString)%string 5);
           (net_eth0 0 0, Notify NETDEV_DOWN 1%nat)]
          (@netdev_trig_activate kernel_hz100 led_255)).
Proof.
  split; [reflexivity |].
  apply (@lit_gated_always kernel_hz100). reflexivity.
Defined.

(** ** The name array and the interval *)

Lemma array_get_strncpy_beyond (dest : string) :
  forall src n i,
    (n <= i)%nat -> array_get (strncpy dest src n) i = array_get dest i.
Proof.
  induction dest as [| c d IH]; intros src [| n] i Hle; cbn [strncpy];
    try reflexivity.
  destruct i as [| i]; [lia |].
  assert (Hi : (n <= i)%nat) by lia.
  destruct src as [| x src]; [| destruct (Ascii.eqb x NUL)];
    unfold array_get in *; cbn [String.get]; apply IH; exact Hi.
Qed.

Lemma array_get_array_set_other (a : string) :
  forall i j c, i <> j -> array_get (array_set a j c) i = array_get a i.
Proof.
  induction a as [| x r IH]; intros i j c Hne; [reflexivity |].
  destruct j as [| j]; destruct i as [| i]; cbn [array_set];
    try reflexivity; try congruence.
  unfold array_get in *. cbn [String.get]. apply IH. congruence.
Qed.

Lemma name_after_store_last (old buf : string) (size : nat) :
  (size < IFNAMSIZ)%nat ->
  array_get (name_after_store old buf size) (IFNAMSIZ - 1)
  = array_get old (IFNAMSIZ - 1).
Proof.
  intros Hsize. unfold name_after_store, IFNAMSIZ in *.
  destruct ((0 <? size)%nat && _).
  - rewrite array_get_array_set_other by lia.
    apply array_get_strncpy_beyond. lia.
  - apply array_get_strncpy_beyond. lia.
Qed.

Lemma cstr_length_bound (a : string) :
  forall n,
    (n < String.length a)%nat -> array_get a n = NUL ->
    (String.length (cstr a) <= n)%nat.
Proof.
  induction a as [| c r IH]; intros n Hn Hnul; cbn [String.length] in Hn;
    [lia |].
  cbn [cstr]. destruct (Ascii.eqb_spec c NUL) as [-> | Hc]; cbn; [lia |].
  destruct n as [| n].
  - unfold array_get in Hnul. cbn in Hnul. congruence.
  - unfold array_get in *. cbn [String.get] in Hnul.
    specialize (IH n ltac:(lia) Hnul). lia.
Qed.

Section NameAndInterval.
Context {K : kernel_api}.

(** X6: in every state reached from activation by any sequence of writes,
    events and ticks, [device_name] still has its [IFNAMSIZ] bytes and its
    last byte is NUL, so the name the driver compares and looks up is a
    terminated string of fewer than [IFNAMSIZ] characters. *)
Theorem name_terminated_always (ops : list (netns * operation))
    (led : led_classdev) :
  name_terminated (run ops (netdev_trig_activate led))
  /\ (String.length (cstr (device_name (run ops (netdev_trig_activate led))))
      < IFNAMSIZ)%nat.
Proof.
  assert (H : name_terminated (run ops (netdev_trig_activate led))).
  { apply run_invariant.
    - apply step_invariant; try (intros; assumption).
      + intros init_net buf size td Hsize [Hlen Hlast]. split.
        * unfold baseline_state, rebound_state; cbn [device_name].
          rewrite name_after_store_length. exact Hlen.
        * unfold baseline_state, rebound_state; cbn [device_name].
          rewrite (name_after_store_last _ _ _ Hsize). exact Hlast.
      + intros init_net td d _ H. unfold name_terminated, ticked_state.
        change (net_dev (with_work td None)) with (net_dev td).
        destruct (net_dev td);
          [destruct (monitorTx _ || monitorRx _) |]; exact H.
    - split; reflexivity. }
  split; [exact H |].
  destruct H as [Hlen Hlast].
  pose proof (cstr_length_bound _ (IFNAMSIZ - 1)
                ltac:(rewrite Hlen; unfold IFNAMSIZ; lia) Hlast) as Hb.
  unfold IFNAMSIZ in *. lia.
Qed.

(** X7: in every state reached from activation by any sequence of writes,
    events and ticks, the stored interval is the conversion to jiffies of a
    number of milliseconds between 5 and 10000: the default of 50 or the
    last in-range value written. *)
Theorem interval_bounded_always (ops : list (netns * operation))
    (led : led_classdev) :
  interval_bounded (run ops (netdev_trig_activate led)).
Proof.
  apply run_invariant.
  - apply step_invariant; try (intros; assumption).
    + intros ms td Hms _. exists ms. split; [exact Hms | reflexivity].
    + intros init_net td d _ H. unfold interval_bounded, ticked_state.
      change (net_dev (with_work td None)) with (net_dev td).
      destruct (net_dev td);
        [destruct (monitorTx _ || monitorRx _) |]; exact H.
  - exists 50. split; [lia | reflexivity].
Qed.

End NameAndInterval.

(** ** Device-name writes *)

Lemma string_app_nil_r (s : string) : (s ++ EmptyString)%string = s.
Proof.
  induction s as [| c s IH]; cbn [String.append]; [reflexivity |].
  rewrite IH. reflexivity.
Qed.

Lemma string_app_assoc (s t u : string) :
  ((s ++ t) ++ u)%string = (s ++ (t ++ u))%string.
Proof.
  induction s as [| c s IH]; cbn [String.append]; [reflexivity |].
  rewrite IH. reflexivity.
Qed.

Lemma strncpy_take (old : string) :
  forall buf n,
    (n <= String.length buf)%nat -> (n <= String.length old)%nat ->
    no_NUL (take n buf) = true ->
    strncpy old buf n = (take n buf ++ array_from n old)%string.
Proof.
  induction old as [| x r IH]; intros buf n Hbuf Hold Hnn.
  - cbn [String.length] in Hold. assert (n = 0)%nat by lia. subst n.
    destruct buf; reflexivity.
  - destruct n as [| n]; [destruct buf; reflexivity |].
    destruct buf as [| c b]; cbn [String.length] in Hbuf, Hold; [lia |].
    cbn [take no_NUL] in Hnn. apply andb_true_iff in Hnn.
    destruct Hnn as [Hc Hnn]. apply negb_true_iff in Hc.
    cbn [strncpy take array_from]. rewrite Hc. cbn [String.append].
    rewrite IH by (assumption || lia). reflexivity.
Qed.

Lemma take_append (s t : string) :
  take (String.length s) (s ++ t) = s.
Proof.
  induction s as [| c s IH]; cbn [String.length String.append take].
  - destruct t; reflexivity.
  - rewrite IH. reflexivity.
Qed.

Lemma take_all (s : string) : take (String.length s) s = s.
Proof.
  induction s as [| c s IH]; cbn [String.length take]; [reflexivity |].
  rewrite IH. reflexivity.
Qed.

Lemma array_get_append (s : string) (c : ascii) (t : string) :
  array_get (s ++ String c t) (String.length s) = c.
Proof.
  induction s as [| x s IH]; cbn [String.length String.append];
    [reflexivity |].
  unfold array_get in *. cbn [String.get]. exact IH.
Qed.

Lemma array_set_append (s : string) (c d : ascii) (t : string) :
  array_set (s ++ String c t) (String.length s) d = (s ++ String d t)%string.
Proof.
  induction s as [| x s IH]; cbn [String.length String.append array_set];
    [reflexivity |].
  rewrite IH. reflexivity.
Qed.

Lemma cstr_append (s t : string) :
  no_NUL s = true -> cstr (s ++ t) = (s ++ cstr t)%string.
Proof.
  induction s as [| c s IH]; cbn [no_NUL String.append cstr]; intros H;
    [reflexivity |].
  apply andb_true_iff in H. destruct H as [Hc H].
  apply negb_true_iff in Hc. rewrite Hc, IH by exact H. reflexivity.
Qed.

Lemma no_NUL_append (s t : string) :
  no_NUL (s ++ t) = no_NUL s && no_NUL t.
Proof.
  induction s as [| c s IH]; cbn [no_NUL String.append]; [reflexivity |].
  rewrite IH. apply andb_assoc.
Qed.

Lemma append_length (s t : string) :
  String.length (s ++ t) = (String.length s + String.length t)%nat.
Proof.
  induction s as [| c s IH]; cbn [String.length String.append];
    [reflexivity |].
  rewrite IH. reflexivity.
Qed.

Lemma cstr_empty_iff (a : string) :
  cstr a = EmptyString <-> array_get a 0 = NUL.
Proof.
  destruct a as [| c r]; [split; reflexivity |].
  cbn [cstr]. unfold array_get; cbn [String.get].
  destruct (Ascii.eqb_spec c NUL) as [-> | Hc].
  - split; reflexivity.
  - split; [discriminate | contradiction].
Qed.

(** The array after a write that ends in a newline. *)
Lemma name_after_store_newline (old name : string) :
  no_NUL name = true ->
  (String.length name < String.length old)%nat ->
  name_after_store old (name ++ String LF EmptyString)
    (S (String.length name))
  = (name ++ String NUL (array_from (S (String.length name)) old))%string.
Proof.
  intros Hnn Hlen. unfold name_after_store.
  assert (Hcopy : strncpy old (name ++ String LF EmptyString)
                    (S (String.length name))
                  = (name ++ String LF
                            (array_from (S (String.length name)) old))%string).
  { rewrite strncpy_take.
    - replace (S (String.length name))
        with (String.length (name ++ String LF EmptyString))
        by (rewrite append_length; cbn; lia).
      rewrite take_all. rewrite string_app_assoc. reflexivity.
    - rewrite append_length. cbn. lia.
    - lia.
    - replace (S (String.length name))
        with (String.length (name ++ String LF EmptyString))
        by (rewrite append_length; cbn; lia).
      rewrite take_all, no_NUL_append, Hnn. reflexivity. }
  rewrite Hcopy.
  replace (S (String.length name) - 1)%nat with (String.length name) by lia.
  rewrite array_get_append. cbn [Nat.ltb Nat.leb andb].
  rewrite Ascii.eqb_refl. apply array_set_append.
Qed.

(** X8: a device name read back is the one written.  For a name without
    NUL that, with its final newline, is shorter than [IFNAMSIZ], writing
    the name and the newline stores exactly the name (the array being in
    place), and [device_name_show] then returns the name followed by a
    newline, whatever name was stored before. *)
Theorem device_name_round_trip (init_net : netns) (name : string)
    (td : led_netdev_data) :
  String.length (device_name td) = IFNAMSIZ ->
  no_NUL name = true ->
  (S (String.length name) < IFNAMSIZ)%nat ->
  let buf := (name ++ String LF EmptyString)%string in
  let r := device_name_store init_net buf (String.length buf) td in
  result r = Z.of_nat (String.length buf)
  /\ cstr (device_name (state_of r)) = name
  /\ result (device_name_show (state_of r)) = buf.
Proof.
  intros Hlen Hnn Hsize buf r.
  assert (Hbuf : String.length buf = S (String.length name)).
  { subst buf. rewrite append_length. cbn. lia. }
  assert (Hname : cstr (device_name (state_of r)) = name).
  { subst r. rewrite Hbuf.
    rewrite (device_name_store_eq init_net buf _ td Hsize).
    unfold state_of, baseline_state, rebound_state; cbn [fst snd device_name].
    subst buf. rewrite name_after_store_newline by (assumption || lia).
    rewrite cstr_append by exact Hnn. cbn [cstr].
    rewrite Ascii.eqb_refl. apply string_app_nil_r. }
  split; [| split; [exact Hname |]].
  - subst r. rewrite Hbuf.
    rewrite (device_name_store_eq init_net buf _ td Hsize). reflexivity.
  - unfold device_name_show. unfold_monad. unfold result; cbn [fst].
    rewrite Hname. reflexivity.
Qed.

Lemma device_name_round_trip_witness :
  String.length (device_name td_polled) = IFNAMSIZ
  /\ no_NUL "wlan0" = true
  /\ (S (String.length "wlan0") < IFNAMSIZ)%nat
  /\ result (device_name_show
               (state_of (device_name_store (net_eth0 0 0)
                            ("wlan0" ++ String LF EmptyString)%string 6
                            td_polled)))
     = ("wlan0" ++ String LF EmptyString)%string.
Proof.
  assert (H1 : String.length (device_name td_polled) = IFNAMSIZ)
    by reflexivity.
  assert (H2 : no_NUL "wlan0" = true) by reflexivity.
  assert (H3 : (S (String.length "wlan0") < IFNAMSIZ)%nat)
    by (unfold IFNAMSIZ; cbn; lia).
  split; [exact H1 | split; [exact H2 | split; [exact H3 |]]].
  exact (proj2 (proj2 (device_name_round_trip (net_eth0 0 0) "wlan0"
                         td_polled H1 H2 H3))).
Defined.

Lemma array_get_take_append (buf : string) :
  forall n i t,
    (i < n)%nat -> (n <= String.length buf)%nat ->
    array_get (take n buf ++ t) i = array_get buf i.
Proof.
  induction buf as [| c b IH]; intros n i t Hi Hn;
    cbn [String.length] in Hn; [lia |].
  destruct n as [| n]; [lia |]. cbn [take String.append].
  destruct i as [| i]; [reflexivity |].
  unfold array_get in *. cbn [String.get]. apply IH; lia.
Qed.

(** X9: a device name written without a final newline gets no terminator.
    When the [size] bytes written hold no NUL and do not end in a newline,
    the array afterwards holds these bytes followed by the bytes it held
    before from position [size] on; the name the driver uses, and shows, is
    the written text continued by whatever the array held there, up to its
    next NUL. *)
Theorem device_name_store_keeps_tail (init_net : netns) (buf : string)
    (size : nat) (td : led_netdev_data) :
  String.length (device_name td) = IFNAMSIZ ->
  (0 < size < IFNAMSIZ)%nat ->
  (size <= String.length buf)%nat ->
  no_NUL (take size buf) = true ->
  array_get buf (size - 1) <> LF ->
  let r := device_name_store init_net buf size td in
  device_name (state_of r)
  = (take size buf ++ array_from size (device_name td))%string
  /\ result (device_name_show (state_of r))
     = (take size buf ++ cstr (array_from size (device_name td))
        ++ String LF EmptyString)%string.
Proof.
  intros Hlen [Hpos Hsize] Hbuf Hnn Hlast r.
  assert (Hname : device_name (state_of r)
                  = (take size buf
                     ++ array_from size (device_name td))%string).
  { subst r. rewrite (device_name_store_eq init_net buf size td Hsize).
    unfold state_of, baseline_state, rebound_state; cbn [fst snd device_name].
    unfold name_after_store.
    rewrite strncpy_take by (assumption || (unfold IFNAMSIZ in *; lia)).
    rewrite array_get_take_append by lia.
    destruct (Ascii.eqb_spec (array_get buf (size - 1)) LF) as [E | _];
      [contradiction |].
    rewrite andb_false_r. reflexivity. }
  split; [exact Hname |].
  unfold device_name_show. unfold_monad. unfold result; cbn [fst].
  rewrite Hname, cstr_append by exact Hnn.
  apply string_app_assoc.
Qed.

Lemma device_name_store_keeps_tail_witness :
  String.length (device_name td_bound) = IFNAMSIZ
  /\ (0 < 2 < IFNAMSIZ)%nat
  /\ (2 <= String.length "lo")%nat
  /\ no_NUL (take 2 "lo") = true
  /\ array_get "lo" (2 - 1) <> LF
  /\ cstr (device_name td_bound) = "eth0"
  /\ result (device_name_show
               (state_of (device_name_store (net_eth0 0 0) "lo" 2 td_bound)))
     = ("loh0" ++ String LF EmptyString)%string.
Proof.
  assert (H1 : String.length (device_name td_bound) = IFNAMSIZ)
    by reflexivity.
  assert (H2 : (0 < 2 < IFNAMSIZ)%nat) by (unfold IFNAMSIZ; lia).
  assert (H3 : (2 <= String.length "lo")%nat) by (cbn; lia).
  assert (H4 : no_NUL (take 2 "lo") = true) by reflexivity.
  assert (H5 : array_get "lo" (2 - 1) <> LF) by (cbv; discriminate).
  repeat (split; [assumption |]).
  split; [reflexivity |].
  exact (proj2 (device_name_store_keeps_tail (net_eth0 0 0) "lo" 2 td_bound
                  H1 H2 H3 H4 H5)).
Defined.

Lemma cstr_eqb_empty (a : string) :
  String.eqb (cstr a) EmptyString = Ascii.eqb (array_get a 0) NUL.
Proof.
  destruct a as [| c r]; [reflexivity |].
  cbn [cstr]. unfold array_get; cbn [String.get].
  destruct (Ascii.eqb c NUL); reflexivity.
Qed.

Lemma holds_in_app (dev : net_device) (c1 c2 : list call) :
  holds_in dev (c1 ++ c2) = (holds_in dev c1 + holds_in dev c2)%nat.
Proof. unfold holds_in. rewrite map_app. apply list_sum_app. Qed.

Lemma puts_in_app (dev : net_device) (c1 c2 : list call) :
  puts_in dev (c1 ++ c2) = (puts_in dev c1 + puts_in dev c2)%nat.
Proof. unfold puts_in. rewrite map_app. apply list_sum_app. Qed.

(** X10: an accepted device-name write binds the controller to what the
    registry holds at that moment.  Its calls are, in this order and no
    others: one cancel of the poller, one [dev_put] of the handle held
    before when there was one, the LED set to its resting level, and the
    work queued with no delay when linkIsUp is set and tx or rx is
    monitored.  So the old handle is released exactly once, no other
    device is released and no reference is taken by [dev_hold].  The new
    handle is the device the registry resolves the stored name to, and
    none when the stored name is empty or resolves to nothing; linkIsUp is
    the carrier of that device, false without one.  The monitoring flags
    and the interval stay, the activity count is 0, the work is queued
    exactly when linkIsUp is set and tx or rx is monitored, and the write
    returns its size. *)
Theorem device_name_store_resolves (init_net : netns) (buf : string)
    (size : nat) (td : led_netdev_data) :
  (size < IFNAMSIZ)%nat ->
  let r := device_name_store init_net buf size td in
  let td' := state_of r in
  result r = Z.of_nat size
  /\ net_dev td'
     = (if String.eqb (cstr (device_name td')) EmptyString then None
        else dev_get_by_name init_net (cstr (device_name td')))
  /\ linkIsUp td' = match net_dev td' with
                    | Some dev => netif_carrier_ok init_net dev
                    | None => false
                    end
  /\ monitorLink td' = monitorLink td
  /\ monitorTx td' = monitorTx td
  /\ monitorRx td' = monitorRx td
  /\ interval td' = interval td
  /\ last_activity td' = 0
  /\ work td' = (if linkIsUp td' && (monitorTx td' || monitorRx td')
                 then Some 0 else None)
  /\ calls_of r
     = [CancelDelayedWorkSync]
       ++ match net_dev td with
          | Some old => [DevPut old]
          | None => []
          end
       ++ [LedSetBrightness (brightness (led_cdev td'))]
       ++ (if linkIsUp td' && (monitorTx td' || monitorRx td')
           then [ScheduleDelayedWork 0] else [])
  /\ (forall dev, puts_in dev (calls_of r) = held dev (net_dev td))
  /\ (forall dev, holds_in dev (calls_of r) = 0%nat)
  /\ (forall dev, In (DevPut dev) (calls_of r) <-> net_dev td = Some dev)
  /\ (forall dev, ~ In (DevHold dev) (calls_of r))
  /\ (count_occ call_eq_dec (calls_of r) CancelDelayedWorkSync = 1)%nat.
Proof.
  intros Hsize r td'. subst td' r.
  rewrite (device_name_store_eq init_net buf size td Hsize).
  unfold result, state_of, calls_of; cbn [fst snd].
  set (td1 := rebound_state init_net buf size td).
  assert (Hmode : forall nr, nr <> NETDEV_LED_MODE_LINKUP -> 0 <= nr ->
             test_bit nr (mode td1) = test_bit nr (mode td)).
  { intros nr Hnr Hpos. subst td1. unfold rebound_state; cbn [mode].
    unfold NETDEV_LED_MODE_LINKUP in *.
    destruct (handle_after_store _ _) as [d |];
      [destruct (netif_carrier_ok init_net d) |];
      rewrite ?test_bit_set_bit by lia; rewrite test_bit_clear_bit;
      destruct (Z.eqb_spec 3 nr); try lia; cbn;
      rewrite ?andb_true_r; reflexivity. }
  assert (Hup : linkIsUp td1 = match net_dev td1 with
                               | Some dev => netif_carrier_ok init_net dev
                               | None => false
                               end).
  { subst td1. unfold rebound_state, linkIsUp; cbn [mode net_dev].
    destruct (handle_after_store _ _) as [d |];
      [destruct (netif_carrier_ok init_net d) |]; bits; reflexivity. }
  split; [reflexivity |].
  split.
  { cbn [baseline_state net_dev device_name]. subst td1.
    unfold rebound_state; cbn [net_dev device_name].
    unfold handle_after_store. rewrite cstr_eqb_empty.
    destruct (Ascii.eqb _ NUL); reflexivity. }
  split; [exact Hup |].
  unfold monitorLink, monitorTx, monitorRx. cbn [baseline_state mode].
  rewrite !Hmode by (cbv; discriminate || congruence).
  repeat (split; [reflexivity |]).
  split.
  { cbn [baseline_state work]. unfold baseline_polls.
    change (linkIsUp (baseline_state td1)) with (linkIsUp td1).
    unfold monitorTx, monitorRx. cbn [baseline_state mode].
    rewrite !Hmode by (cbv; discriminate || congruence).
    change (work td1) with (@None Z).
    destruct (linkIsUp td1 && _); reflexivity. }
  assert (Hbase : forall c, In c (baseline_calls td1) ->
             exists v, c = LedSetBrightness v \/ c = ScheduleDelayedWork v).
  { intros c. unfold baseline_calls.
    destruct (baseline_polls td1); cbn; intros [<- | H]; eauto.
    - destruct H as [<- | []]. eauto.
    - destruct H. }
  assert (Hnoref : forall dev,
             puts_in dev (baseline_calls td1) = 0%nat
             /\ holds_in dev (baseline_calls td1) = 0%nat).
  { intros dev. unfold baseline_calls.
    destruct (baseline_polls td1); split; reflexivity. }
  split.
  { unfold release, baseline_calls, baseline_polls.
    change (linkIsUp (baseline_state td1)) with (linkIsUp td1).
    unfold monitorTx, monitorRx.
    rewrite !Hmode by (cbv; discriminate || congruence).
    cbn [baseline_state led_cdev brightness].
    destruct (net_dev td); reflexivity. }
  split.
  { intros dev.
    change (CancelDelayedWorkSync :: release (net_dev td) ++ baseline_calls td1)
      with ([CancelDelayedWorkSync]
            ++ release (net_dev td) ++ baseline_calls td1).
    rewrite !puts_in_app. rewrite (proj1 (Hnoref dev)).
    unfold release, held. destruct (net_dev td) as [d |]; [| reflexivity].
    cbn. destruct (Nat.eqb dev d); reflexivity. }
  split.
  { intros dev.
    change (CancelDelayedWorkSync :: release (net_dev td) ++ baseline_calls td1)
      with ([CancelDelayedWorkSync]
            ++ release (net_dev td) ++ baseline_calls td1).
    rewrite !holds_in_app. rewrite (proj2 (Hnoref dev)).
    unfold release. destruct (net_dev td) as [d |]; reflexivity. }
  split; [| split].
  - intros dev. split.
    + intros [H | H]; [discriminate H |].
      apply in_app_or in H. destruct H as [H | H].
      * destruct (net_dev td) as [d |]; cbn in H; [| destruct H].
        destruct H as [[= ->] | []]. reflexivity.
      * destruct (Hbase _ H) as (v & [E | E]); discriminate E.
    + intros ->. right. apply in_or_app. left. left. reflexivity.
  - intros dev [H | H]; [discriminate H |].
    apply in_app_or in H. destruct H as [H | H].
    + destruct (net_dev td) as [d |]; cbn in H; [| destruct H].
      destruct H as [E | []]. discriminate E.
    + destruct (Hbase _ H) as (v & [E | E]); discriminate E.
  - cbn [count_occ]. destruct (call_eq_dec _ _) as [_ | N];
      [| elim N; reflexivity].
    f_equal. apply count_occ_not_In. intros H.
    apply in_app_or in H. destruct H as [H | H].
    + destruct (net_dev td) as [d |]; cbn in H; [| destruct H].
      destruct H as [E | []]. discriminate E.
    + destruct (Hbase _ H) as (v & [E | E]); discriminate E.
Qed.

Lemma device_name_store_resolves_witness :
  (5 < IFNAMSIZ)%nat
  /\ net_dev (state_of (device_name_store net_absent
                          ("eth0" ++ String LF EmptyString)%string 5
                          td_polled)) = None
  /\ calls_of (device_name_store net_absent
                 ("eth0" ++ String LF EmptyString)%string 5 td_polled)
     = [CancelDelayedWorkSync; DevPut 1%nat; LedSetBrightness 0]
  /\ puts_in 1%nat
       (calls_of (device_name_store net_absent
                    ("eth0" ++ String LF EmptyString)%string 5 td_polled))
     = 1%nat.
Proof.
  assert (H : (5 < IFNAMSIZ)%nat) by (unfold IFNAMSIZ; lia).
  split; [exact H |].
  destruct (device_name_store_resolves net_absent
              ("eth0" ++ String LF EmptyString)%string 5 td_polled H)
    as (_ & Hdev & _ & _ & _ & _ & _ & _ & _ & Hcalls & Hput & _).
  split; [rewrite Hdev; reflexivity |].
  split; [rewrite Hcalls; reflexivity |].
  rewrite Hput. reflexivity.
Defined.

(** ** The notifier, event by event *)

(** X11: the notifier never stops the notifier chain and ignores what it
    does not handle.  It returns [NOTIFY_DONE] for every event, and for an
    event that is not UP, DOWN, CHANGE, REGISTER, UNREGISTER or CHANGENAME
    it leaves the state as it is and calls nothing, also when the event's
    device carries the configured name. *)
Theorem netdev_trig_notify_done (init_net : netns) (evt : netdev_event)
    (dev : net_device) (td : led_netdev_data) :
  result (netdev_trig_notify init_net evt dev td) = NOTIFY_DONE
  /\ (evt = NETDEV_REBOOT \/ evt = NETDEV_CHANGEMTU
      \/ evt = NETDEV_CHANGEADDR \/ evt = NETDEV_GOING_DOWN
      \/ evt = NETDEV_FEAT_CHANGE ->
      netdev_trig_notify init_net evt dev td = (NOTIFY_DONE, td, [])).
Proof.
  split.
  - destruct (handled evt) eqn:Hevt.
    2: { rewrite netdev_trig_notify_skip by (left; exact Hevt).
         reflexivity. }
    destruct (string_dec (cstr (dev_name init_net dev))
                (cstr (device_name td))) as [Hn | Hn].
    + rewrite (netdev_trig_notify_eq init_net evt dev td Hevt Hn).
      reflexivity.
    + rewrite netdev_trig_notify_skip by (right; exact Hn). reflexivity.
  - intros H. apply netdev_trig_notify_skip. left.
    destruct H as [-> | [-> | [-> | [-> | ->]]]]; reflexivity.
Qed.

(** X12: every handled event for the configured name that does not report
    a link leaves the indicator dark.  After a DOWN, REGISTER, UNREGISTER or
    CHANGENAME event, and after an UP or CHANGE event without carrier,
    linkIsUp is false, the LED is set to OFF (the only LED call), the work
    is not queued and was cancelled, whatever the flags and the state
    before. *)
Theorem netdev_trig_notify_dark (init_net : netns) (evt : netdev_event)
    (dev : net_device) (td : led_netdev_data) :
  handled evt = true ->
  cstr (dev_name init_net dev) = cstr (device_name td) ->
  is_up_or_change evt && netif_carrier_ok init_net dev = false ->
  let r := netdev_trig_notify init_net evt dev td in
  linkIsUp (state_of r) = false
  /\ brightness (led_cdev (state_of r)) = LED_OFF
  /\ work (state_of r) = None
  /\ calls_of r
     = CancelDelayedWorkSync
       :: refcount_calls evt dev (net_dev td) ++ [LedSetBrightness LED_OFF].
Proof.
  intros Hevt Hname Hdown r. subst r.
  rewrite (netdev_trig_notify_eq init_net evt dev td Hevt Hname).
  unfold state_of, calls_of; cbn [fst snd].
  assert (Hup : linkIsUp (notified_state init_net evt dev td) = false).
  { unfold notified_state. rewrite Hdown. bits. reflexivity. }
  unfold baseline_calls, baseline_state, baseline_level, baseline_polls.
  cbn [led_cdev brightness work].
  change (linkIsUp {| work := _ |}) with
    (linkIsUp (notified_state init_net evt dev td)).
  rewrite Hup. cbn [andb].
  repeat split; reflexivity.
Qed.

Lemma netdev_trig_notify_dark_witness :
  handled NETDEV_DOWN = true
  /\ cstr (dev_name (net_eth0 5 0) 1%nat) = cstr (device_name td_polled)
  /\ is_up_or_change NETDEV_DOWN && netif_carrier_ok (net_eth0 5 0) 1%nat
     = false
  /\ brightness (led_cdev td_polled) = 255
  /\ calls_of (netdev_trig_notify (net_eth0 5 0) NETDEV_DOWN 1%nat td_polled)
     = [CancelDelayedWorkSync; LedSetBrightness LED_OFF].
Proof.
  assert (H1 : handled NETDEV_DOWN = true) by reflexivity.
  assert (H2 : cstr (dev_name (net_eth0 5 0) 1%nat)
               = cstr (device_name td_polled)) by reflexivity.
  assert (H3 : is_up_or_change NETDEV_DOWN
               && netif_carrier_ok (net_eth0 5 0) 1%nat = false)
    by reflexivity.
  split; [exact H1 | split; [exact H2 | split; [exact H3 |]]].
  split; [reflexivity |].
  exact (proj2 (proj2 (proj2 (netdev_trig_notify_dark (net_eth0 5 0)
                                NETDEV_DOWN 1%nat td_polled H1 H2 H3)))).
Defined.

(** X13: an UP or CHANGE event with carrier for the configured name
    lights the indicator.  linkIsUp becomes true; the LED is set to the
    pulse brightness when link is monitored and to OFF otherwise; the work
    is queued with delay 0 exactly when tx or rx is monitored; the handle,
    the flags, the interval and the activity count are not touched and no
    reference is taken or dropped. *)
Theorem netdev_trig_notify_lit (init_net : netns) (evt : netdev_event)
    (dev : net_device) (td : led_netdev_data) :
  evt = NETDEV_UP \/ evt = NETDEV_CHANGE ->
  cstr (dev_name init_net dev) = cstr (device_name td) ->
  netif_carrier_ok init_net dev = true ->
  let r := netdev_trig_notify init_net evt dev td in
  linkIsUp (state_of r) = true
  /\ brightness (led_cdev (state_of r))
     = (if monitorLink td then pulse_brightness (led_cdev td) else LED_OFF)
  /\ work (state_of r)
     = (if monitorTx td || monitorRx td then Some 0 else None)
  /\ calls_of r
     = [CancelDelayedWorkSync;
        LedSetBrightness
          (if monitorLink td then pulse_brightness (led_cdev td)
           else LED_OFF)]
       ++ (if monitorTx td || monitorRx td
           then [ScheduleDelayedWork 0] else [])
  /\ net_dev (state_of r) = net_dev td
  /\ monitorLink (state_of r) = monitorLink td
  /\ monitorTx (state_of r) = monitorTx td
  /\ monitorRx (state_of r) = monitorRx td
  /\ interval (state_of r) = interval td
  /\ last_activity (state_of r) = last_activity td.
Proof.
  intros Hevt Hname Hcarrier r. subst r.
  assert (Hh : handled evt = true) by (destruct Hevt as [-> | ->]; reflexivity).
  rewrite (netdev_trig_notify_eq init_net evt dev td Hh Hname).
  unfold state_of, calls_of; cbn [fst snd].
  set (td1 := notified_state init_net evt dev td).
  assert (Hmode : mode td1 = Z.setbit (Z.clearbit (mode td) 3) 3).
  { subst td1. unfold notified_state; cbn [mode]. rewrite Hcarrier.
    destruct Hevt as [-> | ->]; reflexivity. }
  assert (Hup : linkIsUp td1 = true).
  { unfold linkIsUp. rewrite Hmode. bits. reflexivity. }
  assert (Hl : monitorLink td1 = monitorLink td).
  { unfold monitorLink. rewrite Hmode. bits. reflexivity. }
  assert (Ht : monitorTx td1 = monitorTx td).
  { unfold monitorTx. rewrite Hmode. bits. reflexivity. }
  assert (Hr : monitorRx td1 = monitorRx td).
  { unfold monitorRx. rewrite Hmode. bits. reflexivity. }
  assert (Hnd : net_dev td1 = net_dev td).
  { subst td1. unfold notified_state; cbn [net_dev].
    destruct Hevt as [-> | ->]; reflexivity. }
  assert (Hrc : refcount_calls evt dev (net_dev td) = []).
  { destruct Hevt as [-> | ->]; reflexivity. }
  rewrite Hrc.
  unfold baseline_calls, baseline_state, baseline_level, baseline_polls.
  cbn [led_cdev brightness work net_dev interval last_activity app].
  change (linkIsUp {| work := _ |}) with (linkIsUp td1).
  change (monitorLink {| work := _ |}) with (monitorLink td1).
  change (monitorTx {| work := _ |}) with (monitorTx td1).
  change (monitorRx {| work := _ |}) with (monitorRx td1).
  rewrite Hup, Hl, Ht, Hr. cbn [andb].
  change (work td1) with (@None Z).
  change (led_cdev td1) with (led_cdev td).
  repeat split; try reflexivity; try assumption;
    destruct (monitorTx td || monitorRx td); reflexivity.
Qed.

Lemma netdev_trig_notify_lit_witness :
  (NETDEV_CHANGE = NETDEV_UP \/ NETDEV_CHANGE = NETDEV_CHANGE)
  /\ cstr (dev_name (net_eth0 5 0) 1%nat) = cstr (device_name td_polled)
  /\ netif_carrier_ok (net_eth0 5 0) 1%nat = true
  /\ calls_of (netdev_trig_notify (net_eth0 5 0) NETDEV_CHANGE 1%nat
                 td_polled)
     = [CancelDelayedWorkSync; LedSetBrightness 255; ScheduleDelayedWork 0].
Proof.
  assert (H1 : NETDEV_CHANGE = NETDEV_UP \/ NETDEV_CHANGE = NETDEV_CHANGE)
    by (right; reflexivity).
  assert (H2 : cstr (dev_name (net_eth0 5 0) 1%nat)
               = cstr (device_name td_polled)) by reflexivity.
  assert (H3 : netif_carrier_ok (net_eth0 5 0) 1%nat = true) by reflexivity.
  split; [exact H1 | split; [exact H2 | split; [exact H3 |]]].
  destruct (netdev_trig_notify_lit (net_eth0 5 0) NETDEV_CHANGE 1%nat
              td_polled H1 H2 H3) as (_ & _ & _ & Hcalls & _).
  exact Hcalls.
Defined.

(** ** Flag writes and reads *)

Section Flags.
Context {K : kernel_api}.

(** X14: a flag write changes its flag and nothing else of the
    configuration.  When [kstrtoul] accepts the text, the flag written is
    set exactly when the number is not zero (any non-zero number enables
    it), every other bit of the mode, linkIsUp included, stays, and so do
    the handle, the name, the interval and the activity count; the write
    returns its size, and reading the flag back shows 1 or 0 followed by a
    newline accordingly. *)
Theorem flag_write_sets_its_flag (buf : string) (size : nat)
    (attr : netdev_led_attr) (state : Z) (td : led_netdev_data) :
  kstrtoul buf = (0, state) ->
  let r := netdev_led_attr_store buf size attr td in
  let td' := state_of r in
  result r = Z.of_nat size
  /\ test_bit (attr_bit attr) (mode td') = negb (state =? 0)
  /\ (forall nr, nr <> attr_bit attr ->
        test_bit nr (mode td') = test_bit nr (mode td))
  /\ net_dev td' = net_dev td
  /\ device_name td' = device_name td
  /\ interval td' = interval td
  /\ last_activity td' = last_activity td
  /\ result (netdev_led_attr_show attr td')
     = ((if (state =? 0)%Z then "0" else "1")
        ++ String LF EmptyString)%string
  /\ state_of (netdev_led_attr_show attr td') = td'.
Proof.
  intros Hparse r td'. subst td' r.
  rewrite (netdev_led_attr_store_ok buf size attr state td Hparse).
  unfold result, state_of; cbn [fst snd].
  split; [reflexivity |].
  split; [rewrite flagged_state_bits, Z.eqb_refl; reflexivity |].
  split.
  { intros nr Hnr. rewrite flagged_state_bits.
    destruct (Z.eqb_spec nr (attr_bit attr)); [contradiction | reflexivity]. }
  repeat (split; [reflexivity |]).
  split; [| reflexivity].
  unfold netdev_led_attr_show. unfold_monad. cbn [fst].
  change (match attr with
          | NETDEV_ATTR_LINK => NETDEV_LED_LINK
          | NETDEV_ATTR_TX => NETDEV_LED_TX
          | NETDEV_ATTR_RX => NETDEV_LED_RX
          end) with (attr_bit attr).
  rewrite flagged_state_bits, Z.eqb_refl.
  destruct (state =? 0); reflexivity.
Qed.

(** X15: a flag or interval write that [kstrtoul] rejects returns the
    error code of [kstrtoul], leaves the state as it is and calls nothing:
    the poller is not even cancelled. *)
Theorem malformed_write_rejected (buf : string) (size : nat)
    (code value : Z) (td : led_netdev_data) :
  kstrtoul buf = (code, value) -> code <> 0 ->
  (forall attr, netdev_led_attr_store buf size attr td = (code, td, []))
  /\ interval_store buf size td = (code, td, []).
Proof.
  intros Hparse Hcode. split.
  - intros attr. apply (netdev_led_attr_store_err _ _ _ _ _ _ Hparse Hcode).
  - unfold interval_store. rewrite Hparse.
    apply Z.eqb_neq in Hcode. rewrite Hcode. reflexivity.
Qed.

Lemma mode_store_bits (buf : string) (size : nat) (td : led_netdev_data)
    (nr : Z) :
  kstrtoul "1" = (0, 1) -> kstrtoul "0" = (0, 0) ->
  test_bit nr (mode (state_of (mode_store buf size td)))
  = if nr =? 2 then present "rx" buf
    else if nr =? 1 then present "tx" buf
    else if nr =? 0 then present "link" buf
    else test_bit nr (mode td).
Proof.
  intros H1 H0.
  assert (Hstep : forall needle attr td0,
             state_of (match strstr buf needle with
                       | Some _ => netdev_led_attr_store "1" size attr
                       | None => netdev_led_attr_store "0" size attr
                       end td0)
             = baseline_state
                 (flagged_state attr
                    (if present needle buf then 1 else 0) td0)).
  { intros needle attr td0. unfold present.
    destruct (strstr buf needle);
      [rewrite (netdev_led_attr_store_ok "1" size attr 1 td0 H1)
      | rewrite (netdev_led_attr_store_ok "0" size attr 0 td0 H0)];
      reflexivity. }
  unfold mode_store, ret. rewrite !state_of_bind.
  unfold state_of at 1. cbn [fst snd].
  rewrite !Hstep, !flagged_state_bits.
  cbn [attr_bit NETDEV_LED_LINK NETDEV_LED_TX NETDEV_LED_RX].
  destruct (present "rx" buf), (present "tx" buf), (present "link" buf);
    reflexivity.
Qed.

(** X16: writing back what the combined-mode endpoint shows changes no
    flag.  With a [kstrtoul] that reads the literals 0 and 1, storing the
    text [mode_show] returns leaves link, tx, rx and linkIsUp as they were,
    and the endpoint shows the same text again. *)
Theorem mode_show_store_round_trip (size : nat) (td : led_netdev_data) :
  kstrtoul "1" = (0, 1) -> kstrtoul "0" = (0, 0) ->
  let text := result (mode_show td) in
  let td' := state_of (mode_store text size td) in
  monitorLink td' = monitorLink td
  /\ monitorTx td' = monitorTx td
  /\ monitorRx td' = monitorRx td
  /\ linkIsUp td' = linkIsUp td
  /\ result (mode_show td') = text.
Proof.
  intros H1 H0 text td'.
  assert (Hbits : monitorLink td' = monitorLink td
                  /\ monitorTx td' = monitorTx td
                  /\ monitorRx td' = monitorRx td
                  /\ linkIsUp td' = linkIsUp td).
  { subst td'. unfold monitorLink, monitorTx, monitorRx, linkIsUp.
    rewrite !(mode_store_bits _ _ _ _ H1 H0).
    unfold NETDEV_LED_LINK, NETDEV_LED_TX, NETDEV_LED_RX,
      NETDEV_LED_MODE_LINKUP.
    cbn [Z.eqb Pos.eqb].
    subst text. unfold mode_show. unfold_monad. unfold result; cbn [fst].
    unfold attr_value.
    destruct (test_bit 0 (mode td)), (test_bit 1 (mode td)),
      (test_bit 2 (mode td)); repeat split; reflexivity. }
  destruct Hbits as (Hl & Ht & Hr & Hup).
  repeat (split; [assumption |]).
  subst text. unfold mode_show. unfold_monad. unfold result; cbn [fst].
  unfold monitorLink, monitorTx, monitorRx, NETDEV_LED_LINK, NETDEV_LED_TX,
    NETDEV_LED_RX in Hl, Ht, Hr.
  unfold attr_value. rewrite Hl, Ht, Hr. reflexivity.
Qed.

End Flags.

Lemma flag_write_sets_its_flag_witness :
  @kstrtoul kernel_hz100 "7" = (0, 7)
  /\ monitorRx td_polled = false
  /\ result (rx_show (state_of (@rx_store kernel_hz100 "7" 1 td_polled)))
     = ("1" ++ String LF EmptyString)%string.
Proof.
  assert (H : @kstrtoul kernel_hz100 "7" = (0, 7)) by reflexivity.
  split; [exact H | split; [reflexivity |]].
  destruct (@flag_write_sets_its_flag kernel_hz100 "7" 1 NETDEV_ATTR_RX 7
              td_polled H) as (_ & _ & _ & _ & _ & _ & _ & Hshow & _).
  exact Hshow.
Defined.

Lemma malformed_write_rejected_witness :
  @kstrtoul kernel_hz100 "fast" = (- EINVAL, 0)
  /\ - EINVAL <> 0
  /\ @interval_store kernel_hz100 "fast" 4 td_polled
     = (- EINVAL, td_polled, []).
Proof.
  assert (H1 : @kstrtoul kernel_hz100 "fast" = (- EINVAL, 0)) by reflexivity.
  assert (H2 : - EINVAL <> 0) by discriminate.
  split; [exact H1 | split; [exact H2 |]].
  exact (proj2 (@malformed_write_rejected kernel_hz100 "fast" 4 (- EINVAL) 0
                  td_polled H1 H2)).
Defined.

Lemma mode_show_store_round_trip_witness :
  @kstrtoul kernel_hz100 "1" = (0, 1)
  /\ @kstrtoul kernel_hz100 "0" = (0, 0)
  /\ result (mode_show td_polled)
     = ("link tx " ++ String LF EmptyString)%string
  /\ result (mode_show
               (state_of (@mode_store kernel_hz100
                            (result (mode_show td_polled)) 9 td_polled)))
     = result (mode_show td_polled).
Proof.
  split; [reflexivity | split; [reflexivity | split; [reflexivity |]]].
  destruct (@mode_show_store_round_trip kernel_hz100 9 td_polled
              eq_refl eq_refl) as (_ & _ & _ & _ & Hshow).
  exact Hshow.
Defined.

(** ** The pulse brightness *)

Section Amplitude.
Context {K : kernel_api}.

Lemma baseline_amplitude (b : Z) (td : led_netdev_data) :
  b <> 0 -> amplitude_kept b td -> amplitude_kept b (baseline_state td).
Proof.
  intros Hb [Hbb Hlevel].
  assert (Hp : pulse_brightness (led_cdev td) = b).
  { unfold pulse_brightness. rewrite Hbb.
    destruct Hlevel as [-> | ->]; cbn [LED_OFF Z.eqb negb].
    - apply Z.eqb_neq in Hb. rewrite Hb. reflexivity.
    - apply Z.eqb_neq in Hb. rewrite Hb. reflexivity. }
  unfold amplitude_kept, baseline_state, baseline_level;
    cbn [led_cdev blink_brightness brightness].
  rewrite Hp. split; [reflexivity |].
  destruct (linkIsUp td && monitorLink td); [right | left]; reflexivity.
Qed.

(** X17: the brightness the Reconciler settles on is kept.  On an LED
    whose maximum brightness is not zero, once the Reconciler has run the
    pulse brightness is the level it found (the current level if non-zero,
    else the one remembered, else the maximum), and through every later
    sequence of writes, events and ticks it stays that value while the LED
    rests at OFF or at that value. *)
Theorem pulse_brightness_kept (td : led_netdev_data)
    (ops : list (netns * operation)) :
  max_brightness (led_cdev td) <> 0 ->
  amplitude_kept (pulse_brightness (led_cdev td))
    (run ops (state_of (set_baseline_state td))).
Proof.
  intros Hmax.
  pose proof (pulse_brightness_nonzero _ Hmax) as Hb.
  set (b := pulse_brightness (led_cdev td)) in *.
  apply run_invariant.
  - apply step_invariant.
    + intros attr state td0 H. apply baseline_amplitude; assumption.
    + intros ms td0 _ H. apply baseline_amplitude; assumption.
    + intros init_net buf size td0 _ H. apply baseline_amplitude; assumption.
    + intros init_net evt dev td0 _ H. apply baseline_amplitude; assumption.
    + intros init_net td0 d _ [Hbb Hlevel].
      unfold amplitude_kept, ticked_state.
      change (net_dev (with_work td0 None)) with (net_dev td0).
      destruct (net_dev td0);
        [destruct (monitorTx _ || monitorRx _) |];
        cbn; auto.
  - rewrite set_baseline_state_eq. unfold state_of; cbn [fst snd].
    unfold amplitude_kept, baseline_state, baseline_level;
      cbn [led_cdev blink_brightness brightness].
    split; [reflexivity |].
    destruct (linkIsUp td && monitorLink td); [right | left]; reflexivity.
Qed.

End Amplitude.

Lemma pulse_brightness_kept_witness :
  max_brightness (led_cdev td_default) <> 0
  /\ amplitude_kept 255
       (@run kernel_hz100
          [(net_eth0 0 0, Notify NETDEV_UP 1%nat); (net_eth0 0 0, Tick)]
          (state_of (set_baseline_state td_default))).
Proof.
  assert (H : max_brightness (led_cdev td_default) <> 0) by discriminate.
  split; [exact H |].
  exact (@pulse_brightness_kept kernel_hz100 td_default
           [(net_eth0 0 0, Notify NETDEV_UP 1%nat); (net_eth0 0 0, Tick)] H).
Defined.

(** ** Binding, then polling *)

Section FirstTick.
Context {K : kernel_api}.

(** X18: the first tick after a binding compares the counters with zero.
    When a device-name write resolves to a device with carrier while tx or
    rx is monitored, the work is queued with delay 0, and the tick that
    follows issues a blink exactly when the sum of the monitored counters
    is not a multiple of 2^32: a device that has already carried traffic
    makes the LED blink once although nothing was sent or received since
    the binding. *)
Theorem first_tick_after_binding (net1 net2 : netns) (buf : string)
    (size : nat) (td : led_netdev_data) (dev : net_device) :
  (size < IFNAMSIZ)%nat ->
  net_dev (state_of (device_name_store net1 buf size td)) = Some dev ->
  netif_carrier_ok net1 dev = true ->
  monitorTx td || monitorRx td = true ->
  let td1 := state_of (device_name_store net1 buf size td) in
  let r := run_work net2 td1 in
  work td1 = Some 0
  /\ last_activity td1 = 0
  /\ existsb is_oneshot (calls_of r)
     = negb (activity_sum net2 dev td mod 2 ^ 32 =? 0)
  /\ last_activity (state_of r) = activity_sum net2 dev td mod 2 ^ 32.
Proof.
  intros Hsize Hdev Hcarrier Hmon td1 r. subst r td1.
  revert Hdev.
  rewrite (device_name_store_eq net1 buf size td Hsize).
  unfold state_of, calls_of; cbn [fst snd].
  set (td1 := rebound_state net1 buf size td).
  change (net_dev (baseline_state td1)) with (net_dev td1). intros Hdev.
  assert (Hmode : mode td1 = Z.setbit (Z.clearbit (mode td) 3) 3).
  { subst td1. unfold rebound_state in *. cbn [mode net_dev] in *.
    rewrite Hdev, Hcarrier. reflexivity. }
  assert (Hup : linkIsUp td1 = true).
  { unfold linkIsUp. rewrite Hmode. bits. reflexivity. }
  assert (Ht : monitorTx td1 = monitorTx td).
  { unfold monitorTx. rewrite Hmode. bits. reflexivity. }
  assert (Hr : monitorRx td1 = monitorRx td).
  { unfold monitorRx. rewrite Hmode. bits. reflexivity. }
  assert (Hw : work (baseline_state td1) = Some 0).
  { unfold baseline_state, baseline_polls; cbn [work].
    rewrite Hup, Ht, Hr, Hmon. reflexivity. }
  split; [exact Hw |]. split; [reflexivity |].
  rewrite (run_work_pending net2 _ 0 Hw).
  assert (Hdev2 : net_dev (with_work (baseline_state td1) None) = Some dev)
    by exact Hdev.
  assert (Hmon2 : monitorTx (with_work (baseline_state td1) None)
                  || monitorRx (with_work (baseline_state td1) None) = true).
  { change (monitorTx td1 || monitorRx td1 = true).
    rewrite Ht, Hr. exact Hmon. }
  rewrite (netdev_trig_work_eq net2 _ dev Hdev2 Hmon2).
  cbn [fst snd last_activity].
  assert (Hsum : activity_sum net2 dev (with_work (baseline_state td1) None)
                 = activity_sum net2 dev td).
  { unfold activity_sum.
    change (monitorTx (with_work (baseline_state td1) None))
      with (monitorTx td1).
    change (monitorRx (with_work (baseline_state td1) None))
      with (monitorRx td1).
    rewrite Ht, Hr. reflexivity. }
  rewrite Hsum.
  change (last_activity (with_work (baseline_state td1) None)) with 0.
  unfold to_uint. rewrite (Z.eqb_sym 0).
  split; [| reflexivity].
  destruct (activity_sum net2 dev td mod 2 ^ 32 =? 0); reflexivity.
Qed.

End FirstTick.

Lemma first_tick_after_binding_witness :
  (5 < IFNAMSIZ)%nat
  /\ net_dev (state_of (device_name_store (net_eth0 0 0)
                          ("eth0" ++ String LF EmptyString)%string 5
                          td_polled)) = Some 1%nat
  /\ netif_carrier_ok (net_eth0 0 0) 1%nat = true
  /\ monitorTx td_polled || monitorRx td_polled = true
  /\ existsb is_oneshot
       (calls_of (@run_work kernel_hz100 (net_eth0 1000 0)
                    (state_of (device_name_store (net_eth0 0 0)
                                 ("eth0" ++ String LF EmptyString)%string 5
                                 td_polled))))
     = true.
Proof.
  assert (H1 : (5 < IFNAMSIZ)%nat) by (unfold IFNAMSIZ; lia).
  assert (H2 : net_dev (state_of (device_name_store (net_eth0 0 0)
                                    ("eth0" ++ String LF EmptyString)%string
                                    5 td_polled)) = Some 1%nat)
    by reflexivity.
  assert (H3 : netif_carrier_ok (net_eth0 0 0) 1%nat = true) by reflexivity.
  assert (H4 : monitorTx td_polled || monitorRx td_polled = true)
    by reflexivity.
  split; [exact H1 | split; [exact H2 | split; [exact H3 |
    split; [exact H4 |]]]].
  destruct (@first_tick_after_binding kernel_hz100 (net_eth0 0 0)
              (net_eth0 1000 0) _ 5 td_polled 1%nat H1 H2 H3 H4)
    as (_ & _ & Hblink & _).
  rewrite Hblink. reflexivity.
Defined.

(** ** The interval, read back *)

Section IntervalShow.
Context {K : kernel_api}.

(** X19: an interval read back is the one written, when the tick rate can
    hold it.  For an accepted value between 5 and 10000 whose conversion to
    jiffies fits an [int] and converts back to the same number of
    milliseconds, [interval_show] after the write returns that number in
    decimal followed by a newline. *)
Theorem interval_round_trip (buf : string) (size : nat) (ms : Z)
    (td : led_netdev_data) :
  kstrtoul buf = (0, ms) ->
  5 <= ms <= 10000 ->
  0 <= msecs_to_jiffies ms < 2 ^ 31 ->
  jiffies_to_msecs (msecs_to_jiffies ms) = ms ->
  result (interval_show (state_of (interval_store buf size td)))
  = (NilEmpty.string_of_uint (N.to_uint (Z.to_N ms))
     ++ String LF EmptyString)%string.
Proof.
  intros Hparse Hms Hj Hback.
  assert (Hu : to_uint ms = ms).
  { unfold to_uint. apply Z.mod_small.
    change (2 ^ 32) with 4294967296. lia. }
  assert (Hiv : interval (state_of (interval_store buf size td))
                = msecs_to_jiffies ms).
  { unfold interval_store. rewrite Hparse. cbn [Z.eqb negb].
    destruct ((5 <=? ms) && (ms <=? 10000)) eqn:Hrange.
    - rewrite Hu. unfold_monad. fields. rewrite set_baseline_state_eq.
      unfold state_of; fields. cbn [baseline_state interval].
      unfold to_int. change (2 ^ 31) with 2147483648 in *.
      change (2 ^ 32) with 4294967296. cbn [interval with_interval].
      rewrite Z.mod_small by (clear - Hj; lia). lia.
    - apply andb_false_iff in Hrange.
      destruct Hrange as [H | H]; apply Z.leb_gt in H; lia. }
  unfold interval_show. unfold_monad. unfold result; cbn [fst].
  rewrite Hiv.
  replace (to_ulong (msecs_to_jiffies ms)) with (msecs_to_jiffies ms).
  - rewrite Hback. unfold fmt_u. rewrite Hu. reflexivity.
  - unfold to_ulong, to_u64. symmetry. apply Z.mod_small.
    change (2 ^ 31) with 2147483648 in Hj.
    change (2 ^ 64) with 18446744073709551616. lia.
Qed.

End IntervalShow.

Lemma interval_round_trip_witness :
  @kstrtoul kernel_hz100 "200" = (0, 200)
  /\ 5 <= 200 <= 10000
  /\ 0 <= @msecs_to_jiffies kernel_hz100 200 < 2 ^ 31
  /\ @jiffies_to_msecs kernel_hz100 (@msecs_to_jiffies kernel_hz100 200) = 200
  /\ result (@interval_show kernel_hz100
               (state_of (@interval_store kernel_hz100 "200" 3 td_polled)))
     = ("200" ++ String LF EmptyString)%string.
Proof.
  assert (H1 : @kstrtoul kernel_hz100 "200" = (0, 200)) by reflexivity.
  assert (H2 : 5 <= 200 <= 10000) by lia.
  assert (H3 : 0 <= @msecs_to_jiffies kernel_hz100 200 < 2 ^ 31)
    by (split; [discriminate | reflexivity]).
  assert (H4 : @jiffies_to_msecs kernel_hz100
                 (@msecs_to_jiffies kernel_hz100 200) = 200) by reflexivity.
  split; [exact H1 | split; [exact H2 | split; [exact H3 |
    split; [exact H4 |]]]].
  exact (@interval_round_trip kernel_hz100 "200" 3 200 td_polled
           H1 H2 H3 H4).
Defined.

(** ** The unbound controller, over runs *)

Section QuietAlways.
Context {K : kernel_api}.

(** X20: when the LED is off at activation, the invariant of the unbound
    controller holds after every sequence of writes, events and ticks in
    which no UP or CHANGE event with carrier arrives while the handle is
    none: with no handle, linkIsUp is false, the LED is off and the work is
    not queued. *)
Theorem unbound_quiet_always (ops : list (netns * operation))
    (led : led_classdev) :
  brightness led = LED_OFF ->
  bound_when_up ops (netdev_trig_activate led) ->
  unbound_quiet (run ops (netdev_trig_activate led)).
Proof.
  intros Hoff Hops. apply run_quiet; [| exact Hops].
  intros _. repeat split; try reflexivity. exact Hoff.
Qed.

End QuietAlways.

Lemma unbound_quiet_always_witness :
  brightness led_255 = LED_OFF
  /\ @bound_when_up kernel_hz100
       [(net_absent,
         WriteDeviceName ("eth0" ++ String LF EmptyString)%string 5);
        (net_eth0 0 0, Notify NETDEV_REGISTER 1%nat);
        (net_eth0 0 0, Notify NETDEV_UP 1%nat);
        (net_eth0 0 0, Notify NETDEV_UNREGISTER 1%nat)]
       (@netdev_trig_activate kernel_hz100 led_255)
  /\ unbound_quiet
       (@run kernel_hz100
          [(net_absent,
            WriteDeviceName ("eth0" ++ String LF EmptyString)%string 5);
           (net_eth0 0 0, Notify NETDEV_REGISTER 1%nat);
           (net_eth0 0 0, Notify NETDEV_UP 1%nat);
           (net_eth0 0 0, Notify NETDEV_UNREGISTER 1%nat)]
          (@netdev_trig_activate kernel_hz100 led_255)).
Proof.
  assert (H1 : brightness led_255 = LED_OFF) by reflexivity.
  assert (H2 : @bound_when_up kernel_hz100
                 [(net_absent,
                   WriteDeviceName ("eth0" ++ String LF EmptyString)%string
                     5);
                  (net_eth0 0 0, Notify NETDEV_REGISTER 1%nat);
                  (net_eth0 0 0, Notify NETDEV_UP 1%nat);
                  (net_eth0 0 0, Notify NETDEV_UNREGISTER 1%nat)]
                 (@netdev_trig_activate kernel_hz100 led_255))
    by (repeat split; reflexivity).
  split; [exact H1 | split; [exact H2 |]].
  exact (@unbound_quiet_always kernel_hz100 _ led_255 H1 H2).
Defined.

(** ** References to devices *)

Lemma no_ref_calls (dev : net_device) (calls : list call) :
  forallb (fun c => negb (is_ref_call c)) calls = true ->
  holds_in dev calls = 0%nat /\ puts_in dev calls = 0%nat.
Proof.
  induction calls as [| c rest IH]; cbn [forallb]; intros H;
    [split; reflexivity |].
  apply andb_true_iff in H. destruct H as [Hc H].
  destruct (IH H) as [Hh Hp].
  destruct c; try discriminate Hc; split; assumption.
Qed.

Lemma baseline_calls_no_ref (td : led_netdev_data) :
  forallb (fun c => negb (is_ref_call c)) (baseline_calls td) = true.
Proof.
  unfold baseline_calls. destruct (baseline_polls td); reflexivity.
Qed.

Lemma calls_of_bind {A B : Type} (m : M A) (k : A -> M B)
    (td : led_netdev_data) :
  calls_of (bind m k td)
  = calls_of (m td) ++ calls_of (k (result (m td)) (state_of (m td))).
Proof.
  unfold bind, calls_of, state_of, result.
  destruct (m td) as [[a s] c]. cbn [fst snd].
  destruct (k a s) as [[b s'] c']. reflexivity.
Qed.

Lemma held_release (dev : net_device) (h : option net_device) :
  puts_in dev (release h) = held dev h /\ holds_in dev (release h) = 0%nat.
Proof.
  destruct h as [d |]; cbn; [| split; reflexivity].
  destruct (Nat.eqb dev d); split; reflexivity.
Qed.

Section References.
Context {K : kernel_api}.

Lemma attr_store_no_ref (buf : string) (size : nat)
    (attr : netdev_led_attr) (td : led_netdev_data) :
  forallb (fun c => negb (is_ref_call c))
    (calls_of (netdev_led_attr_store buf size attr td)) = true
  /\ net_dev (state_of (netdev_led_attr_store buf size attr td)) = net_dev td.
Proof.
  destruct (kstrtoul buf) as [code state] eqn:Hparse.
  destruct (Z.eq_dec code 0) as [-> | Hcode].
  - rewrite (netdev_led_attr_store_ok buf size attr state td Hparse).
    unfold calls_of, state_of; cbn [fst snd forallb is_ref_call negb andb].
    split; [apply baseline_calls_no_ref | reflexivity].
  - rewrite (netdev_led_attr_store_err buf size attr code state td
               Hparse Hcode).
    split; reflexivity.
Qed.

Lemma bind_no_ref {A B : Type} (m : M A) (k : A -> M B)
    (td : led_netdev_data) :
  (forallb (fun c => negb (is_ref_call c)) (calls_of (m td)) = true
   /\ net_dev (state_of (m td)) = net_dev td) ->
  (forall a td1,
      forallb (fun c => negb (is_ref_call c)) (calls_of (k a td1)) = true
      /\ net_dev (state_of (k a td1)) = net_dev td1) ->
  forallb (fun c => negb (is_ref_call c)) (calls_of (bind m k td)) = true
  /\ net_dev (state_of (bind m k td)) = net_dev td.
Proof.
  intros [Hc Hn] Hk.
  rewrite calls_of_bind, state_of_bind, forallb_app, Hc.
  destruct (Hk (result (m td)) (state_of (m td))) as [Hc2 Hn2].
  rewrite Hc2, Hn2. split; [reflexivity | exact Hn].
Qed.

Lemma mode_store_no_ref (buf : string) (size : nat) (td : led_netdev_data) :
  forallb (fun c => negb (is_ref_call c))
    (calls_of (mode_store buf size td)) = true
  /\ net_dev (state_of (mode_store buf size td)) = net_dev td.
Proof.
  unfold mode_store.
  apply bind_no_ref;
    [destruct (strstr buf "link"); apply attr_store_no_ref |].
  intros _ td1. apply bind_no_ref;
    [destruct (strstr buf "tx"); apply attr_store_no_ref |].
  intros _ td2. apply bind_no_ref;
    [destruct (strstr buf "rx"); apply attr_store_no_ref |].
  intros _ td3. split; reflexivity.
Qed.

Lemma interval_store_no_ref (buf : string) (size : nat)
    (td : led_netdev_data) :
  forallb (fun c => negb (is_ref_call c))
    (calls_of (interval_store buf size td)) = true
  /\ net_dev (state_of (interval_store buf size td)) = net_dev td.
Proof.
  unfold interval_store.
  destruct (kstrtoul buf) as [code value].
  destruct (code =? 0); cbn [negb]; [| split; reflexivity].
  destruct ((5 <=? value) && (value <=? 10000)); [| split; reflexivity].
  unfold_monad. fields. rewrite set_baseline_state_eq.
  unfold calls_of, state_of; fields.
  rewrite app_nil_r. cbn [forallb is_ref_call negb andb].
  split; [apply baseline_calls_no_ref | reflexivity].
Qed.

Lemma run_work_no_ref (init_net : netns) (td : led_netdev_data) :
  forallb (fun c => negb (is_ref_call c))
    (calls_of (run_work init_net td)) = true
  /\ net_dev (state_of (run_work init_net td)) = net_dev td.
Proof.
  assert (Hwork : forall td0,
             forallb (fun c => negb (is_ref_call c))
               (calls_of (netdev_trig_work init_net td0)) = true
             /\ net_dev (state_of (netdev_trig_work init_net td0))
                = net_dev td0).
  { intros td0. destruct (net_dev td0) as [dev |] eqn:Hnd.
    - destruct (monitorTx td0 || monitorRx td0) eqn:Hmon.
      + rewrite (netdev_trig_work_eq init_net td0 dev Hnd Hmon).
        unfold calls_of, state_of; cbn [fst snd net_dev].
        split; [| exact Hnd].
        destruct (last_activity td0 =? _); reflexivity.
      + unfold netdev_trig_work. unfold_monad. rewrite Hnd.
        unfold monitorTx, monitorRx in Hmon.
        rewrite <- negb_orb, Hmon. split; [reflexivity | exact Hnd].
    - unfold netdev_trig_work. unfold_monad. rewrite Hnd.
      split; [reflexivity | exact Hnd]. }
  destruct (work td) as [d |] eqn:Hw.
  - rewrite (run_work_pending init_net td d Hw).
    apply (Hwork (with_work td None)).
  - unfold run_work. unfold_monad. rewrite Hw. split; reflexivity.
Qed.

(** Each operation takes and drops references as the handle changes. *)
Lemma step_references (dev : net_device) (init_net : netns)
    (op : operation) (td : led_netdev_data) :
  (held dev (net_dev td)
   + holds_in dev (step_calls init_net op td)
   + held dev (step_lookup init_net op td))%nat
  = (puts_in dev (step_calls init_net op td)
     + held dev (net_dev (step init_net op td)))%nat.
Proof.
  destruct op; cbn [step_calls step_lookup step held].
  - destruct (size <? IFNAMSIZ)%nat eqn:Hlt.
    + apply Nat.ltb_lt in Hlt.
      rewrite (device_name_store_eq init_net buf size td Hlt).
      unfold calls_of, state_of; cbn [fst snd].
      change (CancelDelayedWorkSync :: ?l)
        with ([CancelDelayedWorkSync] ++ l).
      rewrite !holds_in_app, !puts_in_app.
      destruct (held_release dev (net_dev td)) as [-> ->].
      destruct (no_ref_calls dev _ (baseline_calls_no_ref
                  (rebound_state init_net buf size td))) as [-> ->].
      cbn. lia.
    + apply Nat.ltb_ge in Hlt. unfold device_name_store.
      apply Nat.leb_le in Hlt. rewrite Hlt. cbn. lia.
  - destruct (attr_store_no_ref buf size attr td) as [Hc ->].
    destruct (no_ref_calls dev _ Hc) as [-> ->]. lia.
  - destruct (mode_store_no_ref buf size td) as [Hc ->].
    destruct (no_ref_calls dev _ Hc) as [-> ->]. lia.
  - destruct (interval_store_no_ref buf size td) as [Hc ->].
    destruct (no_ref_calls dev _ Hc) as [-> ->]. lia.
  - destruct (handled evt) eqn:Hevt.
    2: { rewrite netdev_trig_notify_skip by (left; exact Hevt). cbn. lia. }
    destruct (string_dec (cstr (dev_name init_net dev0))
                (cstr (device_name td))) as [Hn | Hn].
    2: { rewrite netdev_trig_notify_skip by (right; exact Hn). cbn. lia. }
    rewrite (netdev_trig_notify_eq init_net evt dev0 td Hevt Hn).
    unfold calls_of, state_of; cbn [fst snd].
    change (CancelDelayedWorkSync :: ?l)
      with ([CancelDelayedWorkSync] ++ l).
    rewrite !holds_in_app, !puts_in_app.
    destruct (no_ref_calls dev _ (baseline_calls_no_ref
                (notified_state init_net evt dev0 td))) as [-> ->].
    cbn [baseline_state notified_state net_dev].
    destruct (held_release dev (net_dev td)) as [Hp Hh].
    destruct evt; try discriminate Hevt;
      cbn [refcount_calls handle_after];
      rewrite ?holds_in_app, ?puts_in_app, ?Hp, ?Hh; cbn; lia.
  - destruct (run_work_no_ref init_net td) as [Hc ->].
    destruct (no_ref_calls dev _ Hc) as [-> ->]. lia.
Qed.

(** X21: the driver holds exactly the references it owes.  Over every
    sequence of writes, events and ticks, for every device, the references
    the driver takes ([dev_hold], and the one [dev_get_by_name] hands to an
    accepted device-name write) exceed the ones it drops ([dev_put]) by one
    for the device it holds at the end and by none for any other, counting
    the one it held at the start; so the [dev_put] of deactivation leaves no
    reference behind and none is dropped twice. *)
Theorem references_balanced (dev : net_device)
    (ops : list (netns * operation)) (td : led_netdev_data) :
  (held dev (net_dev td) + acquired dev ops td)%nat
  = (released dev ops td + held dev (net_dev (run ops td)))%nat
  /\ (held dev (net_dev td) + acquired dev ops td)%nat
     = (released dev ops td
        + puts_in dev (calls_of (netdev_trig_deactivate (run ops td))))%nat.
Proof.
  assert (H : (held dev (net_dev td) + acquired dev ops td)%nat
              = (released dev ops td + held dev (net_dev (run ops td)))%nat).
  { revert td. induction ops as [| [init_net op] rest IH]; intros td;
      cbn [acquired released run]; [lia |].
    pose proof (step_references dev init_net op td) as Hs.
    pose proof (IH (step init_net op td)) as Hr. lia. }
  split; [exact H |]. rewrite H. f_equal.
  unfold netdev_trig_deactivate. unfold_monad.
  unfold calls_of; cbn [fst snd].
  change (net_dev (with_work (run ops td) None)) with (net_dev (run ops td)).
  destruct (net_dev (run ops td)) as [d |]; cbn; [| reflexivity].
  destruct (Nat.eqb dev d); reflexivity.
Qed.

End References.
